(* ===== verification/_CoqProject ===== *)
-Q . S2P
Prelude.v
PyObj.v
Format.v
Store.v
Binding.v
Enumerator.v
Walks.v
Value.v
Alt.v
Sup.v
Hash.v
Blob.v
Registry.v
Nodes.v
Filesystem.v
Program.v
Typing.v
Refine.v
