(* ===== verification/Prelude.v ===== *)
(** * A verification development of the netnode wrapper of ida-minsc

    The program is [src/base/_netnode.py], the internal module of ida-minsc
    that wraps the netnode API of IDA.  Per node it exposes a scalar value,
    the [alt] array of [nodeidx_t], the [sup] array of byte strings of at
    most [MAXSPECSIZE] bytes, the string-keyed [hash] and the blobs, each
    as a class of [classmethod]s ([value], [alt], [sup], [hash], [blob]);
    the module-level [new], [get], [remove] and the class [name] form the
    node registry; the class [utils] holds the ordered walkers that every
    forward and backward enumeration uses.  Every class method makes a
    netnode object of its first argument ([netnode.new]) and calls the
    primitives the class [netnode] binds.

    ** The files, in dependency order

    - [Prelude.v] (this file): the Python exceptions, the result monad
      [res] with its notation [x <- m ;; k] (scope [netnode_scope]), the
      generator outcome [gen] (the values yielded, and whether the
      generator [Returned], [Raised] an exception or is [Suspended] because
      the consumer stopped pulling), the machine constants, byte strings,
      the sorted-key lemmas, the hint databases [netnode] and [netnode_rw].
    - [PyObj.v]: Python values ([pyobj]), type objects ([pytype]) with the
      [issubclass] tests the code makes, truthiness and [a and b], [==] as
      the walkers use it, [len], and callables with their arity ([pyfunc]):
      calling a two-argument function with one argument raises [TypeError].
    - [Format.v]: CPython's text formatting as the [repr] methods use it:
      the integer presentations [{:x}], [{:#x}], [{:d}], the padded string
      [{:<{w}s}], [{!r}] of [None], [bool], [int], [bytes] and [str]
      (quote choice and escapes of Objects/bytesobject.c and
      unicodeobject.c), the newline [join]; [raise_fmt], a [raise] whose
      message formats the node with [{:#x}] first; and the readers
      [parse_int] and [parse_bytes_literal] with the round trips.  A
      memoryview or a netnode prints its address, which the class
      [ObjectIds] supplies and the theorems quantify over.
    - [Store.v]: IDA's netnode database.  The primitives are not part of
      this repository, so they are modelled from their documented
      behaviour (marked [spec_modelled] in the manifest): a [db] maps a
      node index to a [netnode] record (name, value, [alt], [sup], [char],
      [hash] and blobs as stdpp [gmap]s) and keeps the name index; readers
      are functions of the database, writers return the primitive's result
      and the new database (explicit state passing).  The ordered
      primitives walk the keys in the key type's order, as IDA's B-tree
      does; [new] with [do_create] hands out an index past every node.  A
      write that leaves a node with nothing drops its record ([upd]), so
      the node walkers never meet an empty node.  [hashset] refuses a key
      longer than [MAXHASHKEY] (510, the [char*510] of the class [hash]'s
      docstring, line 455) or a value longer than [MAXSPECSIZE].
    - [Binding.v], [Module netnode]: the attributes of class [netnode]
      (lines 20-107) as Python-level functions over a database, with the
      argument conversions of the binding.  A name reaches IDA as a
      [const char *] with a length: [netnode(name, namlen, do_create)]
      with [namlen = 0] and [rename(node, name)] read it up to its first
      NUL ([cstr_prefix]); a non-zero [namlen] takes that many characters
      ([namlen_name]).
    - [Enumerator.v], [Module utils]: the whole class [utils] (lines
      109-233): the node walkers [range], [renumerate], [fenumerate], the
      generic walkers [valfiter], [valriter], [hfiter], [hriter] over
      callables, and their instantiations [falt] ... [rchar], with fuel
      counted in loop iterations; and the class [WalkSpec], the contract a
      quadruple of primitives meets on a list of keys, against which the
      generic walkers' theorems are proved.
    - [Walks.v]: the instances of [WalkSpec] for the [alt], [sup], [char]
      and [hash] arrays of the store, and the theorems on [falt] ...
      [rchar].
    - [Value.v], [Alt.v], [Sup.v], [Hash.v], [Blob.v]: the classes [value]
      (lines 266-315), [alt] (359-397), [sup] (400-451), [hash] (454-520)
      and [blob] (318-346), one definition per method; each [repr] builds
      its text as the source does ([line] is one iteration of its loop,
      [hash.widths] the two width passes of lines 509-513 with their
      [except ValueError]).
    - [Registry.v]: the registry invariant [reg_wf] (names and named
      nodes agree), the primitives that change the database as a step
      relation ([op], [apply_op], [reachable]) and the preservation of
      the invariant by each, by rule induction.
    - [Nodes.v]: the module-level [new], [get], [remove] (lines 235-250),
      the class [name] (253-263) and the module-level [riter]/[fiter]
      (349-356), with the theorems on the registry and on the node walkers.
    - [Filesystem.v], [Module filesystem]: the stub of lines 522-528, its
      class attributes and its constructor, which finds or creates the
      node named by its argument up to its first NUL
      ([idaapi.netnode(name, 0, True)]) and keeps nothing.
    - [Program.v]: every call of the module that writes (constructing a
      [filesystem] included), as a step
      relation on databases ([py_op], [run_py], [py_reachable]); each call
      runs at most one primitive of [Registry.op], and a call given its
      node by an index writes no other node.
    - [Typing.v]: what the arrays hold in every reachable database
      ([node_ok]: [nodeidx_t] indices and [alt] values, [sup] entries of at
      most [MAXSPECSIZE] bytes), preserved by every primitive.
    - [Refine.v]: the specification's sparse key-value map as a record of
      operations with its law ([sparse_spec]) and its abstract machine
      ([sp_step]); a [lens] on one namespace of a netnode; a simulation
      lifted to any sequence of calls ([crun], [arun]).

    ** What is proved

    - Enumeration: with one unit of fuel per key after the first the
      forward walkers yield exactly the keys of a namespace in increasing
      order, each with its value, and return; with less fuel [valfiter]
      has yielded exactly one key per unit past the first and is suspended
      (laziness); [valriter] given the right primitives
      yields the reverse.  The source's [ralt], [rsup], [rhash], [rchar]
      pass [altprev] where [last] is expected: they raise [TypeError] on
      every node.  A key equal to [BADADDR] hides an array from [valriter].
      On a hash whose values are never [None], [hfiter]'s presence test
      and [valfiter]'s sentinel test give the same generator (an
      equivalence, at every fuel).
      The node walkers yield every node in order (and in reverse) and
      raise [NetNodeNotFoundError] on an empty database.
    - Typed reads and writes: the round trip of every stored type through
      [value], [alt], [sup], [hash] and [blob], the width of integers (an
      int is kept modulo 2^64), the absent and error branches, and what
      the code does against its intent ([value.set] of a memoryview always
      raises, [bytes] reads of text raise under Python 3, [alt.get] and
      [hash.get] with [int] read an absent key as 0).
    - Refinement: any sequence of [get], [set] and [remove] calls of the
      classes [alt], [sup] and [hash] on a node gives the results of the
      abstract sparse map of its namespace, bounds included ([sup] and
      [hash] refuse what IDA refuses), and changes nothing else.
    - Locality and types: a call given its node by an index changes no
      other node's record; in every reachable database the [alt], [sup]
      and [char] arrays hold what their C types say and the registry is
      consistent.
    - Blobs: [blob.get] returns exactly the stored bytes although the
      primitive returns whole padded chunks.
    - Registry: [new] and [get] agree and [new] is idempotent, [remove]
      leaves nothing of the node, [name.set] renames or is refused, [get]
      never raises; the invariant holds of every database a program
      reaches through the module's calls.  [name.set] passes the name to
      [rename] as a C string while [get] and [new] pass [len(name)]: a
      name with a NUL in it is stored cut at the NUL, and [get] of the
      same string then does not find the node.
    - Diagnostic text: [alt.repr] and [sup.repr] print one line per key in
      order, joined by newlines, and raise [MissingTypeOrAttribute] on an
      empty array; [hash.repr] on an empty hash falls back to the widths 0
      and 2 and raises the same; [alt.repr] prints each entry's index in
      hex and value in [#x] and decimal, and the text of [blob.repr] reads
      back as the blob byte for byte.  The messages of the exceptions format the node with
      [{:#x}], so on a node given by its name the [value] methods raise
      [ValueError] instead of the exception they mean.

    ** Bounds and fuel

    [nodeidx_t] is 64 bits wide ([NODEIDX_BITS]), [BADADDR] is 2^64-1,
    [MAXSPECSIZE] is [idaapi.MAXSTR] (line 17: 1024), the chunk size of
    blobs and the bound of a [sup] entry, and [MAXNAMESIZE] is
    [idaapi.MAXNAMELEN] (line 18: 512).  The walkers take fuel counted in loop
    iterations; the theorems show that the number of keys minus one
    suffices for the whole enumeration and that with less fuel the
    generator is suspended after exactly as many keys.

    ** Not modelled

    The file-allocation-table file system itself, which the source does
    not contain (line 522 is a FIXME; its constructor is modelled); the
    address a memoryview or a netnode prints in a [repr], which depends on
    the run and is left to the class [ObjectIds]; the exception messages
    beyond the formatting that can make them raise; the import of
    [_ida_netnode] (lines 21-28) and the version test (lines 86-107),
    which choose under which IDA 6.x or 7.x name the same primitive is
    bound (each binding is mapped to both of its lines), and concurrent
    mutation of a namespace during an enumeration (the spec
    leaves it undefined; a walker reads one fixed database).  Strings are
    Rocq strings of 8-bit characters: a Python 3 [str] with characters
    beyond Latin-1, which the binding would encode as UTF-8 (so that
    [len(name)] counts fewer units than IDA receives), is not modelled;
    [internal.utils.string.to] and [of] are the identity, as under
    Python 3; a hash key is taken whole, not cut at a NUL. *)

From stdpp Require Import base list gmap strings sorting.
From Stdlib Require Import ZArith Ascii.
From Stdlib Require Strings.Byte.

(** ** Python exceptions *)

(** The exceptions the module raises ([internal.exceptions]) and the
    [TypeError] the Python runtime raises on a call with the wrong number of
    arguments or of the wrong type, and the [OverflowError] of the binding
    on a negative Python int given for a [size_t]. *)
Inductive exn :=
| NetNodeNotFoundError
| InvalidTypeOrValueError
| MissingTypeOrAttribute
| TypeError
| ValueError
| OverflowError.

#[export] Instance exn_eq_dec : EqDecision exn.
Proof. solve_decision. Defined.

(** ** The result of a Python call: a value or a raised exception *)

Inductive res (A : Type) :=
| Ok (a : A)
| Err (e : exn).
Arguments Ok {A} a.
Arguments Err {A} e.

Definition res_bind {A B} (m : res A) (k : A -> res B) : res B :=
  match m with
  | Ok a => k a
  | Err e => Err e
  end.

Definition res_map {A B} (f : A -> B) (m : res A) : res B :=
  res_bind m (fun a => Ok (f a)).

Declare Scope netnode_scope.
Delimit Scope netnode_scope with nn.
Notation "x <- m ;; k" := (res_bind m (fun x => k))
  (at level 60, m at next level, right associativity) : netnode_scope.
Open Scope netnode_scope.

Lemma res_bind_ok {A B} (a : A) (k : A -> res B) : res_bind (Ok a) k = k a.
Proof. reflexivity. Qed.

Lemma res_bind_err {A B} e (k : A -> res B) : res_bind (Err e) k = Err e.
Proof. reflexivity. Qed.

Lemma res_bind_ok_inv {A B} (m : res A) (k : A -> res B) b :
  res_bind m k = Ok b -> exists a, m = Ok a /\ k a = Ok b.
Proof. destruct m; simpl; [eauto | discriminate]. Qed.

(** ** Generators *)

(** How a Python generator stops: by returning, by raising, or not yet
    because the consumer stopped pulling (the fuel ran out). *)
Inductive ending :=
| Returned
| Raised (e : exn)
| Suspended.

#[export] Instance ending_eq_dec : EqDecision ending.
Proof. solve_decision. Defined.

(** What a generator produced: the values it yielded, in order, and its
    ending. *)
Record gen (A : Type) := Gen { yielded : list A; ending_of : ending }.
Arguments Gen {A} yielded ending_of.
Arguments yielded {A} g.
Arguments ending_of {A} g.

Definition gen_return {A} : gen A := Gen [] Returned.
Definition gen_raise {A} (e : exn) : gen A := Gen [] (Raised e).
Definition gen_suspend {A} : gen A := Gen [] Suspended.
Definition gen_yield {A} (a : A) (g : gen A) : gen A :=
  Gen (a :: yielded g) (ending_of g).

(** [for x in g: yield f(x)]: a generator that relays another one. *)
Definition gen_map {A B} (f : A -> B) (g : gen A) : gen B :=
  Gen (f <$> yielded g) (ending_of g).

(** Run a fallible step inside a generator body: an exception ends it. *)
Definition gen_bind {A B} (m : res A) (k : A -> gen B) : gen B :=
  match m with
  | Ok a => k a
  | Err e => gen_raise e
  end.

Notation "x <-- m ;; k" := (gen_bind m (fun x => k))
  (at level 60, m at next level, right associativity) : netnode_scope.

(** [f] over a list, the first exception winning. *)
Fixpoint map_res {A B} (f : A -> res B) (l : list A) : res (list B) :=
  match l with
  | [] => Ok []
  | x :: l' => y <- f x ;; ys <- map_res f l' ;; Ok (y :: ys)
  end.

(** [for x in g: body(x)], collecting what the body returns: the body runs
    on each value as it is yielded, so its first exception wins over the
    generator's; nothing is known while the generator is suspended. *)
Definition gen_for {A B} (g : gen A) (body : A -> res B) : option (res (list B)) :=
  match map_res body (yielded g) with
  | Err e => Some (Err e)
  | Ok ys =>
      match ending_of g with
      | Returned => Some (Ok ys)
      | Raised e => Some (Err e)
      | Suspended => None
      end
  end.

(** [enumerate(l)]. *)
(** Sequencing of a computation that may run out of fuel or raise. *)
Definition ores_bind {A B} (m : option (res A)) (k : A -> option (res B)) : option (res B) :=
  match m with
  | Some (Ok a) => k a
  | Some (Err e) => Some (Err e)
  | None => None
  end.

Definition enumerate {A} (l : list A) : list (nat * A) := zip (seq 0 (length l)) l.

Lemma map_res_ok {A B} (f : A -> B) (l : list A) : map_res (fun x => Ok (f x)) l = Ok (f <$> l).
Proof. induction l as [|x l IH]; simpl; [done|]. by rewrite IH. Qed.

Lemma map_res_fmap {A B C} (f : B -> res C) (g : A -> B) (h : A -> C) (l : list A) :
  (forall x, f (g x) = Ok (h x)) -> map_res f (g <$> l) = Ok (h <$> l).
Proof. intros Hf. induction l as [|x l IH]; [done|]. cbn. by rewrite Hf, IH. Qed.

Lemma gen_map_yield {A B} (f : A -> B) a g :
  gen_map f (gen_yield a g) = gen_yield (f a) (gen_map f g).
Proof. reflexivity. Qed.

Lemma gen_map_compose {A B C} (f : A -> B) (h : B -> C) g :
  gen_map h (gen_map f g) = gen_map (h ∘ f) g.
Proof. unfold gen_map; simpl. by rewrite list_fmap_compose. Qed.

Lemma gen_map_id {A} (g : gen A) : gen_map id g = g.
Proof. destruct g; unfold gen_map; simpl. by rewrite list_fmap_id. Qed.

(** ** Machine constants *)

(** IDA's [nodeidx_t] (and [ea_t]) under the 64-bit kernel. *)
Definition NODEIDX_BITS : Z := 64.
Definition NODEIDX_MOD : Z := 2 ^ NODEIDX_BITS.
(** [idaapi.BADADDR], also IDA's [BADNODE]: all ones. *)
Definition BADADDR : Z := NODEIDX_MOD - 1.
(** [idaapi.MAXSTR]: the largest supval, and the blob chunk size. *)
Definition MAXSPECSIZE : nat := 1024.
(** [idaapi.MAXNAMELEN]. *)
Definition MAXNAMESIZE : nat := 512.

(** Conversion of a Python int to [nodeidx_t]: reduced modulo 2^64. *)
Definition to_nodeidx (z : Z) : Z := z mod NODEIDX_MOD.

Lemma to_nodeidx_small z : (0 <= z < NODEIDX_MOD)%Z -> to_nodeidx z = z.
Proof. apply Z.mod_small. Qed.

Lemma to_nodeidx_idem z : to_nodeidx (to_nodeidx z) = to_nodeidx z.
Proof. unfold to_nodeidx. apply Z.mod_mod. unfold NODEIDX_MOD, NODEIDX_BITS. lia. Qed.

Lemma to_nodeidx_range z : (0 <= to_nodeidx z < NODEIDX_MOD)%Z.
Proof. apply Z.mod_pos_bound. reflexivity. Qed.

(** ** Byte strings and text *)

Lemma string_app_assoc s1 s2 s3 : (s1 +:+ s2) +:+ s3 = s1 +:+ (s2 +:+ s3).
Proof. induction s1 as [|a s1 IH]; [done|]. exact (f_equal (String a) IH). Qed.

(** A Python [bytes] object, or the buffer a primitive stores. *)
Abbreviation bytes := (list Byte.byte).

#[export] Instance byte_eq_dec : EqDecision Byte.byte := Byte.byte_eq_dec.

(** Text is stored as its bytes, one per character, and read back as a
    C string: the bytes up to the first NUL. *)
Fixpoint encode_str (s : string) : bytes :=
  match s with
  | EmptyString => []
  | String a s' => Ascii.byte_of_ascii a :: encode_str s'
  end.

Fixpoint decode_cstr (b : bytes) : string :=
  match b with
  | [] => EmptyString
  | c :: rest =>
      if decide (c = Byte.x00) then EmptyString
      else String (Ascii.ascii_of_byte c) (decode_cstr rest)
  end.

(** A string that the C-string reading gives back intact. *)
Definition no_nul (s : string) : Prop := Ascii.zero ∉ String.list_ascii_of_string s.

#[export] Instance no_nul_dec s : Decision (no_nul s).
Proof. unfold no_nul. apply _. Defined.

Lemma decode_encode_str s : no_nul s -> decode_cstr (encode_str s) = s.
Proof.
  unfold no_nul. induction s as [|a s IH]; simpl; [done|].
  intros Hnul. rewrite not_elem_of_cons in Hnul. destruct Hnul as [Ha Hs].
  rewrite decide_False.
  - rewrite Ascii.ascii_of_byte_of_ascii, IH; done.
  - intros Hb. apply Ha. rewrite <- (Ascii.ascii_of_byte_of_ascii a), Hb. reflexivity.
Qed.

Lemma length_encode_str s : length (encode_str s) = String.length s.
Proof. induction s; simpl; auto. Qed.

(** ** Walks over key lists *)

(** The first and last keys of a walk, or the marker a primitive returns
    when there are none. *)
Definition first_or {K} (bad : K) (ks : list K) : K := default bad (head ks).
Definition last_or {K} (bad : K) (ks : list K) : K := default bad (last ks).

(** The values a walk yields for its keys. *)
Definition items {K V} (vs : K -> V) (ks : list K) : list (K * V) := (fun k => (k, vs k)) <$> ks.

Lemma items_fmap {K L V} (vs : L -> V) (f : K -> L) (l : list K) :
  items vs (f <$> l) = (fun x => (f x, vs (f x))) <$> l.
Proof. unfold items. by rewrite <- list_fmap_compose. Qed.

Lemma fst_items {K V} (vs : K -> V) (l : list K) : fst <$> items vs l = l.
Proof. unfold items. rewrite <- list_fmap_compose. apply list_fmap_id. Qed.

Lemma last_or_snoc {K} (bad : K) l k : last_or bad (l ++ [k]) = k.
Proof. unfold last_or. by rewrite last_snoc. Qed.

Lemma last_or_cons {K} (x y : K) r : last_or x (y :: r) = last_or y r.
Proof. unfold last_or. rewrite last_cons. by destruct (last r). Qed.

Lemma last_cons_or {K} (k : K) rest : last (k :: rest) = Some (last_or k rest).
Proof.
  revert k. induction rest as [|y rest IH]; intros k; [done|].
  change (last (k :: y :: rest)) with (last (y :: rest)). by rewrite IH, last_or_cons.
Qed.

Lemma last_or_app_cons {K} (bad : K) l1 k rest :
  last_or bad (l1 ++ k :: rest) = last_or k rest.
Proof.
  unfold last_or. rewrite last_app_cons, last_cons. by destruct (last rest).
Qed.

Lemma first_or_fmap {K L} (f : K -> L) bad ks : f (first_or bad ks) = first_or (f bad) (f <$> ks).
Proof. by destruct ks. Qed.

Lemma last_or_fmap {K L} (f : K -> L) bad ks : f (last_or bad ks) = last_or (f bad) (f <$> ks).
Proof. unfold last_or. rewrite fmap_last. by destruct (last ks). Qed.

Lemma last_or_elem {K} (x : K) r : last_or x r ∈ x :: r.
Proof.
  unfold last_or. destruct (last r) eqn:E; simpl; [|set_solver].
  apply last_Some in E as [l' ->]. set_solver.
Qed.

Lemma first_or_snoc_rev {K} (bad : K) l k : first_or bad (l ++ [k]) = last_or k (reverse l).
Proof.
  destruct l as [|a l]; [done|]. unfold last_or. rewrite reverse_cons, last_snoc. done.
Qed.

Lemma last_or_reverse {K} (bad : K) l : last_or bad l = first_or bad (reverse l).
Proof.
  destruct l as [|x l] using rev_ind; [done|].
  by rewrite reverse_snoc, last_or_snoc.
Qed.

Lemma fmap_split2 {A B} (f : A -> B) (l : list A) l1 b b' l2 :
  f <$> l = l1 ++ b :: b' :: l2 ->
  exists m1 a a' m2, l = m1 ++ a :: a' :: m2 /\ b = f a /\ b' = f a' /\ l1 = f <$> m1.
Proof.
  intros Hl. apply fmap_app_inv in Hl as (m1 & r & Hm1 & Hr & ->).
  symmetry in Hr. apply fmap_cons_inv in Hr as (a & r' & Ha & Hr' & ->).
  symmetry in Hr'. apply fmap_cons_inv in Hr' as (a' & m2 & Ha' & _ & ->).
  exists m1, a, a', m2. auto.
Qed.

(** ** Sorted key lists *)

(** The ordered primitives of IDA walk a namespace's keys in the order of
    the key type.  [R] is that (total, decidable) order; the strict order is
    [R x y /\ x <> y]. *)
Section SortedKeys.
  Context {K : Type} `{EqDecision K} (R : relation K) `{!RelDecision R}
    `{!PartialOrder R} `{!Total R}.

Definition key_lt (x y : K) : Prop := R x y /\ x <> y.

#[local] Instance key_lt_dec : RelDecision key_lt.
  Proof. intros x y. unfold key_lt. apply _. Defined.

  (** The first key strictly after [k], and the last one strictly before:
      IDA's [next]/[prev] on a namespace whose keys, in order, are [ks]. *)
Definition succ_key (ks : list K) (k : K) : option K :=
    List.find (fun x => bool_decide (key_lt k x)) ks.
Definition pred_key (ks : list K) (k : K) : option K :=
    List.find (fun x => bool_decide (key_lt x k)) (rev ks).

  (** The keys of a map, in increasing order. *)
Definition sorted_keys `{Countable K} {V} (m : gmap K V) : list K :=
    merge_sort R (map_to_list m).*1.

Lemma find_app_skip (p : K -> bool) l1 l2 :
    (forall x, x ∈ l1 -> p x = false) -> List.find p (l1 ++ l2) = List.find p l2.
  Proof.
    induction l1 as [|y l1 IH]; intros Hl1; simpl; [done|].
    rewrite Hl1 by set_solver. apply IH. intros x Hx. apply Hl1. set_solver.
  Qed.

Lemma key_lt_irrefl x : ~ key_lt x x.
  Proof. intros [_ Hne]. by apply Hne. Qed.

Lemma key_lt_asym x y : key_lt x y -> ~ key_lt y x.
  Proof.
    intros [Hxy Hne] [Hyx _]. apply Hne. by apply (anti_symm R).
  Qed.

Lemma key_lt_trans x y z : key_lt x y -> key_lt y z -> key_lt x z.
  Proof.
    intros [Hxy Hne1] [Hyz Hne2]. split; [by trans y|].
    intros ->. apply Hne1. by apply (anti_symm R).
  Qed.

  (** In a strictly increasing list, the key after [k] is its successor. *)
Lemma succ_key_next ks l1 k k' l2 :
    StronglySorted key_lt ks -> ks = l1 ++ k :: k' :: l2 -> succ_key ks k = Some k'.
  Proof.
    intros Hs ->. unfold succ_key.
    apply StronglySorted_app in Hs as [Hcross [_ Hs2]].
    rewrite find_app_skip; simpl.
    - rewrite bool_decide_false by apply key_lt_irrefl.
      inversion Hs2 as [|? ? _ Hk]; subst.
      rewrite bool_decide_true; [done|]. by inversion Hk.
    - intros x Hx. apply bool_decide_false, key_lt_asym, Hcross; set_solver.
  Qed.

  (** In a strictly increasing list, the key before [k'] is its predecessor. *)
Lemma pred_key_prev ks l1 k k' l2 :
    StronglySorted key_lt ks -> ks = l1 ++ k :: k' :: l2 -> pred_key ks k' = Some k.
  Proof.
    intros Hs ->. unfold pred_key.
    apply StronglySorted_app in Hs as [_ [_ Hs2]].
    rewrite rev_app_distr. simpl. rewrite <- !app_assoc. simpl.
    inversion Hs2 as [|? ? Hs3 Hk]; subst. inversion Hs3 as [|? ? _ Hk']; subst.
    rewrite find_app_skip; simpl.
    - rewrite bool_decide_false by apply key_lt_irrefl.
      rewrite bool_decide_true; [done|]. by inversion Hk.
    - intros x Hx. apply list_elem_of_In, in_rev in Hx.
      apply bool_decide_false, key_lt_asym.
      eapply Forall_forall in Hk'; [exact Hk'|by apply list_elem_of_In].
  Qed.

Lemma StronglySorted_key_lt_NoDup (l : list K) :
    StronglySorted key_lt l -> NoDup l.
  Proof.
    induction 1 as [|x l _ IH Hx]; constructor; [|done].
    intros Hin. eapply Forall_forall in Hx; [|exact Hin]. by apply key_lt_irrefl in Hx.
  Qed.

Lemma StronglySorted_strict (l : list K) :
    StronglySorted R l -> NoDup l -> StronglySorted key_lt l.
  Proof.
    induction 1 as [|x l Hs IH Hx]; intros Hnd; constructor.
    - apply IH. by inversion Hnd.
    - inversion Hnd as [|? ? Hnin _]; subst.
      apply Forall_forall. intros y Hy. split.
      + by eapply Forall_forall in Hx.
      + intros ->. apply Hnin. by apply list_elem_of_In.
  Qed.

  (** In a strictly increasing list, a key no smaller than every key is the
      last one. *)
Lemma sorted_last_max (l : list K) x :
    StronglySorted key_lt l -> x ∈ l -> (forall y, y ∈ l -> R y x) -> last l = Some x.
  Proof.
    intros Hs Hx Hmax. apply list_elem_of_split in Hx as (l1 & l2 & ->).
    destruct l2 as [|y l2]; [apply last_snoc|].
    apply StronglySorted_app in Hs as [_ [_ Hs2]]. inversion Hs2 as [|? ? _ Hy]; subst.
    assert (Hxy : key_lt x y) by (inversion Hy; done).
    exfalso. apply (key_lt_asym x y Hxy). split; [apply Hmax; set_solver|].
    intros ->. by apply key_lt_irrefl in Hxy.
  Qed.

  (** Every key of a strictly increasing list is at most its last one. *)
Lemma sorted_le_last (l : list K) x m :
    StronglySorted key_lt l -> x ∈ l -> last l = Some m -> R x m.
  Proof.
    intros Hs Hx Hm. apply last_Some in Hm as [l' ->].
    apply StronglySorted_app in Hs as [Hcross _].
    apply elem_of_app in Hx as [Hx | Hx%list_elem_of_singleton].
    - apply (Hcross x m Hx). set_solver.
    - subst. reflexivity.
  Qed.

  (** The first key of a strictly increasing list is at most every key. *)
Lemma sorted_head_le (l : list K) x h :
    StronglySorted key_lt l -> x ∈ l -> head l = Some h -> R h x.
  Proof.
    intros Hs Hx Hh. destruct l as [|y l]; [done|]. injection Hh as ->.
    apply elem_of_cons in Hx as [-> | Hx]; [reflexivity|].
    inversion Hs as [|? ? _ Hall]; subst. eapply Forall_forall in Hall; [|exact Hx].
    apply Hall.
  Qed.

  Context `{Countable K} {V : Type}.

Lemma sorted_keys_sorted (m : gmap K V) : StronglySorted key_lt (sorted_keys m).
  Proof.
    apply StronglySorted_strict.
    - apply Sorted_StronglySorted; [apply _|]. apply Sorted_merge_sort, _.
    - unfold sorted_keys. rewrite merge_sort_Permutation. apply NoDup_fst_map_to_list.
  Qed.

Lemma elem_of_sorted_keys (m : gmap K V) k : k ∈ sorted_keys m <-> is_Some (m !! k).
  Proof.
    unfold sorted_keys. rewrite merge_sort_Permutation, list_elem_of_fmap.
    split.
    - intros [[k' v] [-> Hin]]. apply elem_of_map_to_list in Hin. simpl. eauto.
    - intros [v Hv]. exists (k, v). split; [done|]. by apply elem_of_map_to_list.
  Qed.

Lemma sorted_keys_empty : sorted_keys (∅ : gmap K V) = [].
  Proof. unfold sorted_keys. by rewrite map_to_list_empty. Qed.
End SortedKeys.

(** Close a decidable proposition about concrete data by evaluation. *)
Ltac decide_by_eval := apply (bool_decide_unpack _); vm_compute; reflexivity.

Create HintDb netnode discriminated.
Create Rewrite HintDb netnode_rw.
#[export] Hint Resolve sorted_keys_sorted : netnode.
#[export] Hint Rewrite @res_bind_ok @res_bind_err @gen_map_yield : netnode_rw.
