(* ===== verification/PyObj.v ===== *)
(** * Python values, type objects and callables

    The module is dynamically typed: [value.get], [sup.get] and [hash.get]
    dispatch on the type object passed as [type=], [value.set] and
    [hash.set] on the runtime type of the value, and the [utils] walkers
    call whatever functions they are given.  This file models those Python
    objects (Python 3: [six.string_types] is [(str,)] and
    [six.integer_types] is [(int,)], of which [bool] is a subclass), the
    [issubclass]/[isinstance] tests of the code, truthiness and the
    [res and f(res)] idiom, equality as the walkers use it, and callables
    with their arity. *)

From S2P Require Import Prelude.
From stdpp Require Import base list strings.
From Stdlib Require Import ZArith.

(** ** Type objects *)

Inductive pytype :=
| TMemoryview
| TBytes
| TStr
| TInt
| TBool
| TOther (name : string).

#[export] Instance pytype_eq_dec : EqDecision pytype.
Proof. solve_decision. Defined.

(** [issubclass(t, memoryview)], [issubclass(t, bytes)],
    [issubclass(t, six.string_types)], [issubclass(t, six.integer_types)]. *)
Definition issubclass_memoryview (t : pytype) : bool :=
  match t with TMemoryview => true | _ => false end.
Definition issubclass_bytes (t : pytype) : bool :=
  match t with TBytes => true | _ => false end.
Definition issubclass_string_types (t : pytype) : bool :=
  match t with TStr => true | _ => false end.
Definition issubclass_integer_types (t : pytype) : bool :=
  match t with TInt | TBool => true | _ => false end.

(** ** Objects *)

Inductive pyobj :=
| PNone
| PBool (b : bool)
| PInt (z : Z)
| PBytes (b : bytes)
| PStr (s : string)
| PMemoryview (b : bytes)
| PNode (idx : Z)           (** a [netnode] object wrapping an index *)
| PObject (t : string).     (** any other object, by its type name *)

#[export] Instance pyobj_eq_dec : EqDecision pyobj.
Proof. solve_decision. Defined.

Definition type_of (v : pyobj) : pytype :=
  match v with
  | PNone => TOther "NoneType"
  | PBool _ => TBool
  | PInt _ => TInt
  | PBytes _ => TBytes
  | PStr _ => TStr
  | PMemoryview _ => TMemoryview
  | PNode _ => TOther "netnode"
  | PObject t => TOther t
  end.

(** [bool(v)]. *)
Definition truthy (v : pyobj) : bool :=
  match v with
  | PNone => false
  | PBool b => b
  | PInt z => negb (Z.eqb z 0)
  | PBytes b | PMemoryview b => negb (bool_decide (b = []))
  | PStr s => negb (bool_decide (s = EmptyString))
  | PNode _ | PObject _ => true
  end.

(** The integer a bool or an int stands for. *)
Definition py_num (v : pyobj) : option Z :=
  match v with
  | PBool b => Some (if b then 1 else 0)%Z
  | PInt z => Some z
  | _ => None
  end.

(** [a and f(a)]: [f] runs only when [a] is true. *)
Definition py_and (a : pyobj) (f : pyobj -> res pyobj) : res pyobj :=
  if truthy a then f a else Ok a.

(** [a or b]. *)
Definition py_or (a b : pyobj) : pyobj := if truthy a then a else b.

(** [memoryview(v)] and [bytes(v)] on the values the primitives return. *)
Definition py_memoryview (v : pyobj) : res pyobj :=
  match v with
  | PBytes b | PMemoryview b => Ok (PMemoryview b)
  | _ => Err TypeError
  end.
Definition py_bytes (v : pyobj) : res pyobj :=
  match v with
  | PBytes b | PMemoryview b => Ok (PBytes b)
  | _ => Err TypeError
  end.

(** [v[:n]] on bytes: a negative bound counts from the end. *)
Definition py_slice_to (v n : pyobj) : res pyobj :=
  match v, py_num n with
  | PBytes b, Some z =>
      let k := if (z <? 0)%Z then Z.max 0 (Z.of_nat (length b) + z) else z in
      Ok (PBytes (take (Z.to_nat k) b))
  | _, _ => Err TypeError
  end.

(** [memoryview.tobytes()]. *)
Definition tobytes (b : bytes) : pyobj := PBytes b.

(** A buffer a primitive returns, or [None]. *)
Definition of_buffer (o : option bytes) : pyobj :=
  match o with Some b => PBytes b | None => PNone end.
Definition of_text (o : option string) : pyobj :=
  match o with Some s => PStr s | None => PNone end.

(** ** Equality as [==] and [in] compute it on keys *)

(** [a == b]: numbers by value ([True == 1]), buffers and strings by
    content, [None] only to itself; netnode objects by their index. *)
Definition py_eqb (a b : pyobj) : bool :=
  match a, b with
  | PNone, PNone => true
  | (PBytes x | PMemoryview x), (PBytes y | PMemoryview y) => bool_decide (x = y)
  | PStr x, PStr y => bool_decide (x = y)
  | PNode i, PNode j => bool_decide (i = j)
  | _, _ =>
      match py_num a, py_num b with
      | Some x, Some y => Z.eqb x y
      | _, _ => false
      end
  end.

(** [x in {a, b, ...}] for the hashable values the walkers compare. *)
Definition py_in (x : pyobj) (l : list pyobj) : bool := existsb (py_eqb x) l.

(** The keys the walkers compare are ints or strs: on them [==] is
    equality. *)
Definition py_key (v : pyobj) : Prop :=
  match v with PInt _ | PStr _ => True | _ => False end.

Lemma py_eqb_key a b : py_key a -> py_key b -> py_eqb a b = true <-> a = b.
Proof.
  destruct a, b; simpl; try tauto; intros _ _;
    rewrite ?bool_decide_eq_true, ?Z.eqb_eq; split; congruence.
Qed.

Lemma py_eqb_refl_key a : py_key a -> py_eqb a a = true.
Proof. intros Ha. by apply py_eqb_key. Qed.

(** ** Callables *)

(** A Python function with the number of positional arguments it takes
    (the optional [tag] of IDA's primitives left at its default). *)
Inductive pyfunc :=
| Fn1 (f : pyobj -> res pyobj)
| Fn2 (f : pyobj -> pyobj -> res pyobj).

(** [f(a)] and [f(a, b)]: a call with a missing argument raises
    [TypeError]; so does a surplus argument in this model (the source
    never makes such a call). *)
Definition call1 (f : pyfunc) (a : pyobj) : res pyobj :=
  match f with Fn1 g => g a | Fn2 _ => Err TypeError end.
Definition call2 (f : pyfunc) (a b : pyobj) : res pyobj :=
  match f with Fn2 g => g a b | Fn1 _ => Err TypeError end.

Lemma call1_arity f a : call1 (Fn2 f) a = Err TypeError.
Proof. reflexivity. Qed.

#[export] Hint Resolve py_eqb_refl_key : netnode.

(** [len(v)] of a str or a buffer. *)
Definition py_len_z (v : pyobj) : res Z :=
  match v with
  | PStr s => Ok (Z.of_nat (String.length s))
  | PBytes b | PMemoryview b => Ok (Z.of_nat (length b))
  | _ => Err TypeError
  end.
Definition py_len (v : pyobj) : res pyobj := res_map PInt (py_len_z v).

(** [max(l)] of integers: [ValueError] on an empty sequence. *)
Definition py_max (l : list Z) : res Z :=
  match l with
  | [] => Err ValueError
  | z :: l => Ok (foldl Z.max z l)
  end.
