(* ===== verification/Format.v ===== *)
(** * Python's text formatting: [str.format], [repr] and [join]

    The [repr] methods of [value], [blob], [alt], [sup] and [hash]
    ([src/base/_netnode.py] lines 311-315, 342-346, 390-397, 443-451 and
    506-520) build their text with [str.format] and a newline [join].  This
    file models the pieces they use, after CPython 3:
    - the integer presentations [{:x}], [{:#x}] and [{:d}] ([format_int]):
      a minus sign, the [0x] prefix of [#], then the lower-case digits of
      the absolute value; a [bool] formats as its integer, a [str] raises
      [ValueError] (unknown format code) and any other object [TypeError]
      ([format_num]);
    - the left-aligned string presentation [{:<{w}s}] ([format_str]);
    - [{!r}] ([py_repr]): [None], [True] and [False], decimal integers, the
      [b'...'] literal of a [bytes] object and the quoted literal of a [str]
      (Objects/bytesobject.c and Objects/unicodeobject.c: the quote is a
      double quote when the text holds a single quote and no double quote;
      backslash escapes for the quote, the backslash, tab, newline and
      carriage return, [\xhh] for the other unprintable characters); a
      memoryview, a netnode and any other object print their address, which
      the class [ObjectIds] supplies;
    - the newline [join] of the lines ([join_lines]).
    With them come their readers, [parse_int] and [parse_bytes_literal],
    and the round trips that make the printed text determine the numbers
    and the bytes it shows. *)

From S2P Require Import Prelude PyObj.
From stdpp Require Import base list strings.
From Stdlib Require Import ZArith NArith Ascii.
From Stdlib Require DecimalString HexadecimalString DecimalN HexadecimalN.

(** ** Characters *)

Definition squote : ascii := "'"%char.
Definition dquote : ascii := ascii_of_nat 34.
Definition backslash : ascii := "\"%char.
Definition newline : string := String (ascii_of_nat 10) EmptyString.

(** The [i]-th lower-case hexadecimal digit ([Py_hexdigits]). *)
Definition hexdigit (i : nat) : ascii :=
  match String.get i "0123456789abcdef" with Some c => c | None => "0"%char end.

(** [''.join(l)]. *)
Definition concat_all (l : list string) : string := foldr String.append EmptyString l.

(** ['\n'.join(l)]. *)
Definition join_lines (l : list string) : string := String.concat newline l.

(** ** Integers: [{:x}], [{:#x}], [{:d}] *)

Inductive int_spec := FmtHex | FmtAltHex | FmtDec.

#[export] Instance int_spec_eq_dec : EqDecision int_spec.
Proof. solve_decision. Defined.

Definition digits (spec : int_spec) (n : N) : string :=
  match spec with
  | FmtDec => DecimalString.NilEmpty.string_of_uint (N.to_uint n)
  | FmtHex | FmtAltHex => HexadecimalString.NilEmpty.string_of_uint (N.to_hex_uint n)
  end.

Definition format_int (spec : int_spec) (z : Z) : string :=
  let body := match spec with
              | FmtAltHex => String "0"%char (String "x"%char (digits spec (Z.abs_N z)))
              | _ => digits spec (Z.abs_N z)
              end in
  if (z <? 0)%Z then String "-"%char body else body.

(** [format(v, spec)] for an integer presentation. *)
Definition format_num (spec : int_spec) (v : pyobj) : res string :=
  match v with
  | PInt z => Ok (format_int spec z)
  | PBool b => Ok (format_int spec (Z.b2z b))
  | PStr _ => Err ValueError
  | _ => Err TypeError
  end.

(** ** Strings: [{:s}] and [{:<{w}s}] *)

Fixpoint spaces (n : nat) : string :=
  match n with 0 => EmptyString | S n => String " "%char (spaces n) end.

Definition pad_right (w : nat) (s : string) : string := s +:+ spaces (w - String.length s).

(** [format(v, '<{w}s')]: text only; an [int] has no [s] presentation. *)
Definition format_str (w : nat) (v : pyobj) : res string :=
  match v with
  | PStr s => Ok (pad_right w s)
  | PInt _ | PBool _ => Err ValueError
  | _ => Err TypeError
  end.

(** ** [repr] of literals *)

(** The quote a literal takes, from whether a character occurs in it. *)
Definition repr_quote (has : ascii -> bool) : ascii :=
  if has squote && negb (has dquote) then dquote else squote.

Definition hex_escape (n : nat) : string :=
  String backslash (String "x"%char
    (String (hexdigit (n / 16)) (String (hexdigit (n mod 16)) EmptyString))).

(** One character of a literal quoted by [q]; [printable] says which
    characters beyond ASCII print as themselves. *)
Definition escape_char (printable : nat -> bool) (q c : ascii) : string :=
  let n := nat_of_ascii c in
  if ((c =? q)%char || (c =? backslash)%char)%bool then String backslash (String c EmptyString)
  else if n =? 9 then String backslash (String "t"%char EmptyString)
  else if n =? 10 then String backslash (String "n"%char EmptyString)
  else if n =? 13 then String backslash (String "r"%char EmptyString)
  else if ((n <? 32) || (n =? 127))%bool then hex_escape n
  else if ((n <? 127) || printable n)%bool then String c EmptyString
  else hex_escape n.

Definition quoted (printable : nat -> bool) (cs : list ascii) : string :=
  let q := repr_quote (fun c => existsb (Ascii.eqb c) cs) in
  String q (concat_all (escape_char printable q <$> cs) +:+ String q EmptyString).

(** [repr(b)] of a [bytes] object: nothing beyond ASCII prints as is. *)
Definition bytes_repr (b : bytes) : string :=
  String "b"%char (quoted (fun _ => false) (ascii_of_byte <$> b)).

(** [str.isprintable] on the Latin-1 characters beyond ASCII: all but the
    C1 controls, the no-break space and the soft hyphen. *)
Definition latin1_printable (n : nat) : bool := (161 <=? n) && negb (n =? 173).

Definition str_repr (s : string) : string := quoted latin1_printable (String.list_ascii_of_string s).

(** ** [repr] of objects *)

(** The address CPython prints for an object whose [repr] shows its
    identity. *)
Class ObjectIds := obj_id : pyobj -> Z.

Section Repr.
Context `{!ObjectIds}.

Definition at_addr (o : pyobj) : string := " at 0x" +:+ format_int FmtHex (obj_id o).

Definition py_repr (o : pyobj) : string :=
  match o with
  | PNone => "None"
  | PBool true => "True"
  | PBool false => "False"
  | PInt z => format_int FmtDec z
  | PBytes b => bytes_repr b
  | PStr s => str_repr s
  | PMemoryview _ => "<memory" +:+ at_addr o +:+ ">"
  | PNode _ => "<ida_netnode.netnode; proxy of <Swig Object of type 'netnode *'" +:+ at_addr o +:+ "> >"
  | PObject t => "<" +:+ t +:+ " object" +:+ at_addr o +:+ ">"
  end.

End Repr.

(** Addresses for the examples: every object at address 0. *)
Definition null_ids : ObjectIds := fun _ => 0%Z.

(** ** Raising with a formatted message *)

(** [raise e(msg.format(...))]: the message is formatted before the
    exception is made, and a field [{:#x}] or [{:x}] of a value the
    presentation rejects (a node given by its name, a [str]) raises that
    error in place of [e].  [args] are the integer fields in order; the
    [{:s}] and [{!r}] fields of the messages never fail. *)
Fixpoint raise_fmt {A} (args : list (int_spec * pyobj)) (e : exn) : res A :=
  match args with
  | [] => Err e
  | (spec, v) :: args => _ <- format_num spec v ;; raise_fmt args e
  end.

(** [if not res: raise e(...)] then ['\n'.join(res)], after a loop that
    collected the lines [res]. *)
Definition join_or_raise (args : list (int_spec * pyobj)) (e : exn)
    (r : option (res (list string))) : option (res string) :=
  match r with
  | Some (Ok []) => Some (raise_fmt args e)
  | Some (Ok ls) => Some (Ok (join_lines ls))
  | Some (Err e') => Some (Err e')
  | None => None
  end.

(** ** Readers *)

Definition strip_sign (s : string) : bool * string :=
  match s with
  | String c s' => if (c =? "-")%char then (true, s') else (false, s)
  | EmptyString => (false, s)
  end.

Definition strip_prefix (spec : int_spec) (s : string) : option string :=
  match spec, s with
  | FmtAltHex, String c0 (String c1 s') =>
      if ((c0 =? "0")%char && (c1 =? "x")%char)%bool then Some s' else None
  | FmtAltHex, _ => None
  | _, _ => Some s
  end.

Definition read_digits (spec : int_spec) (s : string) : option N :=
  match spec with
  | FmtDec => N.of_uint <$> DecimalString.NilEmpty.uint_of_string s
  | FmtHex | FmtAltHex => N.of_hex_uint <$> HexadecimalString.NilEmpty.uint_of_string s
  end.

(** [int(s, base)] on the text of [format_int spec]. *)
Definition parse_int (spec : int_spec) (s : string) : option Z :=
  let '(neg, s) := strip_sign s in
  s' ← strip_prefix spec s;
  n ← read_digits spec s';
  Some (if neg then Z.opp (Z.of_N n) else Z.of_N n).

Definition hexval (c : ascii) : option nat :=
  let n := nat_of_ascii c in
  if ((48 <=? n) && (n <=? 57))%bool then Some (n - 48)
  else if ((97 <=? n) && (n <=? 102))%bool then Some (n - 87)
  else if ((65 <=? n) && (n <=? 70))%bool then Some (n - 55)
  else None.

Definition escape_code (e : ascii) : option ascii :=
  let n := nat_of_ascii e in
  if (e =? "t")%char then Some (ascii_of_nat 9)
  else if (e =? "n")%char then Some (ascii_of_nat 10)
  else if (e =? "r")%char then Some (ascii_of_nat 13)
  else if ((e =? backslash)%char || (e =? squote)%char || (e =? dquote)%char)%bool then Some e
  else None.

(** The body of a bytes literal quoted by [q], up to its closing quote,
    which must end the text. *)
Fixpoint unescape (q : ascii) (s : string) : option bytes :=
  match s with
  | EmptyString => None
  | String c s' =>
      if (c =? q)%char then match s' with EmptyString => Some [] | _ => None end
      else if (c =? backslash)%char then
        match s' with
        | String e s'' =>
            if (e =? "x")%char then
              match s'' with
              | String h1 (String h2 s3) =>
                  match hexval h1, hexval h2 with
                  | Some a, Some b =>
                      cons (byte_of_ascii (ascii_of_nat (16 * a + b))) <$> unescape q s3
                  | _, _ => None
                  end
              | _ => None
              end
            else match escape_code e with
                 | Some c' => cons (byte_of_ascii c') <$> unescape q s''
                 | None => None
                 end
        | EmptyString => None
        end
      else if nat_of_ascii c <? 128 then cons (byte_of_ascii c) <$> unescape q s'
      else None
  end.

(** A Python bytes literal [b'...'] or [b"..."]. *)
Definition parse_bytes_literal (s : string) : option bytes :=
  match s with
  | String b (String q s') =>
      if ((b =? "b")%char && ((q =? squote)%char || (q =? dquote)%char))%bool
      then unescape q s' else None
  | _ => None
  end.

(** ** Properties *)

#[local] Arguments digits : simpl never.
#[local] Arguments read_digits : simpl never.

Lemma strip_sign_digits spec n : strip_sign (digits spec n) = (false, digits spec n).
Proof.
  destruct spec; unfold digits;
    [destruct (N.to_hex_uint n) | destruct (N.to_hex_uint n) | destruct (N.to_uint n)]; reflexivity.
Qed.

Lemma read_digits_digits spec n : read_digits spec (digits spec n) = Some n.
Proof.
  destruct spec; unfold read_digits, digits.
  1,2: rewrite HexadecimalString.NilEmpty.usu; cbn [fmap option_fmap option_map];
    by rewrite HexadecimalN.Unsigned.of_to.
  rewrite DecimalString.NilEmpty.usu; cbn [fmap option_fmap option_map].
  by rewrite DecimalN.Unsigned.of_to.
Qed.

(** The text of [format_int spec z] reads back as [z]. *)
Lemma parse_format_int spec z : parse_int spec (format_int spec z) = Some z.
Proof.
  unfold parse_int, format_int.
  destruct (Z.ltb_spec z 0); destruct spec; cbn [strip_sign];
    rewrite ?strip_sign_digits; simpl; rewrite read_digits_digits; simpl; f_equal; lia.
Qed.

(** A [raise] never returns. *)
Lemma raise_fmt_not_ok {A} args e (a : A) : raise_fmt args e <> Ok a.
Proof.
  induction args as [|[spec v] args IH]; [done|]. cbn [raise_fmt].
  destruct (format_num spec v); [apply IH | done].
Qed.

Lemma repr_quote_cases has : repr_quote has = squote \/ repr_quote has = dquote.
Proof. unfold repr_quote. case_match; auto. Qed.

(** Reading one escaped byte of a literal quoted by [q] gives the byte. *)
Lemma unescape_escape_char q b rest :
  q = squote \/ q = dquote ->
  unescape q (escape_char (fun _ => false) q (ascii_of_byte b) +:+ rest) = cons b <$> unescape q rest.
Proof. intros [-> | ->]; destruct b; reflexivity. Qed.

Lemma unescape_body q bs :
  q = squote \/ q = dquote ->
  unescape q (concat_all (escape_char (fun _ => false) q <$> (ascii_of_byte <$> bs)) +:+
              String q EmptyString) = Some bs.
Proof.
  intros Hq. induction bs as [|b bs IH]; cbn [fmap list_fmap concat_all foldr].
  - destruct Hq as [-> | ->]; reflexivity.
  - rewrite string_app_assoc. fold (concat_all (escape_char (fun _ => false) q <$> (ascii_of_byte <$> bs))).
    by rewrite unescape_escape_char, IH.
Qed.

(** The [repr] of a [bytes] object reads back as the same bytes. *)
Lemma parse_bytes_repr bs : parse_bytes_literal (bytes_repr bs) = Some bs.
Proof.
  unfold bytes_repr, quoted. destruct (repr_quote_cases (fun c => existsb (Ascii.eqb c) (ascii_of_byte <$> bs))) as [Hq | Hq];
    rewrite Hq; cbn [parse_bytes_literal]; apply unescape_body; auto.
Qed.
