(* ===== verification/Store.v ===== *)
(** * The netnode database of IDA

    The primitives that [src/base/_netnode.py] binds in its class [netnode]
    (lines 20-107) are IDA's, not this repository's: this file models them
    from their documented behaviour.  A database [db] maps a node index to a
    [netnode] record; a record holds the node's name, its value, its [alt],
    [sup], [char] and [hash] arrays and its blobs.  Readers are functions of
    the database; writers return the primitive's result and the new
    database.  The ordered primitives ([altfirst], [altnext], ...) walk the
    keys of an array in increasing order ([sorted_keys]), returning
    [BADADDR] ([nodeidx_t] arrays) or nothing (the hash) past the ends.
    IDA keeps no record for a node that holds nothing: [upd] drops a
    record a write leaves empty. *)

From S2P Require Import Prelude.
From stdpp Require Import base list gmap strings sorting.
From coqutil Require Import Word.LittleEndianList.
From Stdlib Require Import ZArith Ascii.

(** ** Records and database *)

Record netnode := mk_netnode {
  nname : option string;
  nvalue : option bytes;
  nalt : gmap Z Z;
  nsup : gmap Z bytes;
  nchar : gmap Z Z;
  nhash : gmap string bytes;
  nblob : gmap (ascii * Z) bytes
}.

Definition empty_netnode : netnode := mk_netnode None None ∅ ∅ ∅ ∅ ∅.

Definition set_nname (o : option string) (n : netnode) : netnode :=
  mk_netnode o (nvalue n) (nalt n) (nsup n) (nchar n) (nhash n) (nblob n).
Definition set_nvalue (o : option bytes) (n : netnode) : netnode :=
  mk_netnode (nname n) o (nalt n) (nsup n) (nchar n) (nhash n) (nblob n).
Definition set_nalt (m : gmap Z Z) (n : netnode) : netnode :=
  mk_netnode (nname n) (nvalue n) m (nsup n) (nchar n) (nhash n) (nblob n).
Definition set_nsup (m : gmap Z bytes) (n : netnode) : netnode :=
  mk_netnode (nname n) (nvalue n) (nalt n) m (nchar n) (nhash n) (nblob n).
Definition set_nchar (m : gmap Z Z) (n : netnode) : netnode :=
  mk_netnode (nname n) (nvalue n) (nalt n) (nsup n) m (nhash n) (nblob n).
Definition set_nhash (m : gmap string bytes) (n : netnode) : netnode :=
  mk_netnode (nname n) (nvalue n) (nalt n) (nsup n) (nchar n) m (nblob n).
Definition set_nblob (m : gmap (ascii * Z) bytes) (n : netnode) : netnode :=
  mk_netnode (nname n) (nvalue n) (nalt n) (nsup n) (nchar n) (nhash n) m.

(** The nodes by index, the name index, and the next index [new] hands
    out. *)
Record db := mk_db {
  nodes : gmap Z netnode;
  names : gmap string Z;
  next_free : Z
}.

Definition node_of (d : db) (i : Z) : netnode := default empty_netnode (nodes d !! i).

#[export] Instance netnode_eq_dec : EqDecision netnode.
Proof. solve_decision. Defined.

(** Apply a change to node [i].  IDA keeps no record for a node with no
    data: a change that leaves the node with nothing drops its record
    (a delete on a node that holds nothing does not create it), and any
    other change creates or updates it. *)
Definition upd (d : db) (i : Z) (f : netnode -> netnode) : db :=
  let n := f (node_of d i) in
  mk_db (if decide (n = empty_netnode) then delete i (nodes d) else <[i := n]> (nodes d))
        (names d) (next_free d).

Lemma node_of_upd_eq d i f : node_of (upd d i f) i = f (node_of d i).
Proof.
  unfold node_of at 1, upd; simpl. case_decide as He.
  - by rewrite lookup_delete_eq, He.
  - by rewrite lookup_insert_eq.
Qed.

Lemma node_of_upd_ne d i j f : i <> j -> node_of (upd d i f) j = node_of d j.
Proof.
  intros Hne. unfold node_of at 1, upd; simpl.
  case_decide; [by rewrite lookup_delete_ne | by rewrite lookup_insert_ne].
Qed.

(** A record of the updated database is the changed node's or one the
    database had; [upd] keeps no empty record. *)
Lemma lookup_upd_Some d i f j n :
  nodes (upd d i f) !! j = Some n ->
  (i = j /\ n = f (node_of d i)) \/ (i <> j /\ nodes d !! j = Some n).
Proof.
  unfold upd; simpl. case_decide.
  - rewrite lookup_delete_Some. naive_solver.
  - rewrite lookup_insert_Some. naive_solver.
Qed.

(** ** The node value *)

Definition value_exists (d : db) (i : Z) : bool := bool_decide (is_Some (nvalue (node_of d i))).
Definition valobj (d : db) (i : Z) : option bytes := nvalue (node_of d i).
Definition valstr (d : db) (i : Z) : option string := decode_cstr <$> valobj d i.
(** [long_value]: the first [sizeof(nodeidx_t)] bytes, little endian and
    zero-extended, or [BADNODE] when there is no value or it is empty. *)
Definition long_value (d : db) (i : Z) : Z :=
  match valobj d i with
  | Some [] | None => BADADDR
  | Some b => le_combine (take 8 b)
  end.
Definition netnode_set (d : db) (i : Z) (b : bytes) : bool * db :=
  (true, upd d i (set_nvalue (Some b))).
Definition set_long (d : db) (i : Z) (v : Z) : bool * db :=
  netnode_set d i (le_split 8 (to_nodeidx v)).
Definition delvalue (d : db) (i : Z) : bool * db :=
  (value_exists d i, upd d i (set_nvalue None)).

(** ** The [alt] array: [nodeidx_t] to [nodeidx_t], 0 when absent *)

Definition alt_keys (d : db) (i : Z) : list Z := sorted_keys Z.le (nalt (node_of d i)).
Definition altval (d : db) (i k : Z) : Z := default 0%Z (nalt (node_of d i) !! to_nodeidx k).
Definition altset (d : db) (i k v : Z) : bool * db :=
  (true, upd d i (fun n => set_nalt (<[to_nodeidx k := to_nodeidx v]> (nalt n)) n)).
Definition altdel (d : db) (i k : Z) : bool * db :=
  (bool_decide (is_Some (nalt (node_of d i) !! to_nodeidx k)),
   upd d i (fun n => set_nalt (delete (to_nodeidx k) (nalt n)) n)).
Definition altfirst (d : db) (i : Z) : Z := first_or BADADDR (alt_keys d i).
Definition altlast (d : db) (i : Z) : Z := last_or BADADDR (alt_keys d i).
Definition altnext (d : db) (i k : Z) : Z :=
  default BADADDR (succ_key Z.le (alt_keys d i) (to_nodeidx k)).
Definition altprev (d : db) (i k : Z) : Z :=
  default BADADDR (pred_key Z.le (alt_keys d i) (to_nodeidx k)).

(** ** The [char] array: [nodeidx_t] to a byte, 0 when absent *)

Definition char_keys (d : db) (i : Z) : list Z := sorted_keys Z.le (nchar (node_of d i)).
Definition charval (d : db) (i k : Z) : Z := default 0%Z (nchar (node_of d i) !! to_nodeidx k).
Definition charfirst (d : db) (i : Z) : Z := first_or BADADDR (char_keys d i).
Definition charlast (d : db) (i : Z) : Z := last_or BADADDR (char_keys d i).
Definition charnext (d : db) (i k : Z) : Z :=
  default BADADDR (succ_key Z.le (char_keys d i) (to_nodeidx k)).
Definition charprev (d : db) (i k : Z) : Z :=
  default BADADDR (pred_key Z.le (char_keys d i) (to_nodeidx k)).
(** [charset] stores one byte: the value modulo 256. *)
Definition charset (d : db) (i k v : Z) : bool * db :=
  (true, upd d i (fun n => set_nchar (<[to_nodeidx k := (v mod 256)%Z]> (nchar n)) n)).
Definition chardel (d : db) (i k : Z) : bool * db :=
  (bool_decide (is_Some (nchar (node_of d i) !! to_nodeidx k)),
   upd d i (fun n => set_nchar (delete (to_nodeidx k) (nchar n)) n)).

(** ** The [sup] array: [nodeidx_t] to at most [MAXSPECSIZE] bytes *)

Definition sup_keys (d : db) (i : Z) : list Z := sorted_keys Z.le (nsup (node_of d i)).
Definition supval (d : db) (i k : Z) : option bytes := nsup (node_of d i) !! to_nodeidx k.
Definition supstr (d : db) (i k : Z) : option string := decode_cstr <$> supval d i k.
(** A value longer than [MAXSPECSIZE] is refused. *)
Definition supset (d : db) (i k : Z) (b : bytes) : bool * db :=
  if decide (length b <= MAXSPECSIZE)
  then (true, upd d i (fun n => set_nsup (<[to_nodeidx k := b]> (nsup n)) n))
  else (false, d).
Definition supdel (d : db) (i k : Z) : bool * db :=
  (bool_decide (is_Some (supval d i k)),
   upd d i (fun n => set_nsup (delete (to_nodeidx k) (nsup n)) n)).
Definition supfirst (d : db) (i : Z) : Z := first_or BADADDR (sup_keys d i).
Definition suplast (d : db) (i : Z) : Z := last_or BADADDR (sup_keys d i).
Definition supnext (d : db) (i k : Z) : Z :=
  default BADADDR (succ_key Z.le (sup_keys d i) (to_nodeidx k)).
Definition supprev (d : db) (i k : Z) : Z :=
  default BADADDR (pred_key Z.le (sup_keys d i) (to_nodeidx k)).

(** ** The [hash]: string keys, ordered as strings, [None] past the ends *)

Definition hash_keys (d : db) (i : Z) : list string := sorted_keys String.le (nhash (node_of d i)).
Definition hashval (d : db) (i : Z) (key : string) : option bytes := nhash (node_of d i) !! key.
Definition hashstr (d : db) (i : Z) (key : string) : option string := decode_cstr <$> hashval d i key.
Definition hashstr_buf (d : db) (i : Z) (key : string) : option bytes := hashval d i key.
(** [hashval_long]: the first 8 bytes little endian, 0 when absent. *)
Definition hashval_long (d : db) (i : Z) (key : string) : Z :=
  match hashval d i key with Some b => le_combine (take 8 b) | None => 0%Z end.
(** The longest hash key: the class [hash] is documented as
    [Dictionary[char*510] of 1024b strings] (line 455). *)
Definition MAXHASHKEY : nat := 510.

(** [hashset] refuses a key longer than [MAXHASHKEY] or a value longer
    than [MAXSPECSIZE], as [supset] refuses a long entry. *)
Definition hashset (d : db) (i : Z) (key : string) (b : bytes) : bool * db :=
  if decide (String.length key <= MAXHASHKEY /\ length b <= MAXSPECSIZE)
  then (true, upd d i (fun n => set_nhash (<[key := b]> (nhash n)) n))
  else (false, d).
Definition hashset_buf (d : db) (i : Z) (key : string) (b : bytes) : bool * db :=
  hashset d i key b.
Definition hashset_idx (d : db) (i : Z) (key : string) (v : Z) : bool * db :=
  hashset d i key (le_split 8 (to_nodeidx v)).
Definition hashdel (d : db) (i : Z) (key : string) : bool * db :=
  (bool_decide (is_Some (hashval d i key)),
   upd d i (fun n => set_nhash (delete key (nhash n)) n)).
Definition hashfirst (d : db) (i : Z) : option string := head (hash_keys d i).
Definition hashlast (d : db) (i : Z) : option string := last (hash_keys d i).
Definition hashnext (d : db) (i : Z) (key : string) : option string :=
  succ_key String.le (hash_keys d i) key.
Definition hashprev (d : db) (i : Z) (key : string) : option string :=
  pred_key String.le (hash_keys d i) key.

(** ** Blobs: a byte string per (tag, start) *)

(** [getblob] reads whole [MAXSPECSIZE] chunks: the buffer it returns is
    the blob padded with zeros to a multiple of the chunk size. *)
Definition chunk_padding (n : nat) : nat := (MAXSPECSIZE - n mod MAXSPECSIZE) mod MAXSPECSIZE.
Lemma chunk_padding_multiple n : (n + chunk_padding n) mod MAXSPECSIZE = 0.
Proof.
  unfold chunk_padding, MAXSPECSIZE.
  pose proof (Nat.div_mod_eq n 1024) as Hn. pose proof (Nat.mod_upper_bound n 1024 ltac:(lia)).
  destruct (decide (n mod 1024 = 0)) as [H0|H0].
  - rewrite H0, Nat.sub_0_r, Nat.mod_same, Nat.add_0_r by lia. exact H0.
  - rewrite (Nat.mod_small (1024 - _)) by lia.
    replace (n + (1024 - n mod 1024)) with ((n / 1024 + 1) * 1024) by lia.
    apply Nat.mod_mul. lia.
Qed.

Definition blob_of (d : db) (i start : Z) (tag : ascii) : option bytes :=
  nblob (node_of d i) !! (tag, start).
Definition blobsize (d : db) (i start : Z) (tag : ascii) : nat :=
  from_option length 0 (blob_of d i start tag).
Definition getblob (d : db) (i start : Z) (tag : ascii) : option bytes :=
  (fun b => b ++ replicate (chunk_padding (length b)) Byte.x00) <$> blob_of d i start tag.
Definition setblob (d : db) (i : Z) (b : bytes) (start : Z) (tag : ascii) : bool * db :=
  (true, upd d i (fun n => set_nblob (<[(tag, start) := b]> (nblob n)) n)).
Definition delblob (d : db) (i start : Z) (tag : ascii) : bool * db :=
  (bool_decide (is_Some (blob_of d i start tag)),
   upd d i (fun n => set_nblob (delete (tag, start) (nblob n)) n)).

(** ** Nodes: creation by name, deletion, renaming, global order *)

(** The global order on nodes used by [start], [end], [next], [prev]. *)
Definition node_keys (d : db) : list Z := sorted_keys Z.le (nodes d).

(** The index IDA hands out to a new node: its counter, moved past every
    node that already holds data. *)
Definition fresh_idx (d : db) : Z :=
  Z.max (next_free d) (from_option Z.succ 0%Z (last (node_keys d))).

(** No node holds data at the index [new] hands out. *)
Lemma fresh_idx_free d : nodes d !! fresh_idx d = None.
Proof.
  destruct (nodes d !! fresh_idx d) as [n|] eqn:E; [exfalso|done].
  assert (Hin : fresh_idx d ∈ node_keys d) by (apply elem_of_sorted_keys; eauto).
  destruct (last (node_keys d)) as [m|] eqn:Hm.
  - pose proof (sorted_le_last Z.le _ _ m (sorted_keys_sorted _ _) Hin Hm) as Hle.
    unfold fresh_idx in Hle. rewrite Hm in Hle. simpl in Hle. lia.
  - apply last_None in Hm. rewrite Hm in Hin. set_solver.
Qed.

(** [netnode(name, namlen, do_create)]: the node of that name; if there is
    none, a fresh node of that name when [do_create], else [BADNODE]. *)
Definition netnode_new_name (d : db) (s : string) (create : bool) : Z * db :=
  match names d !! s with
  | Some i => (i, d)
  | None =>
      if create then
        let i := fresh_idx d in
        (i, mk_db (nodes (upd d i (set_nname (Some s))))
                  (<[s := i]> (names d)) (Z.succ i))
      else (BADADDR, d)
  end.

Definition netnode_name (d : db) (i : Z) : option string := nname (node_of d i).

(** [kill]: the node and everything it holds go, and so does its name. *)
Definition netnode_kill (d : db) (i : Z) : db :=
  mk_db (delete i (nodes d))
        (match nname (node_of d i) with Some s => delete s (names d) | None => names d end)
        (next_free d).

(** The name index without the current name of node [i]. *)
Definition drop_name (d : db) (i : Z) : gmap string Z :=
  match nname (node_of d i) with Some o => delete o (names d) | None => names d end.

(** [rename]: refused when another node has the name; the empty name
    removes the node's name. *)
Definition netnode_rename (d : db) (i : Z) (s : string) : bool * db :=
  if decide (s = EmptyString) then
    (true, mk_db (nodes (upd d i (set_nname None))) (drop_name d i) (next_free d))
  else
    match names d !! s with
    | Some j => (bool_decide (i = j), d)
    | None =>
        (true, mk_db (nodes (upd d i (set_nname (Some s))))
                     (<[s := i]> (drop_name d i)) (next_free d))
    end.

Definition netnode_start (d : db) : option Z := head (node_keys d).
Definition netnode_end (d : db) : option Z := last (node_keys d).
Definition netnode_next (d : db) (i : Z) : option Z := succ_key Z.le (node_keys d) i.
Definition netnode_prev (d : db) (i : Z) : option Z := pred_key Z.le (node_keys d) i.

(** The empty database. *)
Definition empty_db : db := mk_db ∅ ∅ 0.

(** ** Well-formed arrays *)

(** Indices and [alt] values are [nodeidx_t]s: the primitives reduce every
    Python int they store modulo 2^64. *)
Definition idx_ok (z : Z) : Prop := (0 <= z < NODEIDX_MOD)%Z.
Definition keys_ok {V} (m : gmap Z V) : Prop := map_Forall (fun k _ => idx_ok k) m.

#[export] Instance idx_ok_dec z : Decision (idx_ok z).
Proof. unfold idx_ok. apply _. Defined.
#[export] Instance keys_ok_dec {V} (m : gmap Z V) : Decision (keys_ok m).
Proof. unfold keys_ok. apply _. Defined.

Lemma sorted_keys_ok {V} (m : gmap Z V) : keys_ok m -> Forall idx_ok (sorted_keys Z.le m).
Proof.
  intros Hm. apply Forall_forall. intros k Hk.
  apply elem_of_sorted_keys in Hk as [v Hv]. exact (Hm k v Hv).
Qed.

(** ** What the value primitives read after a write *)

Lemma valobj_set d i j b :
  valobj (snd (netnode_set d i b)) j = if decide (i = j) then Some b else valobj d j.
Proof.
  unfold valobj, netnode_set. simpl. case_decide as Hij.
  - subst. by rewrite node_of_upd_eq.
  - by rewrite node_of_upd_ne.
Qed.

Lemma valobj_delvalue d i j :
  valobj (snd (delvalue d i)) j = if decide (i = j) then None else valobj d j.
Proof.
  unfold valobj, delvalue. simpl. case_decide as Hij.
  - subst. by rewrite node_of_upd_eq.
  - by rewrite node_of_upd_ne.
Qed.

Lemma value_exists_valobj d i : value_exists d i = bool_decide (is_Some (valobj d i)).
Proof. reflexivity. Qed.

(** [set_long] stores 8 little-endian bytes; [long_value] reads back the
    integer modulo 2^64. *)
Lemma le_split_nodeidx v : le_combine (take 8 (le_split 8 (to_nodeidx v))) = to_nodeidx v.
Proof.
  rewrite take_ge by (rewrite length_le_split; lia).
  rewrite le_combine_split. apply Z.mod_small.
  pose proof (to_nodeidx_range v) as Hr. unfold NODEIDX_MOD, NODEIDX_BITS in Hr. simpl. lia.
Qed.

Lemma long_value_set_long d i v : long_value (snd (set_long d i v)) i = to_nodeidx v.
Proof.
  unfold long_value, set_long. rewrite valobj_set, decide_True by done.
  destruct (le_split 8 (to_nodeidx v)) as [|c l] eqn:E.
  - apply (f_equal length) in E. by rewrite length_le_split in E.
  - rewrite <- E. apply le_split_nodeidx.
Qed.

(** ** What the array primitives read after a write *)

Lemma node_of_upd d i j f :
  node_of (upd d i f) j = if decide (i = j) then f (node_of d i) else node_of d j.
Proof. case_decide; subst; [apply node_of_upd_eq | by apply node_of_upd_ne]. Qed.

Lemma altval_altset d i k v j k' :
  altval (snd (altset d i k v)) j k' =
  if decide (i = j /\ to_nodeidx k = to_nodeidx k') then to_nodeidx v else altval d j k'.
Proof.
  unfold altval, altset. simpl. rewrite node_of_upd.
  destruct (decide (i = j)) as [<-|Hij]; simpl.
  - rewrite lookup_insert. do 2 case_decide; naive_solver.
  - rewrite decide_False by naive_solver. done.
Qed.

Lemma altval_altdel d i k j k' :
  altval (snd (altdel d i k)) j k' =
  if decide (i = j /\ to_nodeidx k = to_nodeidx k') then 0%Z else altval d j k'.
Proof.
  unfold altval, altdel. simpl. rewrite node_of_upd.
  destruct (decide (i = j)) as [<-|Hij]; simpl.
  - rewrite lookup_delete. do 2 case_decide; naive_solver.
  - rewrite decide_False by naive_solver. done.
Qed.
