(* ===== verification/Binding.v ===== *)
(** * The class [netnode]: IDA's primitives as Python callables

    [src/base/_netnode.py], lines 20-107, binds IDA's netnode functions as
    attributes of the class [netnode]; the [utils] walkers receive them as
    plain Python functions.  Each definition of [Module netnode] is one of
    those attributes over a database [d]: a callable of the arity of the
    primitive, converting its Python arguments the way the binding does
    (a [netnode] object for [self], a Python int for an array index, a str
    or [None] for a hash key) and raising [TypeError] on anything else. *)

From S2P Require Import Prelude PyObj Store.
From stdpp Require Import base list gmap strings.
From Stdlib Require Import ZArith Ascii.

Module netnode.

(** The argument conversions of the binding. *)
Definition node_arg (n : pyobj) : res Z :=
  match n with PNode i => Ok i | _ => Err TypeError end.
Definition idx_arg (k : pyobj) : res Z :=
  match py_num k with Some z => Ok z | None => Err TypeError end.
Definition key_arg (k : pyobj) : res (option string) :=
  match k with PStr s => Ok (Some s) | PNone => Ok None | _ => Err TypeError end.

(** [f(node)] and [f(node, idx)] for an integer-keyed array. *)
Definition idx_first (f : db -> Z -> Z) (d : db) : pyfunc :=
  Fn1 (fun n => i <- node_arg n ;; Ok (PInt (f d i))).
Definition idx_step (f : db -> Z -> Z -> Z) (d : db) : pyfunc :=
  Fn2 (fun n k => i <- node_arg n ;; z <- idx_arg k ;; Ok (PInt (f d i z))).

(** [f(node)] and [f(node, key)] for the hash: a missing key is [None],
    and so is anything read at the key [None]. *)
Definition key_first (f : db -> Z -> option string) (d : db) : pyfunc :=
  Fn1 (fun n => i <- node_arg n ;; Ok (of_text (f d i))).
Definition key_step (f : db -> Z -> string -> option string) (d : db) : pyfunc :=
  Fn2 (fun n k => i <- node_arg n ;; ko <- key_arg k ;;
                  Ok (match ko with Some s => of_text (f d i s) | None => PNone end)).

Definition altfirst := idx_first Store.altfirst.
Definition altlast := idx_first Store.altlast.
Definition altnext := idx_step Store.altnext.
Definition altprev := idx_step Store.altprev.
Definition altval := idx_step Store.altval.

Definition charfirst := idx_first Store.charfirst.
Definition charlast := idx_first Store.charlast.
Definition charnext := idx_step Store.charnext.
Definition charprev := idx_step Store.charprev.
Definition charval := idx_step Store.charval.

Definition supfirst := idx_first Store.supfirst.
Definition suplast := idx_first Store.suplast.
Definition supnext := idx_step Store.supnext.
Definition supprev := idx_step Store.supprev.
(** [supval] returns the stored bytes, or [None]. *)
Definition supval (d : db) : pyfunc :=
  Fn2 (fun n k => i <- node_arg n ;; z <- idx_arg k ;; Ok (of_buffer (Store.supval d i z))).

Definition hashfirst := key_first Store.hashfirst.
Definition hashlast := key_first Store.hashlast.
Definition hashnext := key_step Store.hashnext.
Definition hashprev := key_step Store.hashprev.
(** [hashval] returns the stored bytes, or [None]. *)
Definition hashval (d : db) : pyfunc :=
  Fn2 (fun n k => i <- node_arg n ;; ko <- key_arg k ;;
                  Ok (match ko with Some s => of_buffer (Store.hashval d i s) | None => PNone end)).

(** ** The bindings the classes call directly *)

(** A Python bytes-like argument the primitive stores: bytes as they are,
    a str as its bytes. *)
Definition buf_arg (v : pyobj) : res bytes :=
  match v with PBytes b => Ok b | PStr s => Ok (encode_str s) | _ => Err TypeError end.
(** A blob tag: a one-character str. *)
Definition tag_arg (v : pyobj) : res ascii :=
  match v with PStr (String c EmptyString) => Ok c | _ => Err TypeError end.
Definition str_arg (v : pyobj) : res string :=
  match v with PStr s => Ok s | _ => Err TypeError end.

(** [new = _ida_netnode.new_netnode] (line 30), the constructor of netnode
    objects: [netnode()] wraps [BADNODE], [netnode(nodeidx)] wraps an
    index, [netnode(name)] looks a name up, [netnode(name, namlen,
    do_create)] may create the node. *)
Definition new0 : pyobj := PNode BADADDR.
Definition new1 (d : db) (v : pyobj) : res pyobj :=
  match v with
  | PInt _ | PBool _ => z <- idx_arg v ;; Ok (PNode (to_nodeidx z))
  | PStr s => Ok (PNode (fst (Store.netnode_new_name d s false)))
  | _ => Err TypeError
  end.
(** The name a [const char *name, size_t namlen] pair denotes: with
    [namlen = 0] IDA measures the name as a C string, up to its first NUL;
    otherwise it takes the first [namlen] characters.  A negative [namlen]
    does not convert to [size_t]. *)
Fixpoint cstr_prefix (s : string) : string :=
  match s with
  | EmptyString => EmptyString
  | String c r => if Ascii.eqb c "000"%char then EmptyString else String c (cstr_prefix r)
  end.
Definition namlen_name (s : string) (n : Z) : res string :=
  if (n <? 0)%Z then Err OverflowError
  else if (n =? 0)%Z then Ok (cstr_prefix s)
  else Ok (String.substring 0 (Z.to_nat n) s).
Definition new3 (d : db) (name namlen create : pyobj) : res (pyobj * db) :=
  s <- str_arg name ;; n <- idx_arg namlen ;; s' <- namlen_name s n ;;
  let '(i, d') := Store.netnode_new_name d s' (truthy create) in Ok (PNode i, d').

(** [delete = delete_netnode] (line 31) releases the Python proxy of a
    netnode object; the database is untouched. *)
Definition delete (n : pyobj) : res pyobj := _ <- node_arg n ;; Ok PNone.

(** [index] (line 34). *)
Definition index (n : pyobj) : res pyobj := i <- node_arg n ;; Ok (PInt i).

(** [kill] (line 35) and [rename] (line 39).  [rename(node, name)] leaves
    [namlen] at its default [0], so IDA takes the name up to its first
    NUL. *)
Definition kill (d : db) (n : pyobj) : res (pyobj * db) :=
  i <- node_arg n ;; Ok (PNone, Store.netnode_kill d i).
Definition rename (d : db) (n name : pyobj) : res (pyobj * db) :=
  i <- node_arg n ;; s <- str_arg name ;;
  let '(ok, d') := Store.netnode_rename d i (cstr_prefix s) in Ok (PBool ok, d').
(** [name = netnode_get_name] (lines 94, 105). *)
Definition name (d : db) (n : pyobj) : res pyobj :=
  i <- node_arg n ;; Ok (of_text (Store.netnode_name d i)).

(** The cursor primitives (lines 32, 33, 37, 38) move the netnode object
    they are given: they return whether they found a node and the moved
    object. *)
Definition cursor (r : option Z) (n : pyobj) : pyobj * pyobj :=
  match r with Some j => (PBool true, PNode j) | None => (PBool false, n) end.
Definition start (d : db) (n : pyobj) : res (pyobj * pyobj) :=
  _ <- node_arg n ;; Ok (cursor (Store.netnode_start d) n).
Definition end_ (d : db) (n : pyobj) : res (pyobj * pyobj) :=
  _ <- node_arg n ;; Ok (cursor (Store.netnode_end d) n).
Definition next (d : db) (n : pyobj) : res (pyobj * pyobj) :=
  i <- node_arg n ;; Ok (cursor (Store.netnode_next d i) n).
Definition prev (d : db) (n : pyobj) : res (pyobj * pyobj) :=
  i <- node_arg n ;; Ok (cursor (Store.netnode_prev d i) n).

(** The node value (lines 36, 43-45, 82-84). *)
Definition value_exists (d : db) (n : pyobj) : res pyobj :=
  i <- node_arg n ;; Ok (PBool (Store.value_exists d i)).
Definition valobj (d : db) (n : pyobj) : res pyobj :=
  i <- node_arg n ;; Ok (of_buffer (Store.valobj d i)).
Definition valstr (d : db) (n : pyobj) : res pyobj :=
  i <- node_arg n ;; Ok (of_text (Store.valstr d i)).
Definition long_value (d : db) (n : pyobj) : res pyobj :=
  i <- node_arg n ;; Ok (PInt (Store.long_value d i)).
Definition set (d : db) (n v : pyobj) : res (pyobj * db) :=
  i <- node_arg n ;; b <- buf_arg v ;;
  let '(ok, d') := Store.netnode_set d i b in Ok (PBool ok, d').
Definition set_long (d : db) (n v : pyobj) : res (pyobj * db) :=
  i <- node_arg n ;; z <- idx_arg v ;;
  let '(ok, d') := Store.set_long d i z in Ok (PBool ok, d').
Definition delvalue (d : db) (n : pyobj) : res (pyobj * db) :=
  i <- node_arg n ;; let '(ok, d') := Store.delvalue d i in Ok (PBool ok, d').

(** Blobs (lines 47-50): [blobsize(node, start, tag)] and so on. *)
Definition blobsize (d : db) (n start tag : pyobj) : res pyobj :=
  i <- node_arg n ;; s <- idx_arg start ;; t <- tag_arg tag ;;
  Ok (PInt (Z.of_nat (Store.blobsize d i s t))).
Definition getblob (d : db) (n start tag : pyobj) : res pyobj :=
  i <- node_arg n ;; s <- idx_arg start ;; t <- tag_arg tag ;;
  Ok (of_buffer (Store.getblob d i s t)).
Definition setblob (d : db) (n v start tag : pyobj) : res (pyobj * db) :=
  i <- node_arg n ;; b <- buf_arg v ;; s <- idx_arg start ;; t <- tag_arg tag ;;
  let '(ok, d') := Store.setblob d i b s t in Ok (PBool ok, d').
Definition delblob (d : db) (n start tag : pyobj) : res (pyobj * db) :=
  i <- node_arg n ;; s <- idx_arg start ;; t <- tag_arg tag ;;
  let '(ok, d') := Store.delblob d i s t in Ok (PBool ok, d').

(** The [alt] array (lines 52, 55; [altval] above). *)
Definition altset (d : db) (n k v : pyobj) : res (pyobj * db) :=
  i <- node_arg n ;; z <- idx_arg k ;; x <- idx_arg v ;;
  let '(ok, d') := Store.altset d i z x in Ok (PBool ok, d').
Definition altdel (d : db) (n k : pyobj) : res (pyobj * db) :=
  i <- node_arg n ;; z <- idx_arg k ;;
  let '(ok, d') := Store.altdel d i z in Ok (PBool ok, d').

(** The [char] array (lines 60, 61; [charval] above): bound, never
    called by the module. *)
Definition charset (d : db) (n k v : pyobj) : res (pyobj * db) :=
  i <- node_arg n ;; z <- idx_arg k ;; x <- idx_arg v ;;
  let '(ok, d') := Store.charset d i z x in Ok (PBool ok, d').
Definition chardel (d : db) (n k : pyobj) : res (pyobj * db) :=
  i <- node_arg n ;; z <- idx_arg k ;;
  let '(ok, d') := Store.chardel d i z in Ok (PBool ok, d').

(** The [sup] array (lines 75, 78, 79; [supval] above). *)
Definition supset (d : db) (n k v : pyobj) : res (pyobj * db) :=
  i <- node_arg n ;; z <- idx_arg k ;; b <- buf_arg v ;;
  let '(ok, d') := Store.supset d i z b in Ok (PBool ok, d').
Definition supdel (d : db) (n k : pyobj) : res (pyobj * db) :=
  i <- node_arg n ;; z <- idx_arg k ;;
  let '(ok, d') := Store.supdel d i z in Ok (PBool ok, d').
Definition supstr (d : db) (n k : pyobj) : res pyobj :=
  i <- node_arg n ;; z <- idx_arg k ;; Ok (of_text (Store.supstr d i z)).

(** The hash (lines 64, 67-71, 73; [hashval] above). *)
Definition hashset (d : db) (n k v : pyobj) : res (pyobj * db) :=
  i <- node_arg n ;; s <- str_arg k ;; b <- buf_arg v ;;
  let '(ok, d') := Store.hashset d i s b in Ok (PBool ok, d').
Definition hashset_buf (d : db) (n k v : pyobj) : res (pyobj * db) :=
  i <- node_arg n ;; s <- str_arg k ;; b <- buf_arg v ;;
  let '(ok, d') := Store.hashset_buf d i s b in Ok (PBool ok, d').
Definition hashset_idx (d : db) (n k v : pyobj) : res (pyobj * db) :=
  i <- node_arg n ;; s <- str_arg k ;; z <- idx_arg v ;;
  let '(ok, d') := Store.hashset_idx d i s z in Ok (PBool ok, d').
Definition hashdel (d : db) (n k : pyobj) : res (pyobj * db) :=
  i <- node_arg n ;; s <- str_arg k ;;
  let '(ok, d') := Store.hashdel d i s in Ok (PBool ok, d').
Definition hashstr (d : db) (n k : pyobj) : res pyobj :=
  i <- node_arg n ;; s <- str_arg k ;; Ok (of_text (Store.hashstr d i s)).
Definition hashstr_buf (d : db) (n k : pyobj) : res pyobj :=
  i <- node_arg n ;; s <- str_arg k ;; Ok (of_buffer (Store.hashstr_buf d i s)).
Definition hashval_long (d : db) (n k : pyobj) : res pyobj :=
  i <- node_arg n ;; s <- str_arg k ;; Ok (PInt (Store.hashval_long d i s)).

End netnode.

(** ** The name argument *)

Lemma substring_full s : String.substring 0 (String.length s) s = s.
Proof. induction s as [|c s IH]; simpl; [done | by rewrite IH]. Qed.

(** The module passes [len(name)] as [namlen]: IDA then looks up the
    whole name, NUL characters included. *)
Lemma namlen_name_len s : netnode.namlen_name s (Z.of_nat (String.length s)) = Ok s.
Proof.
  destruct s as [|c r]; [reflexivity|]. unfold netnode.namlen_name.
  rewrite (proj2 (Z.ltb_ge _ _)), (proj2 (Z.eqb_neq _ _)) by (simpl; lia).
  by rewrite Nat2Z.id, substring_full.
Qed.

Lemma new3_len d s c :
  netnode.new3 d (PStr s) (PInt (Z.of_nat (String.length s))) c =
    let '(i, d') := Store.netnode_new_name d s (truthy c) in Ok (PNode i, d').
Proof. unfold netnode.new3. simpl. by rewrite namlen_name_len. Qed.

(** A name with no NUL reads back whole; what follows a NUL is cut. *)
Lemma cstr_prefix_app_nul p r :
  netnode.cstr_prefix p = p -> netnode.cstr_prefix (p +:+ String "000"%char r) = p.
Proof.
  induction p as [|c p IH]; simpl; [done|].
  destruct (Ascii.eqb c "000") eqn:E; [discriminate|]. intros [= Hp]. by rewrite IH.
Qed.

Lemma append_cons_neq p c r : p +:+ String c r <> p.
Proof. induction p as [|c' p IH]; simpl; [discriminate|]. intros [= H]. by apply IH. Qed.
