(* ===== verification/Enumerator.v ===== *)
(** * The class [utils]: the ordered enumerator

    [Module utils] is the class [utils] of [src/base/_netnode.py] (lines
    109-233), one definition per [classmethod]: the node walkers
    [range], [renumerate] and [fenumerate] (lines 110-149), which move a
    netnode object with [netnode.start], [end], [next] and [prev]; the
    generic walkers [valfiter], [valriter], [hfiter] and [hriter] (lines
    151-189), which walk the keys of a namespace with the primitives they
    are given; their instantiations [falt] ... [rchar] (lines 191-233)
    are in [Walks.v].
    [walk] and [node_walk] are the loops (lines 156-158, 166-168, 176-178,
    186-188 and 128-132, 144-148); a generator is its yields and its
    ending, and [fuel] bounds the loop iterations the consumer pulls.
    [WalkSpec] is the contract a quadruple of primitives meets on a list of
    keys: the generic walkers' theorems of this file are proved against
    it, and [Walks.v] discharges it for every namespace of the store. *)

From S2P Require Import Prelude PyObj Store Binding.
From stdpp Require Import base list sets gmap strings.
From Stdlib Require Import ZArith.

(** The values of [start in {None, idaapi.BADADDR}]. *)
Definition sentinels : list pyobj := [PNone; PInt BADADDR].

Module utils.

(** [utils.range] (lines 110-117): the first and the last node, read off
    one cursor moved by [start] and then by [end]. *)
Definition range (d : db) : res (pyobj * pyobj) :=
  p <- netnode.start d netnode.new0 ;;
  start <- netnode.index (snd p) ;;
  if negb (truthy (fst p)) then Err NetNodeNotFoundError else
  q <- netnode.end_ d (snd p) ;;
  end_ <- netnode.index (snd q) ;;
  if negb (truthy (fst q)) then Err NetNodeNotFoundError else
  Ok (start, end_).

(** The loop of [renumerate] and [fenumerate] (lines 128-132, 144-148):
    [while cur != stop: ok = step(this); if not ok: break; cur =
    netnode.index(this); yield cur, netnode.new(cur)]. *)
Fixpoint node_walk (fuel : nat) (d : db) (step : db -> pyobj -> res (pyobj * pyobj))
    (this cur stop : pyobj) : gen (pyobj * pyobj) :=
  if py_eqb cur stop then gen_return
  else match fuel with
       | O => gen_suspend
       | S fuel' =>
           p <-- step d this ;;
           if negb (truthy (fst p)) then gen_return else
           cur' <-- netnode.index (snd p) ;;
           node <-- netnode.new1 d cur' ;;
           gen_yield (cur', node) (node_walk fuel' d step (snd p) cur' stop)
       end.

(** [utils.renumerate] (lines 119-133). *)
Definition renumerate (fuel : nat) (d : db) : gen (pyobj * pyobj) :=
  r <-- range d ;;
  p <-- netnode.end_ d netnode.new0 ;;
  if negb (truthy (fst p)) then gen_raise NetNodeNotFoundError else
  node <-- netnode.new1 d (snd r) ;;
  gen_yield (snd r, node) (node_walk fuel d netnode.prev (snd p) (snd r) (fst r)).

(** [utils.fenumerate] (lines 135-149). *)
Definition fenumerate (fuel : nat) (d : db) : gen (pyobj * pyobj) :=
  r <-- range d ;;
  p <-- netnode.start d netnode.new0 ;;
  if negb (truthy (fst p)) then gen_raise NetNodeNotFoundError else
  node <-- netnode.new1 d (fst r) ;;
  gen_yield (fst r, node) (node_walk fuel d netnode.next (snd p) (fst r) (snd r)).

(** [while cur != stop: cur = step(node, cur); yield cur, val(node, cur)] *)
Fixpoint walk (fuel : nat) (node : pyobj) (step val : pyfunc) (cur stop : pyobj)
    : gen (pyobj * pyobj) :=
  if py_eqb cur stop then gen_return
  else match fuel with
       | O => gen_suspend
       | S fuel' =>
           cur' <-- call2 step node cur ;;
           v <-- call2 val node cur' ;;
           gen_yield (cur', v) (walk fuel' node step val cur' stop)
       end.

(** [valfiter] (lines 152-159). *)
Definition valfiter (fuel : nat) (node : pyobj) (first last next val : pyfunc)
    : gen (pyobj * pyobj) :=
  start <-- call1 first node ;;
  stop <-- call1 last node ;;
  if py_in start sentinels then gen_return
  else v <-- call2 val node start ;;
       gen_yield (start, v) (walk fuel node next val start stop).

(** [valriter] (lines 162-169): the same walk from [last] back to
    [first]. *)
Definition valriter (fuel : nat) (node : pyobj) (first last prev val : pyfunc)
    : gen (pyobj * pyobj) :=
  start <-- call1 first node ;;
  stop <-- call1 last node ;;
  if py_in stop sentinels then gen_return
  else v <-- call2 val node stop ;;
       gen_yield (stop, v) (walk fuel node prev val stop start).

(** [hfiter] (lines 172-179): the walk stops early when the value at the
    first key is [None]; that value is read twice. *)
Definition hfiter (fuel : nat) (node : pyobj) (first last next val : pyfunc)
    : gen (pyobj * pyobj) :=
  start <-- call1 first node ;;
  stop <-- call1 last node ;;
  v0 <-- call2 val node start ;;
  if decide (v0 = PNone) then gen_return
  else v <-- call2 val node start ;;
       gen_yield (start, v) (walk fuel node next val start stop).

(** [hriter] (lines 182-189): the value tested is still the one at
    [start], the one yielded the one at [end]. *)
Definition hriter (fuel : nat) (node : pyobj) (first last prev val : pyfunc)
    : gen (pyobj * pyobj) :=
  start <-- call1 first node ;;
  stop <-- call1 last node ;;
  v0 <-- call2 val node start ;;
  if decide (v0 = PNone) then gen_return
  else v <-- call2 val node stop ;;
       gen_yield (stop, v) (walk fuel node prev val stop start).

End utils.

(** The loop's test comes before its fuel: the unfolding equation. *)
Lemma walk_eq fuel node step val cur stop :
  utils.walk fuel node step val cur stop =
  if py_eqb cur stop then gen_return
  else match fuel with
       | O => gen_suspend
       | S fuel' =>
           cur' <-- call2 step node cur ;;
           v <-- call2 val node cur' ;;
           gen_yield (cur', v) (utils.walk fuel' node step val cur' stop)
       end.
Proof. by destruct fuel. Qed.

Lemma walk_stop fuel node step val cur stop :
  py_eqb cur stop = true -> utils.walk fuel node step val cur stop = gen_return.
Proof. intros H. by rewrite walk_eq, H. Qed.

(** ** The contract of a primitive quadruple *)

(** On node [node], the namespace holds the keys [ks] in walking order, with
    the values [vs]; [first] and [last] return its ends or [bad] when it is
    empty, [next] and [prev] step between neighbours, [val] reads. *)
Class WalkSpec (node : pyobj) (first last next prev val : pyfunc) (bad : pyobj)
    (ks : list pyobj) (vs : pyobj -> pyobj) : Prop := {
  walk_first : call1 first node = Ok (first_or bad ks);
  walk_last : call1 last node = Ok (last_or bad ks);
  walk_next l1 k k' l2 : ks = l1 ++ k :: k' :: l2 -> call2 next node k = Ok k';
  walk_prev l1 k k' l2 : ks = l1 ++ k :: k' :: l2 -> call2 prev node k' = Ok k;
  walk_val k : k ∈ ks -> call2 val node k = Ok (vs k);
  walk_keys : Forall py_key ks;
  walk_nodup : NoDup ks
}.

(** ** The loop *)

Section Loop.
Context (node : pyobj) (step val : pyfunc) (vs : pyobj -> pyobj) (l : list pyobj).
Hypothesis Hstep : forall l1 k k' l2, l = l1 ++ k :: k' :: l2 -> call2 step node k = Ok k'.
Hypothesis Hval : forall k, k ∈ l -> call2 val node k = Ok (vs k).
Hypothesis Hkeys : Forall py_key l.
Hypothesis Hnd : NoDup l.

(** Before the last key the loop's test fails: a key of [l] followed by
    others is not the last one. *)
Lemma walk_not_last l1 k k' rest :
  l = l1 ++ k :: k' :: rest -> py_eqb k (last_or k' rest) = false.
Proof.
  intros Hl. destruct (py_eqb k (last_or k' rest)) eqn:Heq; [exfalso|done].
  apply py_eqb_key in Heq; [| eapply Forall_forall; [exact Hkeys|]; rewrite Hl; set_solver
                            | eapply Forall_forall; [exact Hkeys|]; rewrite Hl;
                              pose proof (last_or_elem k' rest); set_solver].
  rewrite Hl in Hnd. apply NoDup_app in Hnd as (_ & _ & Hnd').
  apply NoDup_cons in Hnd' as [Hnin _]. apply Hnin. rewrite Heq. apply last_or_elem.
Qed.

(** One iteration of the loop from a key that is not the last: it steps to
    the next key and yields it with its value. *)
Lemma walk_step fuel l1 k k' rest :
  l = l1 ++ k :: k' :: rest ->
  utils.walk (S fuel) node step val k (last_or k' rest) =
    gen_yield (k', vs k') (utils.walk fuel node step val k' (last_or k' rest)).
Proof.
  intros Hl. rewrite walk_eq, (walk_not_last l1 k k' rest Hl), (Hstep l1 k k' rest Hl). simpl.
  by rewrite Hval by (rewrite Hl; set_solver).
Qed.

(** From a key of [l], the loop yields every later key with its value and
    stops at the last one, given one unit of fuel per key. *)
Lemma walk_complete fuel l1 k rest :
  l = l1 ++ k :: rest -> length rest <= fuel ->
  utils.walk fuel node step val k (last_or k rest) = Gen (items vs rest) Returned.
Proof.
  revert fuel l1 k. induction rest as [|k' rest IH]; intros fuel l1 k Hl Hlen.
  - rewrite walk_eq. change (last_or k []) with k. rewrite (py_eqb_refl_key k); [done|].
    eapply Forall_forall; [exact Hkeys|]. rewrite Hl. set_solver.
  - destruct fuel as [|fuel]; [simpl in Hlen; lia|]. rewrite last_or_cons.
    rewrite (walk_step fuel l1 k k' rest Hl), (IH fuel (l1 ++ [k]) k'); [done| |simpl in Hlen; lia].
    by rewrite Hl, <- app_assoc.
Qed.

(** With fewer units of fuel than later keys, the loop yields as many of
    them as it has fuel and is then suspended: it never reads ahead. *)
Lemma walk_partial fuel l1 k rest :
  l = l1 ++ k :: rest -> fuel < length rest ->
  utils.walk fuel node step val k (last_or k rest) = Gen (items vs (take fuel rest)) Suspended.
Proof.
  revert fuel l1 k. induction rest as [|k' rest IH]; intros fuel l1 k Hl Hlen; [simpl in Hlen; lia|].
  rewrite last_or_cons. destruct fuel as [|fuel].
  - rewrite walk_eq, (walk_not_last l1 k k' rest Hl). done.
  - rewrite (walk_step fuel l1 k k' rest Hl), (IH fuel (l1 ++ [k]) k'); [done| |simpl in Hlen; lia].
    by rewrite Hl, <- app_assoc.
Qed.
End Loop.

(** ** The walkers against the contract *)

Section Walkers.
Context (node : pyobj) (first lst next prev val : pyfunc) (bad : pyobj)
  (ks : list pyobj) (vs : pyobj -> pyobj).
Context (Hw : WalkSpec node first lst next prev val bad ks vs).

Lemma walk_forward fuel k rest :
  ks = k :: rest -> length rest <= fuel ->
  utils.walk fuel node next val k (last_or k rest) = Gen (items vs rest) Returned.
Proof.
  intros Hks Hlen.
  apply (walk_complete node next val vs ks) with (l1 := []); try apply Hw; [|done].
  by rewrite Hks.
Qed.

Lemma walk_forward_partial fuel k rest :
  ks = k :: rest -> fuel < length rest ->
  utils.walk fuel node next val k (last_or k rest) = Gen (items vs (take fuel rest)) Suspended.
Proof.
  intros Hks Hlen.
  apply (walk_partial node next val vs ks) with (l1 := []); try apply Hw; [|done].
  by rewrite Hks.
Qed.

Lemma walk_backward fuel k rest :
  reverse ks = k :: rest -> length rest <= fuel ->
  utils.walk fuel node prev val k (last_or k rest) = Gen (items vs rest) Returned.
Proof.
  intros Hks Hlen.
  apply (walk_complete node prev val vs (reverse ks)) with (l1 := []);
    [| | | |by rewrite Hks|done].
  - intros l1 a b l2 Hl. apply (walk_prev (reverse l2) b a (reverse l1)).
    rewrite <- (reverse_involutive ks), Hl, reverse_app, reverse_cons, reverse_cons.
    by rewrite <- !app_assoc.
  - intros x Hx. apply walk_val. by rewrite <- elem_of_reverse.
  - apply Forall_reverse, Hw.
  - rewrite reverse_Permutation. apply Hw.
Qed.

Lemma keys_cases : ks = [] \/ exists k rest, ks = k :: rest.
Proof. destruct ks; eauto. Qed.

Lemma rev_keys_cases : reverse ks = [] \/ exists k rest, reverse ks = k :: rest.
Proof. destruct (reverse ks); eauto. Qed.

(** What [valfiter] yields on a namespace with no sentinel key. *)
Lemma valfiter_items fuel :
  Forall (fun k => py_in k sentinels = false) ks ->
  py_in bad sentinels = true ->
  length ks <= S fuel ->
  utils.valfiter fuel node first lst next val = Gen (items vs ks) Returned.
Proof.
  intros Hks Hbad Hlen. unfold utils.valfiter.
  rewrite walk_first, walk_last. cbn [gen_bind].
  destruct keys_cases as [E | (k & rest & E)]; rewrite E in Hks, Hlen |- *.
  - change (first_or bad []) with bad. by rewrite Hbad.
  - change (first_or bad (k :: rest)) with k.
    rewrite (Forall_inv Hks), walk_val by (rewrite E; set_solver). cbn [gen_bind].
    rewrite last_or_cons, (walk_forward fuel k rest); [done|done|simpl in Hlen; lia].
Qed.

(** C3: [valfiter] over a namespace none of whose keys is [None] or
    [BADADDR] yields every key with its value, in order, and returns,
    when the consumer pulls one iteration per key after the first. *)
Theorem valfiter_complete fuel :
  Forall (fun k => py_in k sentinels = false) ks ->
  py_in bad sentinels = true ->
  length ks <= S fuel ->
  utils.valfiter fuel node first lst next val = Gen (items vs ks) Returned.
Proof. apply valfiter_items. Qed.

(** C4: the generator is lazy: when the consumer pulls fewer iterations
    than there are keys after the first, [valfiter] has yielded exactly
    that many keys past the first, in order with their values, and is
    suspended; it has neither read ahead nor stopped. *)
Theorem valfiter_lazy fuel :
  Forall (fun k => py_in k sentinels = false) ks ->
  S fuel < length ks ->
  utils.valfiter fuel node first lst next val = Gen (take (S fuel) (items vs ks)) Suspended.
Proof.
  intros Hks Hlen. unfold utils.valfiter.
  rewrite walk_first, walk_last. cbn [gen_bind].
  destruct keys_cases as [E | (k & rest & E)]; rewrite E in Hks, Hlen |- *; [simpl in Hlen; lia|].
  change (first_or bad (k :: rest)) with k.
  rewrite (Forall_inv Hks), walk_val by (rewrite E; set_solver). cbn [gen_bind].
  rewrite last_or_cons, (walk_forward_partial fuel k rest); [|done|simpl in Hlen; lia].
  unfold items. by rewrite <- fmap_take.
Qed.
(** [valriter], given the [last] and [prev] primitives, yields the
    keys from the last to the first, each with its value. *)
Lemma valriter_complete fuel :
  Forall (fun k => py_in k sentinels = false) ks ->
  py_in bad sentinels = true ->
  length ks <= S fuel ->
  utils.valriter fuel node first lst prev val = Gen (items vs (reverse ks)) Returned.
Proof.
  intros Hks Hbad Hlen. unfold utils.valriter.
  rewrite walk_first, walk_last, last_or_reverse. cbn [gen_bind].
  rewrite <- length_reverse in Hlen. rewrite <- Forall_reverse in Hks.
  destruct rev_keys_cases as [E | (k & rest & E)]; rewrite E in Hks, Hlen |- *.
  - change (first_or bad []) with bad. by rewrite Hbad.
  - change (first_or bad (k :: rest)) with k.
    rewrite (Forall_inv Hks), walk_val by (rewrite <- elem_of_reverse, E; set_solver).
    cbn [gen_bind].
    assert (Hf : first_or bad ks = last_or k rest).
    { by rewrite <- (reverse_involutive ks), E, reverse_cons, first_or_snoc_rev,
        reverse_involutive. }
    rewrite Hf, (walk_backward fuel k rest); [done|done|simpl in Hlen; lia].
Qed.

(** What [hfiter] yields on a hash with a value at every key. *)
Lemma hfiter_items fuel :
  call2 val node bad = Ok PNone ->
  (forall k, k ∈ ks -> vs k <> PNone) ->
  length ks <= S fuel ->
  utils.hfiter fuel node first lst next val = Gen (items vs ks) Returned.
Proof.
  intros Hbad Hvs Hlen. unfold utils.hfiter.
  rewrite walk_first, walk_last. cbn [gen_bind].
  destruct keys_cases as [E | (k & rest & E)]; rewrite E in Hlen |- *.
  - change (first_or bad []) with bad. by rewrite Hbad.
  - change (first_or bad (k :: rest)) with k.
    assert (Hk : k ∈ ks) by (rewrite E; set_solver).
    rewrite walk_val by done. cbn [gen_bind].
    rewrite decide_False by (by apply Hvs). cbn [gen_bind].
    rewrite last_or_cons, (walk_forward fuel k rest); [done|done|simpl in Hlen; lia].
Qed.

(** C6: the hash walker's presence test and the array walkers' sentinel
    test agree: on a namespace whose reader gives [None] at the empty
    marker, whose keys are no sentinel and whose values are never [None],
    [hfiter] and [valfiter] are the same generator, whatever the fuel. *)
Theorem hfiter_valfiter_equiv fuel :
  call2 val node bad = Ok PNone -> py_in bad sentinels = true ->
  Forall (fun k => py_in k sentinels = false) ks ->
  (forall k, k ∈ ks -> vs k <> PNone) ->
  utils.hfiter fuel node first lst next val = utils.valfiter fuel node first lst next val.
Proof.
  intros Hv Hbad Hks Hvs. unfold utils.hfiter, utils.valfiter.
  rewrite walk_first, walk_last. cbn [gen_bind].
  destruct keys_cases as [E | (k & rest & E)]; rewrite E in Hks |- *.
  - change (first_or bad []) with bad. by rewrite Hv, Hbad.
  - change (first_or bad (k :: rest)) with k.
    assert (Hk : k ∈ ks) by (rewrite E; set_solver).
    rewrite (Forall_inv Hks), walk_val by done. cbn [gen_bind].
    by rewrite decide_False by (by apply Hvs).
Qed.

(** C5: [hriter], given the [last] and [prev] primitives, over a hash
    whose reader returns [None] at the key [None] and a value at every key
    yields the keys from the last to the first, each with its value, and
    returns; the value it tests is the one at the first key, the one it
    yields the one at the last. *)
Theorem hriter_complete fuel :
  call2 val node bad = Ok PNone ->
  (forall k, k ∈ ks -> vs k <> PNone) ->
  length ks <= S fuel ->
  utils.hriter fuel node first lst prev val = Gen (items vs (reverse ks)) Returned.
Proof.
  intros Hbad Hvs Hlen. unfold utils.hriter.
  rewrite walk_first, walk_last, last_or_reverse. cbn [gen_bind].
  rewrite <- length_reverse in Hlen.
  destruct rev_keys_cases as [E | (k & rest & E)]; rewrite E in Hlen |- *.
  - assert (ks = []) as -> by (apply (f_equal reverse) in E; by rewrite reverse_involutive in E).
    change (first_or bad []) with bad. by rewrite Hbad.
  - assert (Hf : first_or bad ks = last_or k rest).
    { by rewrite <- (reverse_involutive ks), E, reverse_cons, first_or_snoc_rev,
        reverse_involutive. }
    assert (Hin : forall x, x ∈ k :: rest -> x ∈ ks) by (intros x Hx; apply elem_of_reverse; by rewrite E).
    rewrite Hf, walk_val by (apply Hin; pose proof (last_or_elem k rest); set_solver).
    cbn [gen_bind]. rewrite decide_False by (apply Hvs, Hin; apply last_or_elem).
    cbn [gen_bind]. change (first_or bad (k :: rest)) with k.
    rewrite walk_val by (apply Hin; set_solver). cbn [gen_bind].
    rewrite (walk_backward fuel k rest); [done|done|simpl in Hlen; lia].
Qed.
End Walkers.
