(* ===== verification/Walks.v ===== *)
(** * The walkers over the namespaces of a node

    [Module utils] holds the eight walkers [utils.falt] ... [utils.rchar]
    of [src/base/_netnode.py] (lines 191-233), the generic walkers of
    [Enumerator.v] given the primitives of one namespace.  The store's
    ordered primitives meet the walkers' contract [WalkSpec] for every
    namespace ([alt], [sup], [char], [hash]), so the theorems of
    [Enumerator.v] apply to them; their completeness and errors are proved
    here. *)

From S2P Require Import Prelude PyObj Store Binding Enumerator.
From stdpp Require Import base list gmap strings sorting.
From Stdlib Require Import ZArith.

Module utils.

(** [utils.falt] and [utils.ralt] (lines 192-200).  [ralt] passes
    [altprev] where [valriter] expects [last] and [altnext] where it
    expects [prev], as the source does. *)
Definition falt (d : db) (fuel : nat) (node : pyobj) : gen (pyobj * pyobj) :=
  Enumerator.utils.valfiter fuel node (netnode.altfirst d) (netnode.altlast d) (netnode.altnext d) (netnode.altval d).
Definition ralt (d : db) (fuel : nat) (node : pyobj) : gen (pyobj * pyobj) :=
  Enumerator.utils.valriter fuel node (netnode.altfirst d) (netnode.altprev d) (netnode.altnext d) (netnode.altval d).

(** [utils.fsup] and [utils.rsup] (lines 203-211). *)
Definition fsup (d : db) (fuel : nat) (node : pyobj) : gen (pyobj * pyobj) :=
  Enumerator.utils.valfiter fuel node (netnode.supfirst d) (netnode.suplast d) (netnode.supnext d) (netnode.supval d).
Definition rsup (d : db) (fuel : nat) (node : pyobj) : gen (pyobj * pyobj) :=
  Enumerator.utils.valriter fuel node (netnode.supfirst d) (netnode.supprev d) (netnode.supnext d) (netnode.supval d).

(** [utils.fhash] and [utils.rhash] (lines 214-222). *)
Definition fhash (d : db) (fuel : nat) (node : pyobj) : gen (pyobj * pyobj) :=
  Enumerator.utils.hfiter fuel node (netnode.hashfirst d) (netnode.hashlast d) (netnode.hashnext d) (netnode.hashval d).
Definition rhash (d : db) (fuel : nat) (node : pyobj) : gen (pyobj * pyobj) :=
  Enumerator.utils.hriter fuel node (netnode.hashfirst d) (netnode.hashprev d) (netnode.hashnext d) (netnode.hashval d).

(** [utils.fchar] and [utils.rchar] (lines 225-233). *)
Definition fchar (d : db) (fuel : nat) (node : pyobj) : gen (pyobj * pyobj) :=
  Enumerator.utils.valfiter fuel node (netnode.charfirst d) (netnode.charlast d) (netnode.charnext d) (netnode.charval d).
Definition rchar (d : db) (fuel : nat) (node : pyobj) : gen (pyobj * pyobj) :=
  Enumerator.utils.valriter fuel node (netnode.charfirst d) (netnode.charprev d) (netnode.charnext d) (netnode.charval d).
End utils.

(** ** The integer-keyed arrays meet the contract *)

Section IdxWalk.
Context (ks : db -> Z -> list Z) (d : db) (i : Z) (val : pyfunc) (vs : pyobj -> pyobj).
Hypothesis Hsorted : StronglySorted (key_lt Z.le) (ks d i).
Hypothesis Hrange : Forall idx_ok (ks d i).
Hypothesis Hval : forall z, z ∈ ks d i -> call2 val (PNode i) (PInt z) = Ok (vs (PInt z)).

Lemma idx_key_small z : z ∈ ks d i -> to_nodeidx z = z.
Proof. intros Hz. apply to_nodeidx_small. by eapply Forall_forall in Hrange. Qed.

Lemma idx_walk_spec :
  WalkSpec (PNode i)
    (netnode.idx_first (fun d i => first_or BADADDR (ks d i)) d)
    (netnode.idx_first (fun d i => last_or BADADDR (ks d i)) d)
    (netnode.idx_step (fun d i k => default BADADDR (succ_key Z.le (ks d i) (to_nodeidx k))) d)
    (netnode.idx_step (fun d i k => default BADADDR (pred_key Z.le (ks d i) (to_nodeidx k))) d)
    val (PInt BADADDR) (PInt <$> ks d i) vs.
Proof.
  constructor; simpl.
  - by rewrite first_or_fmap.
  - by rewrite last_or_fmap.
  - intros l1 k k' l2 Hl.
    destruct (fmap_split2 _ _ _ _ _ _ Hl) as (m1 & z & z' & m2 & Hks & -> & -> & _).
    cbn [netnode.idx_arg py_num res_bind].
    rewrite idx_key_small by (rewrite Hks; set_solver).
    by rewrite (succ_key_next Z.le (ks d i) m1 z z' m2).
  - intros l1 k k' l2 Hl.
    destruct (fmap_split2 _ _ _ _ _ _ Hl) as (m1 & z & z' & m2 & Hks & -> & -> & _).
    cbn [netnode.idx_arg py_num res_bind].
    rewrite idx_key_small by (rewrite Hks; set_solver).
    by rewrite (pred_key_prev Z.le (ks d i) m1 z z' m2).
  - intros k Hk. apply list_elem_of_fmap in Hk as (z & -> & Hz). by apply Hval.
  - apply Forall_fmap, Forall_true. done.
  - apply NoDup_fmap_2; [intros ?? Heq; by injection Heq|].
    by apply (StronglySorted_key_lt_NoDup Z.le).
Qed.
End IdxWalk.

Lemma idx_no_sentinel {V} (m : gmap Z V) :
  m !! BADADDR = None ->
  Forall (fun k => py_in k sentinels = false) (PInt <$> sorted_keys Z.le m).
Proof.
  intros Hbad. apply Forall_fmap, Forall_forall. intros z Hz. simpl.
  rewrite orb_false_r. apply Z.eqb_neq. intros ->.
  apply elem_of_sorted_keys in Hz as [v Hv]. congruence.
Qed.

(** ** Each namespace meets the contract *)

(** The values the walkers read at a key of each namespace. *)
Definition alt_vs (d : db) (i : Z) (k : pyobj) : pyobj :=
  match k with PInt z => PInt (Store.altval d i z) | _ => PNone end.
Definition sup_vs (d : db) (i : Z) (k : pyobj) : pyobj :=
  match k with PInt z => of_buffer (Store.supval d i z) | _ => PNone end.
Definition char_vs (d : db) (i : Z) (k : pyobj) : pyobj :=
  match k with PInt z => PInt (Store.charval d i z) | _ => PNone end.
Definition hash_vs (d : db) (i : Z) (k : pyobj) : pyobj :=
  match k with PStr s => of_buffer (Store.hashval d i s) | _ => PNone end.

#[export] Instance alt_walk d i :
  keys_ok (nalt (node_of d i)) ->
  WalkSpec (PNode i) (netnode.altfirst d) (netnode.altlast d) (netnode.altnext d)
    (netnode.altprev d) (netnode.altval d) (PInt BADADDR) (PInt <$> alt_keys d i) (alt_vs d i).
Proof.
  intros Hok. apply (idx_walk_spec alt_keys);
    [apply (sorted_keys_sorted Z.le) | by apply sorted_keys_ok | intros; reflexivity].
Qed.

#[export] Instance sup_walk d i :
  keys_ok (nsup (node_of d i)) ->
  WalkSpec (PNode i) (netnode.supfirst d) (netnode.suplast d) (netnode.supnext d)
    (netnode.supprev d) (netnode.supval d) (PInt BADADDR) (PInt <$> sup_keys d i) (sup_vs d i).
Proof.
  intros Hok. apply (idx_walk_spec sup_keys);
    [apply (sorted_keys_sorted Z.le) | by apply sorted_keys_ok | intros; reflexivity].
Qed.

#[export] Instance char_walk d i :
  keys_ok (nchar (node_of d i)) ->
  WalkSpec (PNode i) (netnode.charfirst d) (netnode.charlast d) (netnode.charnext d)
    (netnode.charprev d) (netnode.charval d) (PInt BADADDR) (PInt <$> char_keys d i) (char_vs d i).
Proof.
  intros Hok. apply (idx_walk_spec char_keys);
    [apply (sorted_keys_sorted Z.le) | by apply sorted_keys_ok | intros; reflexivity].
Qed.

#[export] Instance hash_walk d i :
  WalkSpec (PNode i) (netnode.hashfirst d) (netnode.hashlast d) (netnode.hashnext d)
    (netnode.hashprev d) (netnode.hashval d) PNone (PStr <$> hash_keys d i) (hash_vs d i).
Proof.
  pose proof (sorted_keys_sorted String.le (nhash (node_of d i))) as Hs.
  constructor; simpl.
  - unfold Store.hashfirst. by destruct (hash_keys d i).
  - unfold Store.hashlast, last_or. rewrite fmap_last. by destruct (last (hash_keys d i)).
  - intros l1 k k' l2 Hl.
    destruct (fmap_split2 _ _ _ _ _ _ Hl) as (m1 & s & s' & m2 & Hks & -> & -> & _). simpl.
    unfold Store.hashnext. by rewrite (succ_key_next String.le (hash_keys d i) m1 s s' m2).
  - intros l1 k k' l2 Hl.
    destruct (fmap_split2 _ _ _ _ _ _ Hl) as (m1 & s & s' & m2 & Hks & -> & -> & _). simpl.
    unfold Store.hashprev. by rewrite (pred_key_prev String.le (hash_keys d i) m1 s s' m2).
  - intros k Hk. by apply list_elem_of_fmap in Hk as (s & -> & _).
  - apply Forall_fmap, Forall_true. done.
  - apply NoDup_fmap_2; [intros ?? Heq; by injection Heq|].
    by apply (StronglySorted_key_lt_NoDup String.le).
Qed.

(** ** Enumerating the namespaces *)

(** C1: [utils.falt] over a node whose [alt] array has no key [BADADDR]
    yields every [alt] key in increasing order with its value and returns,
    when the consumer pulls one iteration per key after the first. *)
Theorem falt_complete d i fuel :
  keys_ok (nalt (node_of d i)) ->
  nalt (node_of d i) !! BADADDR = None ->
  length (alt_keys d i) <= S fuel ->
  utils.falt d fuel (PNode i) =
    Gen ((fun z => (PInt z, PInt (Store.altval d i z))) <$> alt_keys d i) Returned.
Proof.
  intros Hok Hbad Hlen. unfold utils.falt.
  change (fun z => (PInt z, PInt (Store.altval d i z))) with
    (fun z => (PInt z, alt_vs d i (PInt z))).
  rewrite <- items_fmap.
  apply (valfiter_items _ _ _ _ (netnode.altprev d) _ _ _ _ (alt_walk d i Hok));
    [by apply idx_no_sentinel | reflexivity | by rewrite length_fmap].
Qed.

(** C2: [utils.fhash] yields every key of the hash in string order with
    its value and returns, when the consumer pulls one iteration per key
    after the first. *)
Theorem fhash_complete d i fuel :
  length (hash_keys d i) <= S fuel ->
  utils.fhash d fuel (PNode i) =
    Gen ((fun s => (PStr s, of_buffer (Store.hashval d i s))) <$> hash_keys d i) Returned.
Proof.
  intros Hlen. unfold utils.fhash.
  change (fun s => (PStr s, of_buffer (Store.hashval d i s))) with
    (fun s => (PStr s, hash_vs d i (PStr s))).
  rewrite <- items_fmap.
  apply (hfiter_items _ _ _ _ (netnode.hashprev d) _ _ _ _ (hash_walk d i));
    [reflexivity | | by rewrite length_fmap].
  intros k Hk. apply list_elem_of_fmap in Hk as (s & -> & Hs).
  apply (elem_of_sorted_keys String.le) in Hs as [v Hv]. simpl.
  unfold Store.hashval. by rewrite Hv.
Qed.

(** C7: the reverse enumerators of the source raise [TypeError] on every
    node, whatever it holds: they pass [altprev] ([supprev], [hashprev],
    [charprev]) where [valriter]/[hriter] call [last(node)], and that
    primitive needs a key. *)
Theorem reverse_walkers_raise d fuel node :
  (utils.ralt d fuel node = gen_raise TypeError) ∧
  (utils.rsup d fuel node = gen_raise TypeError) ∧
  (utils.rhash d fuel node = gen_raise TypeError) ∧
  (utils.rchar d fuel node = gen_raise TypeError).
Proof. repeat split; by destruct node. Qed.

(** The first [alt] key of a node that holds a key below [BADADDR] is not
    the empty marker. *)
Lemma altfirst_below d i k w :
  keys_ok (nalt (node_of d i)) -> nalt (node_of d i) !! k = Some w -> k <> BADADDR ->
  py_in (PInt (altfirst d i)) sentinels = false.
Proof.
  intros Hok Hk Hne.
  assert (Hin : k ∈ alt_keys d i) by (apply elem_of_sorted_keys; eauto).
  destruct (alt_keys d i) as [|h rest] eqn:E; [set_solver|].
  assert (Hle : (h <= k)%Z).
  { apply (sorted_head_le Z.le (alt_keys d i) k h); [apply (sorted_keys_sorted Z.le)|by rewrite E|by rewrite E]. }
  pose proof (Hok k w Hk) as Hk'. unfold idx_ok, NODEIDX_MOD, NODEIDX_BITS in Hk'.
  unfold altfirst, first_or. rewrite E. simpl. rewrite orb_false_r.
  apply Z.eqb_neq. unfold BADADDR, NODEIDX_MOD, NODEIDX_BITS in *. lia.
Qed.

(** C8: a well-formed [alt] array may hold the key [BADADDR] (the largest
    [nodeidx_t]); then [altlast] returns it and [valriter], even given the
    right primitives, takes it for the "empty" marker and yields nothing,
    while [utils.falt] on the same array yields its first key. *)
Theorem valriter_badaddr_hides_keys d i fuel v k w :
  keys_ok (nalt (node_of d i)) ->
  nalt (node_of d i) !! BADADDR = Some v ->
  nalt (node_of d i) !! k = Some w -> k <> BADADDR ->
  (Enumerator.utils.valriter fuel (PNode i) (netnode.altfirst d) (netnode.altlast d)
    (netnode.altprev d) (netnode.altval d) = gen_return) /\
  (exists g, utils.falt d fuel (PNode i) =
    gen_yield (PInt (altfirst d i), PInt (altval d i (altfirst d i))) g).
Proof.
  intros Hok Hv Hk Hne. split.
  - unfold Enumerator.utils.valriter. simpl.
    assert (Hlast : last (alt_keys d i) = Some BADADDR).
    { apply (sorted_last_max Z.le); [apply (sorted_keys_sorted Z.le)| |].
      - apply elem_of_sorted_keys. eauto.
      - intros y Hy. eapply Forall_forall in Hy; [|apply sorted_keys_ok, Hok].
        unfold idx_ok, BADADDR in *. lia. }
    unfold Store.altlast, last_or. rewrite Hlast. reflexivity.
  - unfold utils.falt, Enumerator.utils.valfiter. cbn [netnode.altfirst netnode.idx_first call1 res_bind
      netnode.node_arg gen_bind netnode.altlast].
    rewrite (altfirst_below d i k w Hok Hk Hne). eexists. reflexivity.
Qed.

(** A node whose [alt] array holds 1 and [BADADDR]. *)
Definition badaddr_db : db := snd (altset (snd (altset empty_db 0 1 5)) 0 BADADDR 7).

Lemma valriter_badaddr_hides_keys_witness :
  keys_ok (nalt (node_of badaddr_db 0)) /\
  nalt (node_of badaddr_db 0) !! BADADDR = Some 7%Z /\
  Enumerator.utils.valriter 3 (PNode 0) (netnode.altfirst badaddr_db) (netnode.altlast badaddr_db)
    (netnode.altprev badaddr_db) (netnode.altval badaddr_db) = gen_return.
Proof.
  split; [decide_by_eval|split; [vm_compute; reflexivity|]].
  apply (valriter_badaddr_hides_keys badaddr_db 0 3 7 1 5); [decide_by_eval | vm_compute; reflexivity..|].
  discriminate.
Defined.

(** On the same node the forward walk yields both keys. *)
Example falt_badaddr_db :
  utils.falt badaddr_db 3 (PNode 0) = Gen [(PInt 1, PInt 5); (PInt BADADDR, PInt 7)] Returned.
Proof. vm_compute. reflexivity. Qed.

(** ** Witnesses *)

(** A node 0 with [alt] entries 1 -> 10 and 2 -> 20 and a hash entry "k". *)
Definition demo_db : db :=
  snd (hashset (snd (altset (snd (altset empty_db 0 2 20)) 0 1 10)) 0 "k" [Byte.x01]).

Lemma falt_complete_witness :
  utils.falt demo_db 1 (PNode 0) = Gen [(PInt 1, PInt 10); (PInt 2, PInt 20)] Returned.
Proof.
  apply (falt_complete demo_db 0 1); [decide_by_eval | vm_compute; reflexivity | vm_compute; lia].
Defined.

Lemma fhash_complete_witness :
  utils.fhash demo_db 0 (PNode 0) = Gen [(PStr "k", PBytes [Byte.x01])] Returned.
Proof. apply (fhash_complete demo_db 0 0). vm_compute; lia. Defined.

Lemma valfiter_complete_witness :
  Enumerator.utils.valfiter 1 (PNode 0) (netnode.altfirst demo_db) (netnode.altlast demo_db)
    (netnode.altnext demo_db) (netnode.altval demo_db)
  = Gen (items (alt_vs demo_db 0) (PInt <$> alt_keys demo_db 0)) Returned.
Proof.
  apply (valfiter_complete _ _ _ _ _ _ _ _ _ (alt_walk demo_db 0 ltac:(decide_by_eval)));
    [decide_by_eval | reflexivity | vm_compute; lia].
Defined.

(** With no fuel the walker has yielded the first key of node 0 and
    is suspended before the second. *)
Lemma valfiter_lazy_witness :
  Enumerator.utils.valfiter 0 (PNode 0) (netnode.altfirst demo_db)
    (netnode.altlast demo_db) (netnode.altnext demo_db) (netnode.altval demo_db)
  = Gen [(PInt 1, PInt 10)] Suspended.
Proof.
  apply (valfiter_lazy _ _ _ _ _ _ _ _ _ (alt_walk demo_db 0 ltac:(decide_by_eval)));
    [decide_by_eval | vm_compute; lia].
Defined.

(** Node 0 of [demo_db] with a second hash key "m". *)
Definition hash2_db : db := snd (hashset demo_db 0 "m" [Byte.x02]).

Lemma hriter_complete_witness :
  Enumerator.utils.hriter 1 (PNode 0) (netnode.hashfirst hash2_db) (netnode.hashlast hash2_db)
    (netnode.hashprev hash2_db) (netnode.hashval hash2_db)
  = Gen [(PStr "m", PBytes [Byte.x02]); (PStr "k", PBytes [Byte.x01])] Returned.
Proof.
  rewrite (hriter_complete _ _ _ _ _ _ _ _ _ (hash_walk hash2_db 0));
    [reflexivity | reflexivity | apply Forall_forall; decide_by_eval | vm_compute; lia].
Defined.

Lemma hfiter_valfiter_equiv_witness :
  Enumerator.utils.hfiter 0 (PNode 0) (netnode.hashfirst hash2_db) (netnode.hashlast hash2_db)
    (netnode.hashnext hash2_db) (netnode.hashval hash2_db) =
  Enumerator.utils.valfiter 0 (PNode 0) (netnode.hashfirst hash2_db) (netnode.hashlast hash2_db)
    (netnode.hashnext hash2_db) (netnode.hashval hash2_db).
Proof.
  apply (hfiter_valfiter_equiv _ _ _ _ (netnode.hashprev hash2_db) _ _ _ _ (hash_walk hash2_db 0));
    [reflexivity | reflexivity | decide_by_eval | apply Forall_forall; decide_by_eval].
Defined.
