(* ===== verification/Value.v ===== *)
(** * The node value: class [value]

    [value.exists], [value.get], [value.set], [value.remove] and
    [value.repr] of [src/base/_netnode.py] (lines 266-315).  [get] and
    [set] dispatch on a type object or on the runtime type of the value
    ([PyObj.v]); each calls the [netnode] bindings of [Binding.v] on the
    database.  The theorems give the round trip of each stored type, the
    width of integers, the absent and error branches, and the [ValueError]
    the exception messages raise on a node given by its name. *)

From S2P Require Import Prelude PyObj Format Store Binding.
From stdpp Require Import base list gmap strings.
From coqutil Require Import Word.LittleEndianList.
From Stdlib Require Import ZArith.

Module value.

(** [value.exists] (lines 267-270). *)
Definition exists_ (d : db) (nodeidx : pyobj) : res pyobj :=
  node <- netnode.new1 d nodeidx ;;
  netnode.value_exists d node.

(** [value.get] (lines 272-290): [None] when there is no value, whatever
    type is asked for; otherwise the decode the type object selects. *)
Definition get (d : db) (nodeidx : pyobj) (type : option pytype) : res pyobj :=
  node <- netnode.new1 d nodeidx ;;
  ex <- netnode.value_exists d node ;;
  if negb (truthy ex) then Ok PNone else
  match type with
  | None => netnode.valobj d node
  | Some t =>
      if issubclass_memoryview t then
        r <- netnode.valobj d node ;; py_and r py_memoryview
      else if issubclass_bytes t then
        r <- netnode.valstr d node ;; py_and r py_bytes
      else if issubclass_string_types t then netnode.valstr d node
      else if issubclass_integer_types t then netnode.long_value d node
      else raise_fmt [(FmtAltHex, nodeidx)] InvalidTypeOrValueError
  end.

(** [value.set] (lines 292-303): the encoding follows the value's type.
    A memoryview is stored through [netnode.set(nodeidx, ...)], with the
    index where the netnode object is expected. *)
Definition set (d : db) (nodeidx v : pyobj) : res (pyobj * db) :=
  node <- netnode.new1 d nodeidx ;;
  let t := type_of v in
  if issubclass_memoryview t then
    match v with
    | PMemoryview b => netnode.set d nodeidx (tobytes b)
    | _ => Err TypeError
    end
  else if issubclass_bytes t then netnode.set d node v
  else if issubclass_string_types t then netnode.set d node v
  else if issubclass_integer_types t then netnode.set_long d node v
  else raise_fmt [(FmtAltHex, nodeidx)] InvalidTypeOrValueError.

(** [value.remove] (lines 305-308): it takes a second argument it never
    uses. *)
Definition remove (d : db) (nodeidx _value : pyobj) : res (pyobj * db) :=
  node <- netnode.new1 d nodeidx ;;
  netnode.delvalue d node.

(** [value.repr] (lines 310-315): the value as stored, read as bytes and
    read as an integer, formatted [{!r} {!r} {:#x}]; with no value, the
    [MissingTypeOrAttribute] whose message formats [nodeidx] with [{:#x}]
    and [{:x}]. *)
Definition repr `{!ObjectIds} (d : db) (nodeidx : pyobj) : res string :=
  ex <- exists_ d nodeidx ;;
  if negb (truthy ex)
  then raise_fmt [(FmtAltHex, nodeidx); (FmtHex, nodeidx)] MissingTypeOrAttribute else
  r <- get d nodeidx None ;;
  s <- get d nodeidx (Some TBytes) ;;
  v <- get d nodeidx (Some TInt) ;;
  x <- format_num FmtAltHex v ;;
  Ok (py_repr r +:+ " " +:+ py_repr s +:+ " " +:+ x).

End value.

(** ** Properties *)

Lemma new1_int d z : netnode.new1 d (PInt z) = Ok (PNode (to_nodeidx z)).
Proof. reflexivity. Qed.

(** What [value.get] computes at a node whose value is [o]. *)
Lemma value_get_eq d z t :
  value.get d (PInt z) t =
  match Store.valobj d (to_nodeidx z) with
  | None => Ok PNone
  | Some b =>
      match t with
      | None => Ok (PBytes b)
      | Some t =>
          if issubclass_memoryview t then py_and (PBytes b) py_memoryview
          else if issubclass_bytes t then py_and (PStr (decode_cstr b)) py_bytes
          else if issubclass_string_types t then Ok (PStr (decode_cstr b))
          else if issubclass_integer_types t then Ok (PInt (Store.long_value d (to_nodeidx z)))
          else Err InvalidTypeOrValueError
      end
  end.
Proof.
  unfold value.get, netnode.value_exists, netnode.valobj, netnode.valstr, netnode.long_value.
  rewrite new1_int. simpl.
  unfold Store.value_exists, Store.valstr. fold (Store.valobj d (to_nodeidx z)).
  destruct (Store.valobj d (to_nodeidx z)) as [b|]; simpl; [|done].
  destruct t as [t|]; [|done]. by destruct t.
Qed.

(** C14: a buffer or a str stored with [value.set] reads back as it was:
    the buffer byte for byte with no type given, the str (without NUL)
    when [str] is asked for. *)
Theorem value_set_get_roundtrip d z :
  (forall b, exists d', value.set d (PInt z) (PBytes b) = Ok (PBool true, d') /\
                        value.get d' (PInt z) None = Ok (PBytes b)) /\
  (forall s, no_nul s -> exists d', value.set d (PInt z) (PStr s) = Ok (PBool true, d') /\
                        value.get d' (PInt z) (Some TStr) = Ok (PStr s)).
Proof.
  split; [intros b | intros s Hs]; eexists; (split; [reflexivity|]);
    rewrite value_get_eq; unfold Store.valobj; rewrite node_of_upd_eq; simpl; [done|].
  by rewrite decode_encode_str.
Qed.

(** C15: an int stored with [value.set] is kept as a [nodeidx_t]: [get]
    with [int] returns it modulo 2^64, so exactly when it is in range. *)
Theorem value_set_get_int d z v :
  exists d', value.set d (PInt z) (PInt v) = Ok (PBool true, d') /\
             value.get d' (PInt z) (Some TInt) = Ok (PInt (v mod 2 ^ 64)).
Proof.
  eexists. split; [reflexivity|]. rewrite value_get_eq.
  pose proof (long_value_set_long d (to_nodeidx z) v) as Hl.
  unfold Store.set_long, Store.netnode_set in Hl |- *. simpl in Hl |- *.
  unfold Store.valobj. rewrite node_of_upd_eq. simpl.
  destruct (le_split 8 (to_nodeidx v)); simpl; rewrite Hl; done.
Qed.

(** C16: with no value stored, [value.get] returns [None] whatever type is
    asked for, an unsupported one included; with a value stored, a type
    outside memoryview, bytes, str and int raises
    [InvalidTypeOrValueError]. *)
Theorem value_get_absent_or_invalid d z t (name : string) :
  (Store.valobj d (to_nodeidx z) = None -> value.get d (PInt z) t = Ok PNone) /\
  (is_Some (Store.valobj d (to_nodeidx z)) ->
   value.get d (PInt z) (Some (TOther name)) = Err InvalidTypeOrValueError).
Proof.
  split; [intros Hn | intros [b Hb]]; rewrite value_get_eq; [by rewrite Hn|by rewrite Hb].
Qed.

(** C17: [value.set] of a memoryview always raises [TypeError]: it calls
    [netnode.set(nodeidx, ...)] with the index where the netnode object is
    expected.  A value of any type but memoryview, bytes, str and int
    raises [InvalidTypeOrValueError]. *)
Theorem value_set_errors d nodeidx z b (name : string) :
  value.set d nodeidx (PMemoryview b) = Err TypeError /\
  value.set d (PInt z) (PObject name) = Err InvalidTypeOrValueError /\
  value.set d (PInt z) PNone = Err InvalidTypeOrValueError.
Proof.
  split_and!; [unfold value.set; by destruct nodeidx | reflexivity..].
Qed.

(** C19: after [value.remove] the node has no value: [exists] is false
    and [get] returns [None]. *)
Theorem value_remove_absent d z v t :
  exists ok d', value.remove d (PInt z) v = Ok (ok, d') /\
    value.exists_ d' (PInt z) = Ok (PBool false) /\ value.get d' (PInt z) t = Ok PNone.
Proof.
  do 2 eexists. split; [reflexivity|]. split.
  - unfold value.exists_, netnode.value_exists. rewrite new1_int. simpl.
    unfold Store.value_exists. by rewrite node_of_upd_eq.
  - rewrite value_get_eq. unfold Store.valobj. by rewrite node_of_upd_eq.
Qed.

(** C20: under Python 3, where the text primitives return [str], a value
    whose text is not empty cannot be read with [type=bytes]: [bytes(res)]
    of a [str] raises [TypeError], and so does [value.repr], which asks for
    it. *)
Theorem value_get_bytes_raises `{!ObjectIds} d z b :
  Store.valobj d (to_nodeidx z) = Some b -> decode_cstr b <> EmptyString ->
  value.get d (PInt z) (Some TBytes) = Err TypeError /\ value.repr d (PInt z) = Err TypeError.
Proof.
  intros Hb Hne.
  assert (Hget : value.get d (PInt z) (Some TBytes) = Err TypeError).
  { rewrite value_get_eq, Hb. simpl. unfold py_and. simpl.
    rewrite bool_decide_false by done. reflexivity. }
  split; [done|].
  unfold value.repr, value.exists_, netnode.value_exists. rewrite new1_int. simpl.
  unfold Store.value_exists. fold (Store.valobj d (to_nodeidx z)). rewrite Hb. simpl.
  rewrite value_get_eq, Hb. simpl. by rewrite Hget.
Qed.

Lemma new1_str d s : netnode.new1 d (PStr s) = Ok (PNode (default BADADDR (names d !! s))).
Proof. unfold netnode.new1, netnode_new_name. simpl. by destruct (names d !! s). Qed.

(** C18: the messages of the exceptions format the node with [{:#x}], so on
    a node given by its name the formatting raises [ValueError] before the
    exception meant: [value.repr] of a named node without a value,
    [value.get] of an unsupported type on a named node with a value and
    [value.set] of an unsupported value raise [ValueError], not
    [MissingTypeOrAttribute] or [InvalidTypeOrValueError]. *)
Theorem value_by_name_raises `{!ObjectIds} d s name :
  (Store.valobj d (default BADADDR (names d !! s)) = None -> value.repr d (PStr s) = Err ValueError) /\
  (is_Some (Store.valobj d (default BADADDR (names d !! s))) ->
     value.get d (PStr s) (Some (TOther name)) = Err ValueError) /\
  value.set d (PStr s) (PObject name) = Err ValueError.
Proof.
  unfold value.repr, value.exists_, value.get, value.set, netnode.value_exists.
  rewrite new1_str. cbn [res_bind netnode.node_arg]. unfold Store.value_exists.
  fold (Store.valobj d (default BADADDR (names d !! s))).
  split_and!; [intros -> | intros [b ->] |]; reflexivity.
Qed.

#[local] Existing Instance null_ids.

(** A node 0 whose value is the text "a". *)
Definition text_db : db := snd (Store.netnode_set Store.empty_db 0 (encode_str "a")).

Lemma value_get_bytes_raises_witness :
  value.get text_db (PInt 0) (Some TBytes) = Err TypeError /\ value.repr text_db (PInt 0) = Err TypeError.
Proof. apply (value_get_bytes_raises text_db 0 (encode_str "a")); [reflexivity | discriminate]. Defined.

Lemma value_get_absent_or_invalid_witness :
  value.get Store.empty_db (PInt 0) (Some TInt) = Ok PNone /\
  value.get text_db (PInt 0) (Some (TOther "float")) = Err InvalidTypeOrValueError.
Proof.
  split; [apply (value_get_absent_or_invalid Store.empty_db 0 (Some TInt) "float") |
          apply (value_get_absent_or_invalid text_db 0 (Some TInt) "float")];
    [reflexivity | eexists; reflexivity].
Defined.

Lemma value_set_errors_witness :
  value.set Store.empty_db (PInt 0) (PMemoryview []) = Err TypeError /\
  value.set Store.empty_db (PInt 0) (PObject "float") = Err InvalidTypeOrValueError /\
  value.set Store.empty_db (PInt 0) PNone = Err InvalidTypeOrValueError.
Proof. exact (value_set_errors Store.empty_db (PInt 0) 0 [] "float"). Defined.

(** Node 0 named "n", first without a value, then holding the text "a". *)
Definition named_db : db := snd (Store.netnode_new_name Store.empty_db "n" true).
Definition named_text_db : db := snd (Store.netnode_set named_db 0 (encode_str "a")).

Lemma value_by_name_raises_witness :
  value.repr named_db (PStr "n") = Err ValueError /\
  value.get named_text_db (PStr "n") (Some (TOther "float")) = Err ValueError.
Proof.
  split; [apply (value_by_name_raises named_db "n" "float"); reflexivity |
          apply (value_by_name_raises named_text_db "n" "float"); by eexists].
Defined.
