(* ===== verification/Alt.v ===== *)
(** * The [alt] array: class [alt]

    [alt.get], [alt.set], [alt.remove], [alt.fiter], [alt.riter] and
    [alt.repr] of [src/base/_netnode.py] (lines 359-397): a sparse array
    of [nodeidx_t] indexed by [nodeidx_t].  [fiter]/[riter] relay the
    generators of [utils.falt]/[utils.ralt] ([Walks.v]); [repr] prints a
    line per pair of [fiter] and raises [MissingTypeOrAttribute] when it
    yields nothing.  The theorems give its text, the round trip of
    [set] and [get], and that an absent index reads as 0. *)

From S2P Require Import Prelude PyObj Format Store Binding Enumerator Walks.
From stdpp Require Import base list gmap strings sorting.
From Stdlib Require Import ZArith.

Module alt.

(** [alt.get] (lines 361-364): 0 when there is no such index. *)
Definition get (d : db) (nodeidx idx : pyobj) : res pyobj :=
  node <- netnode.new1 d nodeidx ;; call2 (netnode.altval d) node idx.

(** [alt.set] (lines 366-369). *)
Definition set (d : db) (nodeidx idx value : pyobj) : res (pyobj * db) :=
  node <- netnode.new1 d nodeidx ;; netnode.altset d node idx value.

(** [alt.remove] (lines 371-374). *)
Definition remove (d : db) (nodeidx idx : pyobj) : res (pyobj * db) :=
  node <- netnode.new1 d nodeidx ;; netnode.altdel d node idx.

(** [alt.fiter] (lines 376-381): the (index, value) pairs of
    [utils.falt]. *)
Definition fiter (d : db) (fuel : nat) (nodeidx : pyobj) : gen (pyobj * pyobj) :=
  node <-- netnode.new1 d nodeidx ;; gen_map id (utils.falt d fuel node).

(** [alt.riter] (lines 383-388). *)
Definition riter (d : db) (fuel : nat) (nodeidx : pyobj) : gen (pyobj * pyobj) :=
  node <-- netnode.new1 d nodeidx ;; gen_map id (utils.ralt d fuel node).

(** One line of [alt.repr] (line 394): [{0:x} : {1:#x} ({1:d})]. *)
Definition line (idx value : pyobj) : res string :=
  a <- format_num FmtHex idx ;;
  b <- format_num FmtAltHex value ;;
  c <- format_num FmtDec value ;;
  Ok (a +:+ " : " +:+ b +:+ " (" +:+ c +:+ ")").

(** [alt.repr] (lines 390-397): a [line] for each pair [fiter] yields,
    joined by newlines; [MissingTypeOrAttribute] when there is none. *)
Definition repr (d : db) (fuel : nat) (nodeidx : pyobj) : option (res string) :=
  join_or_raise [(FmtAltHex, nodeidx); (FmtHex, nodeidx)] MissingTypeOrAttribute
    (gen_for (fiter d fuel nodeidx) (fun '(idx, value) => line idx value)).

End alt.

(** ** Properties *)

Lemma alt_get_eq d z k : alt.get d (PInt z) (PInt k) = Ok (PInt (Store.altval d (to_nodeidx z) k)).
Proof. reflexivity. Qed.

(** [alt.set] then [alt.get] at the same index returns the value
    modulo 2^64; every other index of every node reads as before. *)
Theorem alt_set_get d z k v :
  exists d', alt.set d (PInt z) (PInt k) (PInt v) = Ok (PBool true, d') /\
    alt.get d' (PInt z) (PInt k) = Ok (PInt (v mod 2 ^ 64)) /\
    (forall z' k', (to_nodeidx z, to_nodeidx k) <> (to_nodeidx z', to_nodeidx k') ->
       alt.get d' (PInt z') (PInt k') = alt.get d (PInt z') (PInt k')).
Proof.
  exists (snd (Store.altset d (to_nodeidx z) k v)). split; [reflexivity|]. split.
  - rewrite alt_get_eq, altval_altset, decide_True by done. reflexivity.
  - intros z' k' Hne. rewrite !alt_get_eq, altval_altset, decide_False; [done|].
    intros [H1 H2]. apply Hne. by rewrite H1, H2.
Qed.

(** An index that was removed and an index that holds 0 read the
    same: [alt.get] cannot tell "absent" from the stored value 0. *)
Lemma alt_absent_is_zero d z k :
  exists d1 d2 ok,
    alt.remove d (PInt z) (PInt k) = Ok (ok, d1) /\
    alt.set d (PInt z) (PInt k) (PInt 0) = Ok (PBool true, d2) /\
    alt.get d1 (PInt z) (PInt k) = Ok (PInt 0) /\ alt.get d2 (PInt z) (PInt k) = Ok (PInt 0) /\
    Store.nalt (node_of d1 (to_nodeidx z)) !! to_nodeidx k = None /\
    Store.nalt (node_of d2 (to_nodeidx z)) !! to_nodeidx k = Some 0%Z.
Proof.
  exists (snd (Store.altdel d (to_nodeidx z) k)), (snd (Store.altset d (to_nodeidx z) k 0)),
    (PBool (fst (Store.altdel d (to_nodeidx z) k))).
  split; [reflexivity|]. split; [reflexivity|].
  rewrite !alt_get_eq, altval_altdel, altval_altset, !decide_True by done.
  unfold Store.altdel, Store.altset. simpl. rewrite !node_of_upd_eq. simpl.
  by rewrite lookup_delete_eq, lookup_insert_eq.
Qed.

(** What [alt.fiter] yields on a well-formed node. *)
Lemma alt_fiter_items d z fuel :
  keys_ok (nalt (node_of d (to_nodeidx z))) ->
  nalt (node_of d (to_nodeidx z)) !! BADADDR = None ->
  length (alt_keys d (to_nodeidx z)) <= S fuel ->
  alt.fiter d fuel (PInt z) =
    Gen ((fun k => (PInt k, PInt (Store.altval d (to_nodeidx z) k))) <$> alt_keys d (to_nodeidx z)) Returned.
Proof.
  intros Hok Hbad Hlen. unfold alt.fiter. cbn [netnode.new1 netnode.idx_arg py_num res_bind gen_bind].
  rewrite gen_map_id. unfold utils.falt.
  change (fun k => (PInt k, PInt (Store.altval d (to_nodeidx z) k))) with
    (fun k => (PInt k, alt_vs d (to_nodeidx z) (PInt k))).
  rewrite <- items_fmap.
  apply (valfiter_items _ _ _ _ (netnode.altprev d) _ _ _ _ (alt_walk d _ Hok));
    [by apply idx_no_sentinel | reflexivity | by rewrite length_fmap].
Qed.

(** The line [alt.repr] prints for the index [k] holding [v]. *)
Definition alt_text (k v : Z) : string :=
  format_int FmtHex k +:+ " : " +:+ format_int FmtAltHex v +:+ " (" +:+ format_int FmtDec v +:+ ")".

(** C35: on a well-formed node with no key [BADADDR], [alt.repr] prints one
    line per [alt] index, in increasing order, joined by newlines, and
    raises [MissingTypeOrAttribute] when the array is empty. *)
Theorem alt_repr_text d z fuel :
  keys_ok (nalt (node_of d (to_nodeidx z))) ->
  nalt (node_of d (to_nodeidx z)) !! BADADDR = None ->
  length (alt_keys d (to_nodeidx z)) <= S fuel ->
  alt.repr d fuel (PInt z) =
    Some (match alt_keys d (to_nodeidx z) with
          | [] => Err MissingTypeOrAttribute
          | ks => Ok (join_lines ((fun k => alt_text k (Store.altval d (to_nodeidx z) k)) <$> ks))
          end).
Proof.
  intros Hok Hbad Hlen. unfold alt.repr, gen_for. rewrite alt_fiter_items by done. cbn [yielded ending_of].
  rewrite (map_res_fmap _ _ (fun k => alt_text k (Store.altval d (to_nodeidx z) k))) by reflexivity.
  by destruct (alt_keys d (to_nodeidx z)).
Qed.


(** Node 0 of [demo_db] holds 10 at index 1 and 20 at index 2. *)
Lemma alt_repr_text_witness :
  alt.repr demo_db 1 (PInt 0) =
    Some (Ok ("1 : 0xa (10)" +:+ newline +:+ "2 : 0x14 (20)")).
Proof.
  rewrite (alt_repr_text demo_db 0 1); [reflexivity | decide_by_eval | vm_compute; reflexivity |
    vm_compute; lia].
Defined.
