(* ===== verification/Sup.v ===== *)
(** * The [sup] array: class [sup]

    [sup.get], [sup.set], [sup.remove], [sup.fiter], [sup.riter] and
    [sup.repr] of [src/base/_netnode.py] (lines 400-451): a sparse array of
    byte strings of at most [MAXSPECSIZE] bytes indexed by [nodeidx_t].
    Unlike [value.get], [sup.get] does not test for presence first, and it
    has no integer decode.  [repr] prints [[position] index : repr(value)]
    per index; the theorem gives its text. *)

From S2P Require Import Prelude PyObj Format Store Binding Enumerator Walks.
From stdpp Require Import base list gmap strings sorting.
From Stdlib Require Import ZArith.

Module sup.

(** [sup.get] (lines 405-417). *)
Definition get (d : db) (nodeidx idx : pyobj) (type : option pytype) : res pyobj :=
  node <- netnode.new1 d nodeidx ;;
  match type with
  | None => call2 (netnode.supval d) node idx
  | Some t =>
      if issubclass_memoryview t then
        r <- call2 (netnode.supval d) node idx ;; py_and r py_memoryview
      else if issubclass_bytes t then netnode.supstr d node idx
      else if issubclass_string_types t then netnode.supstr d node idx
      else raise_fmt [(FmtAltHex, nodeidx); (FmtAltHex, idx)] InvalidTypeOrValueError
  end.

(** [sup.set] (lines 419-422): a memoryview is stored as its bytes. *)
Definition set (d : db) (nodeidx idx value : pyobj) : res (pyobj * db) :=
  node <- netnode.new1 d nodeidx ;;
  netnode.supset d node idx (match value with PMemoryview b => tobytes b | _ => value end).

(** [sup.remove] (lines 424-427). *)
Definition remove (d : db) (nodeidx idx : pyobj) : res (pyobj * db) :=
  node <- netnode.new1 d nodeidx ;; netnode.supdel d node idx.

(** [sup.fiter] (lines 429-434): the indices [utils.fsup] yields. *)
Definition fiter (d : db) (fuel : nat) (nodeidx : pyobj) : gen pyobj :=
  node <-- netnode.new1 d nodeidx ;; gen_map fst (utils.fsup d fuel node).

(** [sup.riter] (lines 436-441). *)
Definition riter (d : db) (fuel : nat) (nodeidx : pyobj) : gen pyobj :=
  node <-- netnode.new1 d nodeidx ;; gen_map fst (utils.rsup d fuel node).

(** One line of [sup.repr] (line 448): [[{:d}] {:x} : {!r}] of the
    position, the index and the value. *)
Definition line `{!ObjectIds} (n : nat) (item value : pyobj) : res string :=
  b <- format_num FmtHex item ;;
  Ok ("[" +:+ format_int FmtDec (Z.of_nat n) +:+ "] " +:+ b +:+ " : " +:+ py_repr value).

(** [sup.repr] (lines 443-451): for each index [fiter] yields, the [line]
    of its position, the index and [sup.get] of it, joined by newlines;
    [MissingTypeOrAttribute] when there is none. *)
Definition repr `{!ObjectIds} (d : db) (fuel : nat) (nodeidx : pyobj) : option (res string) :=
  let g := fiter d fuel nodeidx in
  join_or_raise [(FmtAltHex, nodeidx); (FmtHex, nodeidx)] MissingTypeOrAttribute
    (gen_for (Gen (enumerate (yielded g)) (ending_of g))
       (fun '(n, item) => value <- get d nodeidx item None ;; line n item value)).

End sup.

(** ** Properties *)

Lemma supval_supset d i k b j k' :
  length b <= MAXSPECSIZE ->
  Store.supval (snd (Store.supset d i k b)) j k' =
  if decide (i = j /\ to_nodeidx k = to_nodeidx k') then Some b else Store.supval d j k'.
Proof.
  intros Hb. unfold Store.supval, Store.supset. rewrite decide_True by done. simpl.
  rewrite node_of_upd. destruct (decide (i = j)) as [<-|Hij]; simpl.
  - rewrite lookup_insert. do 2 case_decide; naive_solver.
  - rewrite decide_False by naive_solver. done.
Qed.

Lemma sup_get_eq d z k t :
  sup.get d (PInt z) (PInt k) t =
  let o := Store.supval d (to_nodeidx z) k in
  match t with
  | None => Ok (of_buffer o)
  | Some t =>
      if issubclass_memoryview t then py_and (of_buffer o) py_memoryview
      else if issubclass_bytes t || issubclass_string_types t then Ok (of_text (decode_cstr <$> o))
      else Err InvalidTypeOrValueError
  end.
Proof. destruct t as [[]|]; reflexivity. Qed.

(** A buffer of at most [MAXSPECSIZE] bytes stored with [sup.set]
    reads back byte for byte with no type given, and as a memoryview when
    one is asked for (a non-empty buffer). *)
Lemma sup_set_get d z k b :
  length b <= MAXSPECSIZE ->
  exists d', sup.set d (PInt z) (PInt k) (PBytes b) = Ok (PBool true, d') /\
    sup.get d' (PInt z) (PInt k) None = Ok (PBytes b) /\
    (b <> [] -> sup.get d' (PInt z) (PInt k) (Some TMemoryview) = Ok (PMemoryview b)).
Proof.
  intros Hb. exists (snd (Store.supset d (to_nodeidx z) k b)). split.
  { unfold sup.set, netnode.supset. simpl. unfold Store.supset. by rewrite decide_True. }
  rewrite !sup_get_eq. simpl. rewrite supval_supset, decide_True by done. split; [done|].
  intros Hne. unfold py_and. simpl. rewrite bool_decide_false by done. reflexivity.
Qed.

(** C21: [sup.get] asked for [bytes] returns the same [str] as when asked
    for [str], and asked for [int] it raises [InvalidTypeOrValueError]
    whether or not the index holds a value. *)
Theorem sup_get_types d z k :
  sup.get d (PInt z) (PInt k) (Some TBytes) = sup.get d (PInt z) (PInt k) (Some TStr) /\
  sup.get d (PInt z) (PInt k) (Some TInt) = Err InvalidTypeOrValueError.
Proof. split; reflexivity. Qed.

(** What [sup.fiter] yields on a well-formed node. *)
Lemma sup_fiter_items d z fuel :
  keys_ok (nsup (node_of d (to_nodeidx z))) ->
  nsup (node_of d (to_nodeidx z)) !! BADADDR = None ->
  length (sup_keys d (to_nodeidx z)) <= S fuel ->
  sup.fiter d fuel (PInt z) = Gen (PInt <$> sup_keys d (to_nodeidx z)) Returned.
Proof.
  intros Hok Hbad Hlen. unfold sup.fiter. simpl. unfold utils.fsup.
  rewrite (valfiter_items _ _ _ _ (netnode.supprev d) _ _ _ _ (sup_walk d (to_nodeidx z) Hok));
    [|by apply idx_no_sentinel | reflexivity | by rewrite length_fmap].
  unfold gen_map. simpl. by rewrite fst_items.
Qed.

(** The line [sup.repr] prints at position [n] for the index [k] holding
    the buffer [b]. *)
Definition sup_text `{!ObjectIds} (n : nat) (k : Z) (b : option bytes) : string :=
  "[" +:+ format_int FmtDec (Z.of_nat n) +:+ "] " +:+ format_int FmtHex k +:+ " : " +:+
  py_repr (of_buffer b).

(** The lines [sup.repr] formats for the indices [ks] at the positions
    [ns]. *)
Lemma map_res_sup_lines `{!ObjectIds} d z (ns : list nat) ks :
  map_res (fun '((n, item) : nat * pyobj) => v <- sup.get d (PInt z) item None ;; sup.line n item v)
    (zip ns (PInt <$> ks)) =
  Ok ((fun '((n, k) : nat * Z) => sup_text n k (Store.supval d (to_nodeidx z) k)) <$> zip ns ks).
Proof.
  revert ns. induction ks as [|k ks IH]; intros [|n ns]; try reflexivity.
  cbn [fmap list_fmap zip map_res]. rewrite sup_get_eq. simpl. by rewrite IH.
Qed.

(** C36: on a well-formed node with no key [BADADDR], [sup.repr] prints
    one line per [sup] index, in increasing order, joined by newlines: its
    position, the index in hexadecimal and the [repr] of the bytes stored
    there; it raises [MissingTypeOrAttribute] when the array is empty. *)
Theorem sup_repr_complete `{!ObjectIds} d z fuel :
  keys_ok (nsup (node_of d (to_nodeidx z))) ->
  nsup (node_of d (to_nodeidx z)) !! BADADDR = None ->
  length (sup_keys d (to_nodeidx z)) <= S fuel ->
  sup.repr d fuel (PInt z) =
  Some (match sup_keys d (to_nodeidx z) with
        | [] => Err MissingTypeOrAttribute
        | ks => Ok (join_lines ((fun '((n, k) : nat * Z) => sup_text n k (Store.supval d (to_nodeidx z) k)) <$>
                                enumerate ks))
        end).
Proof.
  intros Hok Hbad Hlen. unfold sup.repr. rewrite sup_fiter_items by done.
  unfold gen_for, enumerate. cbn [yielded ending_of]. rewrite length_fmap, map_res_sup_lines.
  by destruct (sup_keys d (to_nodeidx z)).
Qed.

(** After [sup.remove] the index reads as [None]. *)
Theorem sup_remove_get d z k :
  exists ok d', sup.remove d (PInt z) (PInt k) = Ok (ok, d') /\
    sup.get d' (PInt z) (PInt k) None = Ok PNone.
Proof.
  do 2 eexists. split; [reflexivity|]. rewrite sup_get_eq. simpl.
  unfold Store.supval. rewrite node_of_upd_eq. simpl. by rewrite lookup_delete_eq.
Qed.

(** ** Witnesses *)

#[local] Existing Instance null_ids.

(** Node 0 holds "ab" at sup index 3 and "c" at 7. *)
Definition sup_db : db :=
  snd (Store.supset (snd (Store.supset Store.empty_db 0 3 (encode_str "ab"))) 0 7 (encode_str "c")).

Lemma sup_repr_complete_witness :
  sup.repr sup_db 1 (PInt 0) = Some (Ok ("[0] 3 : b'ab'" +:+ newline +:+ "[1] 7 : b'c'")).
Proof.
  rewrite (sup_repr_complete sup_db 0 1); [reflexivity | decide_by_eval | reflexivity |
    vm_compute; lia].
Defined.
