(* ===== verification/Hash.v ===== *)
(** * The hash: class [hash]

    [hash.get], [hash.set], [hash.remove], [hash.fiter], [hash.riter] and
    [hash.repr] of [src/base/_netnode.py] (lines 454-520): a table from
    string keys to byte strings.  [get] decodes the stored bytes as the
    type object asks ([hashval], [hashstr_buf], [hashstr], [hashval_long]);
    [set] picks the primitive from the value's type.  [repr] makes two
    passes for the column widths, falling back to 0 and 2 when [max] of
    nothing raises [ValueError], then prints a padded line per key. *)

From S2P Require Import Prelude PyObj Format Store Binding Enumerator Walks.
From stdpp Require Import base list gmap strings sorting.
From coqutil Require Import Word.LittleEndianList.
From Stdlib Require Import ZArith.

Module hash.

(** [hash.get] (lines 456-471). *)
Definition get (d : db) (nodeidx key : pyobj) (type : option pytype) : res pyobj :=
  node <- netnode.new1 d nodeidx ;;
  match type with
  | None => call2 (netnode.hashval d) node key
  | Some t =>
      if issubclass_memoryview t then
        r <- call2 (netnode.hashval d) node key ;; py_and r py_memoryview
      else if issubclass_bytes t then
        r <- netnode.hashstr_buf d node key ;; py_and r py_bytes
      else if issubclass_string_types t then netnode.hashstr d node key
      else if issubclass_integer_types t then netnode.hashval_long d node key
      else raise_fmt [(FmtAltHex, nodeidx)] InvalidTypeOrValueError
  end.

(** [hash.set] (lines 473-485). *)
Definition set (d : db) (nodeidx key value : pyobj) : res (pyobj * db) :=
  node <- netnode.new1 d nodeidx ;;
  let t := type_of value in
  if issubclass_memoryview t then
    match value with
    | PMemoryview b => netnode.hashset d node key (tobytes b)
    | _ => Err TypeError
    end
  else if issubclass_bytes t then netnode.hashset_buf d node key value
  else if issubclass_string_types t then netnode.hashset_buf d node key value
  else if issubclass_integer_types t then netnode.hashset_idx d node key value
  else raise_fmt [(FmtAltHex, nodeidx)] InvalidTypeOrValueError.

(** [hash.remove] (lines 487-490). *)
Definition remove (d : db) (nodeidx key : pyobj) : res (pyobj * db) :=
  node <- netnode.new1 d nodeidx ;; netnode.hashdel d node key.

(** [hash.fiter] (lines 492-497): the keys [utils.fhash] yields. *)
Definition fiter (d : db) (fuel : nat) (nodeidx : pyobj) : gen pyobj :=
  node <-- netnode.new1 d nodeidx ;; gen_map fst (utils.fhash d fuel node).

(** [hash.riter] (lines 499-504). *)
Definition riter (d : db) (fuel : nat) (nodeidx : pyobj) : gen pyobj :=
  node <-- netnode.new1 d nodeidx ;; gen_map fst (utils.rhash d fuel node).

(** The column widths of [hash.repr] (lines 509-513): the longest key
    ([key or ''], so that a key [None] counts as empty) and the longest
    [repr] of a value, each a pass over [fiter]; when [fiter] yields
    nothing, [max] raises [ValueError], which the code catches to use the
    widths 0 and 2. *)
Definition widths `{!ObjectIds} (d : db) (fuel : nat) (nodeidx : pyobj) : option (res (Z * Z)) :=
  let g := fiter d fuel nodeidx in
  let attempt :=
    ores_bind (gen_for g (fun key => py_len_z (py_or key (PStr "")))) (fun ls1 =>
      match py_max ls1 with
      | Err e => Some (Err e)
      | Ok l1 =>
          ores_bind (gen_for g (fun key => v <- get d nodeidx key None ;;
                                           Ok (Z.of_nat (String.length (py_repr v)))))
            (fun ls2 => Some (l2 <- py_max ls2 ;; Ok (l1, l2)))
      end) in
  match attempt with
  | Some (Err ValueError) => Some (Ok (0%Z, 2%Z))
  | r => r
  end.

(** One line of [hash.repr] (lines 516-517), for the key [key] at
    position [n]: the arguments in the order the code evaluates them (the
    [repr] of the value, then its reads as default, memoryview, bytes and
    twice int), then the fields in the order they are formatted: the value
    column padded to [l2], and the key padded to [l1]. *)
Definition line `{!ObjectIds} (d : db) (nodeidx : pyobj) (l1 l2 : Z) (n : nat) (key : pyobj)
    : res string :=
  r <- get d nodeidx key None ;;
  v0 <- get d nodeidx key None ;;
  v1 <- get d nodeidx key (Some TMemoryview) ;;
  v2 <- get d nodeidx key (Some TBytes) ;;
  v3 <- get d nodeidx key (Some TInt) ;;
  v4 <- get d nodeidx key (Some TInt) ;;
  a <- format_str (Z.to_nat l2) (PStr (py_repr r)) ;;
  h <- format_num FmtAltHex v3 ;;
  i <- format_num FmtDec v4 ;;
  let value := a +:+ " : default=" +:+ py_repr v0 +:+ ", memoryview=" +:+ py_repr v1 +:+
               ", bytes=" +:+ py_repr v2 +:+ ", int=" +:+ h +:+ "(" +:+ i +:+ ")" in
  k <- format_str (Z.to_nat l1) key ;;
  Ok ("[" +:+ format_int FmtDec (Z.of_nat n) +:+ "] " +:+ k +:+ " -> " +:+ value).

(** [hash.repr] (lines 506-520): the widths, then a [line] for each key
    [fiter] yields, joined by newlines; [MissingTypeOrAttribute] when there
    is none. *)
Definition repr `{!ObjectIds} (d : db) (fuel : nat) (nodeidx : pyobj) : option (res string) :=
  ores_bind (widths d fuel nodeidx) (fun '(l1, l2) =>
    let g := fiter d fuel nodeidx in
    join_or_raise [(FmtAltHex, nodeidx); (FmtHex, nodeidx)] MissingTypeOrAttribute
      (gen_for (Gen (enumerate (yielded g)) (ending_of g)) (fun '(n, key) => line d nodeidx l1 l2 n key))).

End hash.

(** ** Properties *)

(** [hashset] within the bounds accepts, and otherwise refuses and
    leaves the database unchanged. *)
Lemma hashset_accept d i key b :
  String.length key <= MAXHASHKEY -> length b <= MAXSPECSIZE ->
  fst (Store.hashset d i key b) = true.
Proof. intros Hk Hb. unfold Store.hashset. by rewrite decide_True. Qed.

Lemma hashset_refuse d i key b :
  MAXHASHKEY < String.length key \/ MAXSPECSIZE < length b ->
  Store.hashset d i key b = (false, d).
Proof. intros Hn. unfold Store.hashset. rewrite decide_False; [done|lia]. Qed.

Lemma hashval_hashset d i key b j key' :
  String.length key <= MAXHASHKEY -> length b <= MAXSPECSIZE ->
  Store.hashval (snd (Store.hashset d i key b)) j key' =
  if decide (i = j /\ key = key') then Some b else Store.hashval d j key'.
Proof.
  intros Hk Hb. unfold Store.hashval, Store.hashset. rewrite decide_True by done. simpl.
  rewrite node_of_upd.
  destruct (decide (i = j)) as [<-|Hij]; simpl.
  - rewrite lookup_insert. do 2 case_decide; naive_solver.
  - rewrite decide_False by naive_solver. done.
Qed.

(** The reads of [hash.get] on a node index and a str key. *)
Lemma hash_get_none d z key :
  hash.get d (PInt z) (PStr key) None = Ok (of_buffer (Store.hashval d (to_nodeidx z) key)).
Proof. reflexivity. Qed.
Lemma hash_get_memoryview d z key :
  hash.get d (PInt z) (PStr key) (Some TMemoryview) =
  py_and (of_buffer (Store.hashval d (to_nodeidx z) key)) py_memoryview.
Proof. reflexivity. Qed.
Lemma hash_get_bytes d z key :
  hash.get d (PInt z) (PStr key) (Some TBytes) =
  py_and (of_buffer (Store.hashval d (to_nodeidx z) key)) py_bytes.
Proof. reflexivity. Qed.
Lemma hash_get_str d z key :
  hash.get d (PInt z) (PStr key) (Some TStr) =
  Ok (of_text (decode_cstr <$> Store.hashval d (to_nodeidx z) key)).
Proof. reflexivity. Qed.
Lemma hash_get_int d z key :
  hash.get d (PInt z) (PStr key) (Some TInt) = Ok (PInt (Store.hashval_long d (to_nodeidx z) key)).
Proof. reflexivity. Qed.
Lemma hash_get_other d z key name :
  hash.get d (PInt z) (PStr key) (Some (TOther name)) = Err InvalidTypeOrValueError.
Proof. reflexivity. Qed.

(** The database after [hash.set] of a buffer, a str or an int. *)
Definition hash_stored (v : pyobj) : option bytes :=
  match v with
  | PBytes b | PMemoryview b => Some b
  | PStr s => Some (encode_str s)
  | PInt z => Some (le_split 8 (to_nodeidx z))
  | PBool b => Some (le_split 8 (to_nodeidx (if b then 1 else 0)))
  | _ => None
  end.

Lemma hash_set_stores d z key v b :
  hash_stored v = Some b ->
  hash.set d (PInt z) (PStr key) v =
    Ok (PBool (fst (Store.hashset d (to_nodeidx z) key b)), snd (Store.hashset d (to_nodeidx z) key b)).
Proof.
  destruct v; simpl; intros Hb; try discriminate; injection Hb as <-;
    unfold hash.set, netnode.hashset, netnode.hashset_buf, netnode.hashset_idx, Store.hashset_buf, Store.hashset_idx;
    simpl; by destruct (Store.hashset _ _ _ _).
Qed.

(** An int stored with [hash.set] reads back modulo 2^64 when [int]
    is asked for, and its 8 stored bytes decode as text when [str] is: the
    same bytes under both decodes. *)
Lemma hash_set_get_int d z key v :
  String.length key <= MAXHASHKEY ->
  exists d', hash.set d (PInt z) (PStr key) (PInt v) = Ok (PBool true, d') /\
    hash.get d' (PInt z) (PStr key) (Some TInt) = Ok (PInt (v mod 2 ^ 64)) /\
    hash.get d' (PInt z) (PStr key) (Some TStr) =
      Ok (PStr (decode_cstr (le_split 8 (v mod 2 ^ 64)))).
Proof.
  intros Hk. assert (H8 : length (le_split 8 (to_nodeidx v)) <= MAXSPECSIZE)
    by (rewrite LittleEndianList.length_le_split; cbv; lia).
  exists (snd (Store.hashset d (to_nodeidx z) key (le_split 8 (to_nodeidx v)))).
  split; [rewrite (hash_set_stores _ _ _ _ (le_split 8 (to_nodeidx v))), hashset_accept by done; done|].
  rewrite hash_get_int, hash_get_str. unfold Store.hashval_long.
  rewrite !hashval_hashset, decide_True by done. split; [|done].
  do 2 f_equal. apply le_split_nodeidx.
Qed.

(** C22: with a key of at most [MAXHASHKEY] characters, a buffer of at
    most [MAXSPECSIZE] bytes stored with [hash.set] reads back byte for
    byte with no type and with [bytes], and a str without NUL reads back
    with [str]; a longer key or value is refused ([False]) and the
    database is left as it was, as the class documents
    ([Dictionary[char*510] of 1024b strings]). *)
Theorem hash_set_get_roundtrip d z key :
  (String.length key <= MAXHASHKEY ->
   (forall b, length b <= MAXSPECSIZE ->
      exists d', hash.set d (PInt z) (PStr key) (PBytes b) = Ok (PBool true, d') /\
      hash.get d' (PInt z) (PStr key) None = Ok (PBytes b) /\
      hash.get d' (PInt z) (PStr key) (Some TBytes) = Ok (PBytes b)) /\
   (forall s, no_nul s -> String.length s <= MAXSPECSIZE ->
      exists d', hash.set d (PInt z) (PStr key) (PStr s) = Ok (PBool true, d') /\
      hash.get d' (PInt z) (PStr key) (Some TStr) = Ok (PStr s))) /\
  (forall v b, hash_stored v = Some b ->
     MAXHASHKEY < String.length key \/ MAXSPECSIZE < length b ->
     hash.set d (PInt z) (PStr key) v = Ok (PBool false, d)).
Proof.
  split; [intros Hk; split; [intros b Hb | intros s Hs Hl] | intros v b Hv Hn].
  - exists (snd (Store.hashset d (to_nodeidx z) key b)).
    rewrite (hash_set_stores _ _ _ _ b), hashset_accept by done. split; [done|].
    rewrite hash_get_none, hash_get_bytes, hashval_hashset, decide_True by done.
    split; [done|]. unfold py_and; simpl. destruct (bool_decide (b = [])); reflexivity.
  - assert (Hb : length (encode_str s) <= MAXSPECSIZE) by by rewrite length_encode_str.
    exists (snd (Store.hashset d (to_nodeidx z) key (encode_str s))).
    rewrite (hash_set_stores _ _ _ _ (encode_str s)), hashset_accept by done. split; [done|].
    rewrite hash_get_str, hashval_hashset, decide_True by done. simpl.
    by rewrite decode_encode_str.
  - by rewrite (hash_set_stores _ _ _ _ b), hashset_refuse.
Qed.

(** C23: a key with no entry reads as [None] under every decode but
    [int], which gives 0: [hash.get] with [int] cannot tell a missing key
    from a stored 0. *)
Theorem hash_get_absent d z key :
  Store.hashval d (to_nodeidx z) key = None ->
  hash.get d (PInt z) (PStr key) None = Ok PNone /\
  hash.get d (PInt z) (PStr key) (Some TMemoryview) = Ok PNone /\
  hash.get d (PInt z) (PStr key) (Some TBytes) = Ok PNone /\
  hash.get d (PInt z) (PStr key) (Some TStr) = Ok PNone /\
  hash.get d (PInt z) (PStr key) (Some TInt) = Ok (PInt 0).
Proof.
  intros Hn. rewrite hash_get_none, hash_get_memoryview, hash_get_bytes, hash_get_str, hash_get_int.
  unfold Store.hashval_long. by rewrite Hn.
Qed.

(** C37: on a node with an empty hash, [hash.fiter] yields nothing and
    returns, and [hash.repr] raises [MissingTypeOrAttribute]: the
    [ValueError] of [max] over no key is caught and the widths fall back
    to 0 and 2. *)
Theorem hash_repr_empty `{!ObjectIds} d z fuel :
  Store.nhash (node_of d (to_nodeidx z)) = ∅ ->
  hash.fiter d fuel (PInt z) = Gen [] Returned /\
  hash.repr d fuel (PInt z) = Some (Err MissingTypeOrAttribute).
Proof.
  intros He.
  assert (Hf : hash.fiter d fuel (PInt z) = Gen [] Returned).
  { unfold hash.fiter. simpl. unfold utils.fhash, Enumerator.utils.hfiter. simpl.
    unfold Store.hashfirst, hash_keys. rewrite He, sorted_keys_empty. reflexivity. }
  split; [done|]. unfold hash.repr, hash.widths. by rewrite Hf.
Qed.

(** ** Witnesses *)

#[local] Existing Instance null_ids.

Lemma hash_get_absent_witness :
  hash.get Store.empty_db (PInt 0) (PStr "k1") (Some TInt) = Ok (PInt 0).
Proof. apply (hash_get_absent Store.empty_db 0 "k1"). reflexivity. Defined.

Lemma hash_repr_empty_witness :
  hash.repr Store.empty_db 0 (PInt 0) = Some (Err MissingTypeOrAttribute).
Proof. apply (hash_repr_empty Store.empty_db 0 0). reflexivity. Defined.

(** A one-byte value under the key "k" reads back; 1025 bytes are refused. *)
Lemma hash_set_get_roundtrip_witness :
  hash.get (snd (Store.hashset Store.empty_db 0 "k" [Byte.x01])) (PInt 0) (PStr "k") (Some TBytes)
    = Ok (PBytes [Byte.x01]) /\
  hash.set Store.empty_db (PInt 0) (PStr "k") (PBytes (replicate 1025 Byte.x00))
    = Ok (PBool false, Store.empty_db).
Proof.
  destruct (hash_set_get_roundtrip Store.empty_db 0 "k") as [Hin Hout]. split.
  - destruct (proj1 (Hin ltac:(vm_compute; lia)) [Byte.x01] ltac:(vm_compute; lia))
      as (d' & Hs & _ & Hg).
    vm_compute in Hs. injection Hs as <-. exact Hg.
  - apply (Hout _ (replicate 1025 Byte.x00)); [reflexivity | right; vm_compute; lia].
Defined.
