(* ===== verification/Blob.v ===== *)
(** * Blobs: class [blob]

    [blob.get], [blob.set], [blob.remove], [blob.size] and [blob.repr] of
    [src/base/_netnode.py] (lines 318-346).  A blob is addressed by a tag
    and a start index.  [getblob] returns whole chunks, so [blob.get] cuts
    the buffer to the size [blobsize] reports (line 324); the theorems show
    that the cut gives back exactly the stored bytes, and that the bytes
    literal [blob.repr] prints reads back as the blob. *)

From S2P Require Import Prelude PyObj Format Store Binding.
From stdpp Require Import base list gmap strings.
From Stdlib Require Import ZArith Ascii.

Module blob.

(** [blob.get] (lines 319-324). *)
Definition get (d : db) (nodeidx tag start : pyobj) : res pyobj :=
  node <- netnode.new1 d nodeidx ;;
  sz <- netnode.blobsize d node start tag ;;
  r <- netnode.getblob d node start tag ;;
  match r with PNone => Ok PNone | _ => py_slice_to r sz end.

(** [blob.set] (lines 326-329): a memoryview is stored as its bytes. *)
Definition set (d : db) (nodeidx tag value start : pyobj) : res (pyobj * db) :=
  node <- netnode.new1 d nodeidx ;;
  netnode.setblob d node (match value with PMemoryview b => tobytes b | _ => value end) start tag.

(** [blob.remove] (lines 331-334). *)
Definition remove (d : db) (nodeidx tag start : pyobj) : res (pyobj * db) :=
  node <- netnode.new1 d nodeidx ;; netnode.delblob d node start tag.

(** [blob.size] (lines 336-339). *)
Definition size (d : db) (nodeidx tag start : pyobj) : res pyobj :=
  node <- netnode.new1 d nodeidx ;; netnode.blobsize d node start tag.

(** [blob.repr] (lines 341-346): [MissingTypeOrAttribute] when the blob at
    start 0 is empty, else the buffer it formats. *)
Definition repr `{!ObjectIds} (d : db) (nodeidx tag : pyobj) : res string :=
  sz <- size d nodeidx tag (PInt 0) ;;
  if py_eqb sz (PInt 0)
  then raise_fmt [(FmtAltHex, nodeidx); (FmtHex, nodeidx)] MissingTypeOrAttribute
  else r <- get d nodeidx tag (PInt 0) ;; Ok (py_repr r).

End blob.

(** ** Properties *)

Lemma blob_get_eq d z t s :
  blob.get d (PInt z) (PStr (String t EmptyString)) (PInt s) =
  Ok (of_buffer (Store.blob_of d (to_nodeidx z) s t)).
Proof.
  unfold blob.get, netnode.blobsize, netnode.getblob. simpl.
  unfold Store.getblob, Store.blobsize.
  destruct (Store.blob_of d (to_nodeidx z) s t) as [b|]; simpl; [|done].
  replace (Z.of_nat (length b) <? 0)%Z with false by (symmetry; apply Z.ltb_ge; lia).
  rewrite Nat2Z.id, take_app_length. done.
Qed.

Lemma blob_size_eq d z t s :
  blob.size d (PInt z) (PStr (String t EmptyString)) (PInt s) =
  Ok (PInt (Z.of_nat (from_option length 0 (Store.blob_of d (to_nodeidx z) s t)))).
Proof. reflexivity. Qed.

(** C24: [blob.get] returns exactly the stored bytes, as many as
    [blob.size] reports, although [getblob] returns the blob padded to
    whole chunks. *)
Theorem blob_get_exact d z t s b :
  Store.blob_of d (to_nodeidx z) s t = Some b ->
  blob.get d (PInt z) (PStr (String t EmptyString)) (PInt s) = Ok (PBytes b) /\
  blob.size d (PInt z) (PStr (String t EmptyString)) (PInt s) = Ok (PInt (Z.of_nat (length b))) /\
  exists raw, Store.getblob d (to_nodeidx z) s t = Some raw /\ length b <= length raw /\
              length raw mod MAXSPECSIZE = 0.
Proof.
  intros Hb. rewrite blob_get_eq, blob_size_eq, Hb. split; [done|]. split; [done|].
  eexists. split; [unfold Store.getblob; by rewrite Hb|].
  rewrite length_app, length_replicate. split; [lia|]. apply chunk_padding_multiple.
Qed.

Lemma blob_of_setblob d i b s t j s' t' :
  Store.blob_of (snd (Store.setblob d i b s t)) j s' t' =
  if decide (i = j /\ (t, s) = (t', s')) then Some b else Store.blob_of d j s' t'.
Proof.
  unfold Store.blob_of, Store.setblob. simpl. rewrite node_of_upd.
  destruct (decide (i = j)) as [<-|Hij]; simpl.
  - rewrite lookup_insert. do 2 case_decide; naive_solver.
  - rewrite decide_False by naive_solver. done.
Qed.

Lemma blob_of_delblob d i s t :
  Store.blob_of (snd (Store.delblob d i s t)) i s t = None.
Proof.
  unfold Store.blob_of, Store.delblob. simpl. rewrite node_of_upd_eq. simpl.
  by rewrite lookup_delete_eq.
Qed.

(** C25: a buffer stored with [blob.set] under a tag and a start reads
    back byte for byte with [blob.get], whatever its length, and
    [blob.size] is its length; the blobs of the other tags and starts are
    unchanged. *)
Theorem blob_set_get d z t s b :
  exists d', blob.set d (PInt z) (PStr (String t EmptyString)) (PBytes b) (PInt s) = Ok (PBool true, d') /\
    blob.get d' (PInt z) (PStr (String t EmptyString)) (PInt s) = Ok (PBytes b) /\
    blob.size d' (PInt z) (PStr (String t EmptyString)) (PInt s) = Ok (PInt (Z.of_nat (length b))) /\
    (forall t' s', (t, s) <> (t', s') ->
       blob.get d' (PInt z) (PStr (String t' EmptyString)) (PInt s') =
       blob.get d (PInt z) (PStr (String t' EmptyString)) (PInt s')).
Proof.
  exists (snd (Store.setblob d (to_nodeidx z) b s t)). split; [reflexivity|].
  rewrite blob_get_eq, blob_size_eq, blob_of_setblob, decide_True by done.
  split; [done|]. split; [done|].
  intros t' s' Hne. rewrite !blob_get_eq, blob_of_setblob, decide_False by naive_solver. done.
Qed.

(** After [blob.remove] the blob reads as [None], its size is 0 and
    [blob.repr] of it (start 0) raises [MissingTypeOrAttribute]. *)
Lemma blob_remove_absent `{!ObjectIds} d z t :
  exists ok d', blob.remove d (PInt z) (PStr (String t EmptyString)) (PInt 0) = Ok (ok, d') /\
    blob.get d' (PInt z) (PStr (String t EmptyString)) (PInt 0) = Ok PNone /\
    blob.size d' (PInt z) (PStr (String t EmptyString)) (PInt 0) = Ok (PInt 0) /\
    blob.repr d' (PInt z) (PStr (String t EmptyString)) = Err MissingTypeOrAttribute.
Proof.
  exists (PBool (fst (Store.delblob d (to_nodeidx z) 0 t))), (snd (Store.delblob d (to_nodeidx z) 0 t)).
  split; [reflexivity|].
  assert (Hs : blob.size (snd (Store.delblob d (to_nodeidx z) 0 t)) (PInt z)
                 (PStr (String t EmptyString)) (PInt 0) = Ok (PInt 0)).
  { by rewrite blob_size_eq, blob_of_delblob. }
  rewrite blob_get_eq, blob_of_delblob. split; [done|]. split; [done|].
  unfold blob.repr. rewrite Hs. reflexivity.
Qed.

(** C38: [blob.repr] of a non-empty blob (start 0) prints the [bytes]
    literal of the stored buffer, and that text reads back as the buffer:
    the diagnostic output determines the blob byte for byte. *)
Theorem blob_repr_roundtrip `{!ObjectIds} d z t b :
  Store.blob_of d (to_nodeidx z) 0 t = Some b -> b <> [] ->
  blob.repr d (PInt z) (PStr (String t EmptyString)) = Ok (bytes_repr b) /\
  parse_bytes_literal (bytes_repr b) = Some b.
Proof.
  intros Hb Hne. split; [|apply parse_bytes_repr].
  unfold blob.repr. rewrite blob_size_eq, blob_get_eq, Hb. by destruct b.
Qed.

(** ** Witnesses *)

#[local] Existing Instance null_ids.

(** 2000 bytes span two chunks: [getblob] returns 2048, [blob.get] 2000. *)
Definition blob_2000 : bytes := replicate 2000 Byte.x78.

Lemma blob_get_exact_witness :
  blob.get (snd (Store.setblob Store.empty_db 0 blob_2000 0 "x"%char)) (PInt 0) (PStr "x") (PInt 0)
    = Ok (PBytes blob_2000) /\
  exists raw, Store.getblob (snd (Store.setblob Store.empty_db 0 blob_2000 0 "x"%char)) 0 0 "x"%char = Some raw /\
    length raw = 2048.
Proof.
  destruct (blob_get_exact (snd (Store.setblob Store.empty_db 0 blob_2000 0 "x"%char)) 0 "x"%char 0 blob_2000)
    as (Hg & _ & raw & Hraw & _); [reflexivity|].
  split; [exact Hg|]. exists raw. split; [exact Hraw|].
  vm_compute in Hraw. injection Hraw as <-. reflexivity.
Defined.

(** The blob "x'y" at tag [x] prints as a double-quoted literal. *)
Lemma blob_repr_roundtrip_witness :
  blob.repr (snd (Store.setblob Store.empty_db 0 (encode_str "x'y") 0 "x"%char)) (PInt 0) (PStr "x")
    = Ok (bytes_repr (encode_str "x'y")) /\
  parse_bytes_literal (bytes_repr (encode_str "x'y")) = Some (encode_str "x'y").
Proof.
  apply (blob_repr_roundtrip (snd (Store.setblob Store.empty_db 0 (encode_str "x'y") 0 "x"%char)) 0 "x"%char);
    [reflexivity | discriminate].
Defined.
