(* ===== verification/Registry.v ===== *)
(** * The registry's invariant, over every reachable database

    The names IDA keeps for nodes ([netnode(name, ...)], [rename], [kill],
    modelled in [Store.v]) agree with the nodes that carry them: a name
    resolves to a node whose name it is, and a named node is found by its
    name.  [op] lists every primitive the classes of
    [src/base/_netnode.py] call that changes the database, [apply_op]
    runs one, and [reachable] is the step relation's closure from the
    empty database; [reg_wf] holds of every reachable database, by rule
    induction. *)

From S2P Require Import Prelude PyObj Store.
From stdpp Require Import base list gmap strings.
From Stdlib Require Import ZArith Ascii.

(** ** The invariant *)

(** Every name resolves to a node that carries it. *)
Definition names_ok (d : db) : Prop :=
  map_Forall (fun s i => nname (node_of d i) = Some s) (names d).
(** Every named node is what its name resolves to. *)
Definition named_ok (d : db) : Prop :=
  map_Forall (fun i n => match nname n with Some s => names d !! s = Some i | None => True end) (nodes d).
Definition reg_wf (d : db) : Prop := names_ok d /\ named_ok d.

#[export] Instance names_ok_dec d : Decision (names_ok d).
Proof. unfold names_ok. apply _. Defined.
#[export] Instance named_ok_dec d : Decision (named_ok d).
Proof.
  unfold named_ok. apply map_Forall_dec. intros i n. destruct (nname n); apply _.
Defined.
#[export] Instance reg_wf_dec d : Decision (reg_wf d).
Proof. unfold reg_wf. apply _. Defined.

(** ** The primitives that change the database *)

Inductive op :=
| OpNew (s : string) (create : bool)
| OpKill (i : Z)
| OpRename (i : Z) (s : string)
| OpSet (i : Z) (b : bytes)
| OpDelvalue (i : Z)
| OpAltset (i k v : Z)
| OpAltdel (i k : Z)
| OpSupset (i k : Z) (b : bytes)
| OpSupdel (i k : Z)
| OpHashset (i : Z) (key : string) (b : bytes)
| OpHashdel (i : Z) (key : string)
| OpSetblob (i : Z) (b : bytes) (start : Z) (tag : ascii)
| OpDelblob (i start : Z) (tag : ascii).

Definition apply_op (d : db) (o : op) : db :=
  match o with
  | OpNew s c => snd (netnode_new_name d s c)
  | OpKill i => netnode_kill d i
  | OpRename i s => snd (netnode_rename d i s)
  | OpSet i b => snd (netnode_set d i b)
  | OpDelvalue i => snd (delvalue d i)
  | OpAltset i k v => snd (altset d i k v)
  | OpAltdel i k => snd (altdel d i k)
  | OpSupset i k b => snd (supset d i k b)
  | OpSupdel i k => snd (supdel d i k)
  | OpHashset i key b => snd (hashset d i key b)
  | OpHashdel i key => snd (hashdel d i key)
  | OpSetblob i b s t => snd (setblob d i b s t)
  | OpDelblob i s t => snd (delblob d i s t)
  end.

(** The databases a program reaches from the empty one. *)
Inductive reachable : db -> Prop :=
| reach_empty : reachable empty_db
| reach_step d o : reachable d -> reachable (apply_op d o).

(** Node [i] named [o], its old name dropped: what [rename] does when it
    succeeds, and [new] when it creates a node. *)
Definition set_name (d : db) (i : Z) (o : option string) : db :=
  mk_db (nodes (upd d i (set_nname o)))
        (match o with Some s => <[s := i]> (drop_name d i) | None => drop_name d i end)
        (next_free d).

(** ** The invariant's lemmas *)

Lemma node_of_named d i s : nname (node_of d i) = Some s -> nodes d !! i = Some (node_of d i).
Proof. unfold node_of. by destruct (nodes d !! i). Qed.

Lemma wf_named d i s : reg_wf d -> nname (node_of d i) = Some s -> names d !! s = Some i.
Proof.
  intros [_ Hnd] Hs. pose proof (node_of_named d i s Hs) as Hi.
  specialize (Hnd i _ Hi). simpl in Hnd. by rewrite Hs in Hnd.
Qed.

Lemma wf_names d s i : reg_wf d -> names d !! s = Some i -> nname (node_of d i) = Some s.
Proof. intros [Hns _] Hs. exact (Hns s i Hs). Qed.

(** The name index without node [i]'s name keeps exactly the other
    nodes' names. *)
Lemma drop_name_lookup d i s j :
  reg_wf d -> drop_name d i !! s = Some j <-> names d !! s = Some j /\ j <> i.
Proof.
  intros Hwf. unfold drop_name.
  destruct (nname (node_of d i)) as [o|] eqn:Ho.
  - pose proof (wf_named d i o Hwf Ho) as Hoi.
    rewrite lookup_delete_Some. split.
    + intros [Hne Hs]. split; [done|]. intros ->.
      apply Hne. pose proof (wf_names d s i Hwf Hs). congruence.
    + intros [Hs Hne]. split; [|done]. intros ->. congruence.
  - split; [|tauto]. intros Hs. split; [done|]. intros ->.
    pose proof (wf_names d s i Hwf Hs). congruence.
Qed.

Lemma node_of_set_name d i o j :
  node_of (set_name d i o) j = if decide (i = j) then set_nname o (node_of d i) else node_of d j.
Proof. apply (node_of_upd d i j). Qed.

Lemma wf_set_name d i o :
  reg_wf d -> (forall s, o = Some s -> names d !! s = None) -> reg_wf (set_name d i o).
Proof.
  intros Hwf Hfree. split.
  - intros s j Hs. rewrite node_of_set_name.
    assert (Hdrop : drop_name d i !! s = Some j -> nname (node_of d j) = Some s /\ j <> i).
    { intros Hd. apply drop_name_lookup in Hd as [Hd Hne]; [|done].
      split; [by apply wf_names|done]. }
    destruct o as [s'|]; simpl in Hs.
    + destruct (decide (s = s')) as [->|Hne].
      * rewrite lookup_insert_eq in Hs. injection Hs as <-. by rewrite decide_True.
      * rewrite lookup_insert_ne in Hs by congruence.
        destruct (Hdrop Hs) as [Hn Hji]. by rewrite decide_False by congruence.
    + destruct (Hdrop Hs) as [Hn Hji]. by rewrite decide_False by congruence.
  - intros j n Hj. apply lookup_upd_Some in Hj as [[<- ->] | [Hne Hj]].
    + destruct o as [s|]; simpl; [by rewrite lookup_insert_eq|done].
    + destruct (nname n) as [s|] eqn:Hn; [|done].
      pose proof (proj2 Hwf j n Hj) as Hsj. simpl in Hsj. rewrite Hn in Hsj.
      assert (Hd : drop_name d i !! s = Some j) by (apply drop_name_lookup; auto).
      destruct o as [s'|]; simpl; [|done].
      rewrite lookup_insert_ne; [done|]. intros ->. by rewrite Hfree in Hsj.
Qed.

(** The invariant does not look at the index counter. *)
Lemma wf_next_free d z : reg_wf d -> reg_wf (mk_db (nodes d) (names d) z).
Proof. done. Qed.

(** A write that keeps every node's name keeps the invariant. *)
Lemma wf_upd d i f : reg_wf d -> (forall n, nname (f n) = nname n) -> reg_wf (upd d i f).
Proof.
  intros Hwf Hf. split.
  - intros s j Hs. simpl in Hs. rewrite node_of_upd. case_decide as Hij; [subst; rewrite Hf|];
      by apply wf_names.
  - intros j n Hj. apply lookup_upd_Some in Hj as [[<- ->] | [Hne Hj]]; simpl.
    + rewrite Hf. destruct (nname (node_of d i)) eqn:Hn; [by apply wf_named|done].
    + exact (proj2 Hwf j n Hj).
Qed.

Lemma wf_kill d i : reg_wf d -> reg_wf (netnode_kill d i).
Proof.
  intros Hwf. change (names (netnode_kill d i)) with (drop_name d i). split.
  - intros s j Hs. change (drop_name d i !! s = Some j) in Hs.
    apply drop_name_lookup in Hs as [Hs Hne]; [|done].
    unfold node_of. simpl. rewrite lookup_delete_ne by congruence. by apply wf_names.
  - intros j n Hj. simpl in Hj. apply lookup_delete_Some in Hj as [Hne Hj].
    pose proof (proj2 Hwf j n Hj) as Hs. simpl in Hs.
    destruct (nname n); [|done]. by apply drop_name_lookup.
Qed.

Lemma wf_rename d i s : reg_wf d -> reg_wf (snd (netnode_rename d i s)).
Proof.
  intros Hwf. unfold netnode_rename. case_decide.
  - by apply (wf_set_name d i None).
  - destruct (names d !! s) eqn:Hs; [done|]. apply (wf_set_name d i (Some s)); congruence.
Qed.

Lemma wf_new d s c : reg_wf d -> reg_wf (snd (netnode_new_name d s c)).
Proof.
  intros Hwf. unfold netnode_new_name.
  destruct (names d !! s) eqn:Hs; [done|]. destruct c; [|done]. simpl.
  assert (Hdrop : drop_name d (fresh_idx d) = names d).
  { unfold drop_name, node_of. by rewrite fresh_idx_free. }
  pose proof (wf_set_name d (fresh_idx d) (Some s) Hwf) as H.
  unfold set_name in H. rewrite Hdrop in H. apply (wf_next_free _ _ (H ltac:(congruence))).
Qed.

#[export] Hint Resolve wf_kill wf_rename wf_new : netnode.

Lemma wf_apply_op d o : reg_wf d -> reg_wf (apply_op d o).
Proof.
  intros Hwf. destruct o; simpl; auto with netnode;
    unfold netnode_set, delvalue, altset, altdel, supset, supdel, hashset, hashdel,
      setblob, delblob; simpl; try case_decide; simpl; try done; by apply wf_upd.
Qed.

(** No record of the database is empty: what IDA keeps. *)
Definition no_empty (d : db) : Prop := map_Forall (fun _ n => n <> empty_netnode) (nodes d).

Lemma no_empty_upd d i f : no_empty d -> map_Forall (fun _ n => n <> empty_netnode) (nodes (upd d i f)).
Proof.
  intros Hd. unfold upd; simpl. case_decide; [by apply map_Forall_delete | by apply map_Forall_insert_2].
Qed.

Lemma no_empty_apply_op d o : no_empty d -> no_empty (apply_op d o).
Proof.
  intros Hd. destruct o; cbn [apply_op];
    unfold netnode_new_name, netnode_kill, netnode_rename, netnode_set, delvalue, altset, altdel,
      supset, supdel, hashset, hashdel, setblob, delblob;
    repeat (case_match || case_decide); cbn [snd]; try done;
    first [by apply no_empty_upd | by apply map_Forall_delete].
Qed.

Lemma reachable_no_empty d : reachable d -> no_empty d.
Proof. induction 1; [apply map_Forall_empty | by apply no_empty_apply_op]. Qed.

(** Every database reachable from the empty one by the primitives keeps
    the registry consistent: each name resolves to a node carrying it,
    each named node is found by its name, and so no two nodes carry the
    same name. *)
Theorem reachable_reg_wf d :
  reachable d ->
  reg_wf d /\ (forall i j s, nname (node_of d i) = Some s -> nname (node_of d j) = Some s -> i = j).
Proof.
  intros Hr. assert (Hwf : reg_wf d).
  { induction Hr as [|d o _ IH]; [split; apply map_Forall_empty|by apply wf_apply_op]. }
  split; [done|]. intros i j s Hi Hj.
  pose proof (wf_named d i s Hwf Hi). pose proof (wf_named d j s Hwf Hj). congruence.
Qed.
