(* ===== verification/Nodes.v ===== *)
(** * Nodes: the registry and the enumeration of nodes

    The module-level [new], [get] and [remove], the class [name] and the
    module-level [riter] and [fiter] of [src/base/_netnode.py], and the
    theorems on the node walkers [utils.range], [utils.renumerate] and
    [utils.fenumerate] of [Enumerator.v], which move a netnode object (the
    cursor) with [netnode.start], [netnode.end], [netnode.next] and
    [netnode.prev] and read its index back.  The theorems give the complete enumeration in both directions,
    the error on an empty database, and what [new], [get], [remove] and
    [name] do to the registry, using the invariant of [Registry.v]:
    [new] and [get] hand IDA the name with its length, [name.set] hands
    it as a C string, so a name with a NUL in it does not survive
    [name.set]. *)

From S2P Require Import Prelude PyObj Store Binding Enumerator Registry.
From stdpp Require Import base list gmap strings sorting.
From Stdlib Require Import ZArith Ascii.

(** [internal.utils.string.to] and [internal.utils.string.of] ([of_]) under
    Python 3: a str is passed to IDA and returned by it as it is. *)
Module string.
Definition to (v : pyobj) : pyobj := v.
Definition of_ (v : pyobj) : pyobj := v.
End string.

(** [new(name)] (lines 235-238): the node of that name, created if there
    is none. *)
Definition new (d : db) (name : pyobj) : res (pyobj * db) :=
  let res := string.to name in
  n <- py_len res ;;
  p <- netnode.new3 d res n (PBool true) ;;
  i <- netnode.index (fst p) ;;
  Ok (i, snd p).

(** [get(name)] (lines 240-246): an int is taken as an index as it is, a
    name is looked up without creating it. *)
Definition get (d : db) (name : pyobj) : res pyobj :=
  if issubclass_integer_types (type_of name) then
    node <- netnode.new1 d name ;; netnode.index node
  else
    let res := string.to name in
    n <- py_len res ;;
    p <- netnode.new3 d res n (PBool false) ;;
    netnode.index (fst p).

(** [remove(nodeidx)] (lines 248-250). *)
Definition remove (d : db) (nodeidx : pyobj) : res (pyobj * db) :=
  node <- netnode.new1 d nodeidx ;; netnode.kill d node.

(** The class [name] (lines 253-263). *)
Module name.
Definition get (d : db) (nodeidx : pyobj) : res pyobj :=
  node <- netnode.new1 d nodeidx ;;
  res <- netnode.name d node ;;
  Ok (string.of_ res).
Definition set (d : db) (nodeidx s : pyobj) : res (pyobj * db) :=
  node <- netnode.new1 d nodeidx ;;
  let res := string.to s in
  netnode.rename d node res.
End name.

(** The module-level [riter] and [fiter] (lines 349-356): the indices of
    the nodes. *)
Definition riter (fuel : nat) (d : db) : gen pyobj := gen_map fst (utils.renumerate fuel d).
Definition fiter (fuel : nat) (d : db) : gen pyobj := gen_map fst (utils.fenumerate fuel d).

(** ** The node walk *)

(** The loop's test comes before its fuel. *)
Lemma node_walk_eq fuel d step this cur stop :
  utils.node_walk fuel d step this cur stop =
  if py_eqb cur stop then gen_return
  else match fuel with
       | O => gen_suspend
       | S fuel' =>
           p <-- step d this ;;
           if negb (truthy (fst p)) then gen_return else
           cur' <-- netnode.index (snd p) ;;
           node <-- netnode.new1 d cur' ;;
           gen_yield (cur', node) (utils.node_walk fuel' d step (snd p) cur' stop)
       end.
Proof. by destruct fuel. Qed.

(** What the node walkers yield for the node [i]. *)
Definition node_item (i : Z) : pyobj * pyobj := (PInt i, PNode i).

Lemma new1_idx d i : idx_ok i -> netnode.new1 d (PInt i) = Ok (PNode i).
Proof. intros Hi. unfold netnode.new1. simpl. by rewrite to_nodeidx_small. Qed.

Section NodeLoop.
Context (d : db) (step : db -> pyobj -> res (pyobj * pyobj)) (l : list Z).
Hypothesis Hstep : forall l1 k k' l2, l = l1 ++ k :: k' :: l2 ->
  step d (PNode k) = Ok (PBool true, PNode k').
Hypothesis Hok : Forall idx_ok l.
Hypothesis Hnd : NoDup l.

(** From a node of [l], the cursor loop yields every later node of [l]
    and stops at the last one, given one unit of fuel per node. *)
Lemma node_walk_complete fuel l1 k rest :
  l = l1 ++ k :: rest -> length rest <= fuel ->
  utils.node_walk fuel d step (PNode k) (PInt k) (PInt (last_or k rest)) =
  Gen (node_item <$> rest) Returned.
Proof.
  revert fuel l1 k. induction rest as [|k' rest IH]; intros fuel l1 k Hl Hlen;
    rewrite node_walk_eq.
  - change (last_or k []) with k. simpl. by rewrite Z.eqb_refl.
  - rewrite last_or_cons.
    assert (Hne : k <> last_or k' rest).
    { intros Heq. rewrite Hl in Hnd. apply NoDup_app in Hnd as (_ & _ & Hnd').
      apply NoDup_cons in Hnd' as [Hnin _]. apply Hnin.
      rewrite Heq. apply last_or_elem. }
    replace (py_eqb (PInt k) (PInt (last_or k' rest))) with false
      by (symmetry; simpl; by apply Z.eqb_neq).
    destruct fuel as [|fuel]; [simpl in Hlen; lia|].
    rewrite (Hstep l1 k k' rest Hl). cbn [gen_bind fst snd truthy negb netnode.index res_bind netnode.node_arg].
    rewrite new1_idx by (eapply Forall_forall; [exact Hok|]; rewrite Hl; set_solver). simpl.
    rewrite (IH fuel (l1 ++ [k]) k'); [done| |simpl in Hlen; lia].
    by rewrite Hl, <- app_assoc.
Qed.
End NodeLoop.

(** [netnode.next] and [netnode.prev] step the cursor between neighbours
    of the node order. *)
Lemma next_step d l1 k k' l2 :
  node_keys d = l1 ++ k :: k' :: l2 -> netnode.next d (PNode k) = Ok (PBool true, PNode k').
Proof.
  intros Hl. unfold netnode.next, netnode_next. simpl.
  by rewrite (succ_key_next Z.le (node_keys d) l1 k k' l2 (sorted_keys_sorted _ _) Hl).
Qed.

Lemma prev_step d l1 k k' l2 :
  reverse (node_keys d) = l1 ++ k :: k' :: l2 -> netnode.prev d (PNode k) = Ok (PBool true, PNode k').
Proof.
  intros Hl.
  assert (Hks : node_keys d = reverse l2 ++ k' :: k :: reverse l1).
  { rewrite <- (reverse_involutive (node_keys d)), Hl, reverse_app, !reverse_cons.
    by rewrite <- !app_assoc. }
  unfold netnode.prev, netnode_prev. simpl.
  by rewrite (pred_key_prev Z.le (node_keys d) _ k' k _ (sorted_keys_sorted _ _) Hks).
Qed.

Lemma node_keys_ok d : keys_ok (nodes d) -> Forall idx_ok (node_keys d).
Proof. apply sorted_keys_ok. Qed.

Lemma node_keys_nodup d : NoDup (node_keys d).
Proof. apply (StronglySorted_key_lt_NoDup Z.le). apply sorted_keys_sorted; apply _. Qed.

(** [utils.range] on a database whose nodes are [k :: rest] in order. *)
Lemma range_nodes d k rest :
  node_keys d = k :: rest -> utils.range d = Ok (PInt k, PInt (last_or k rest)).
Proof.
  intros Hl. unfold utils.range, netnode.start, netnode.end_, netnode_start, netnode_end.
  simpl. rewrite Hl. simpl. by rewrite last_cons_or.
Qed.

(** ** Enumerating the nodes *)

(** C26: on a database whose node indices are [nodeidx_t]s, [fenumerate]
    yields every node in increasing order, as its index and a netnode
    object, and returns, when the consumer pulls one iteration per node
    after the first; the module-level [fiter] yields the indices. *)
Theorem fenumerate_complete d fuel :
  keys_ok (nodes d) -> node_keys d <> [] -> length (node_keys d) <= S fuel ->
  utils.fenumerate fuel d = Gen (node_item <$> node_keys d) Returned /\
  fiter fuel d = Gen (PInt <$> node_keys d) Returned.
Proof.
  intros Hok Hne Hlen. pose proof (node_keys_ok d Hok) as Hks.
  destruct (node_keys d) as [|k rest] eqn:E; [done|].
  assert (Hf : utils.fenumerate fuel d = Gen (node_item <$> k :: rest) Returned).
  { unfold utils.fenumerate. rewrite (range_nodes d k rest E).
    unfold netnode.start, netnode_start. cbn [gen_bind res_bind netnode.node_arg netnode.new0].
    rewrite E. cbn [head netnode.cursor fst snd truthy negb].
    rewrite new1_idx by exact (Forall_inv Hks).
    cbn [gen_bind]. unfold gen_yield. simpl.
    rewrite (node_walk_complete d netnode.next (node_keys d)) with (l1 := []);
      [done|apply next_step|by rewrite E|apply node_keys_nodup|by rewrite E|simpl in Hlen; lia]. }
  split; [done|]. unfold fiter. rewrite Hf. unfold gen_map. simpl.
  by rewrite <- list_fmap_compose.
Qed.

(** C27: on the same databases [renumerate] yields every node in
    decreasing order and returns; the module-level [riter] yields the
    indices. *)
Theorem renumerate_complete d fuel :
  keys_ok (nodes d) -> node_keys d <> [] -> length (node_keys d) <= S fuel ->
  utils.renumerate fuel d = Gen (node_item <$> reverse (node_keys d)) Returned /\
  riter fuel d = Gen (PInt <$> reverse (node_keys d)) Returned.
Proof.
  intros Hok Hne Hlen.
  pose proof (node_keys_ok d Hok) as Hks. rewrite <- Forall_reverse in Hks.
  rewrite <- length_reverse in Hlen.
  destruct (node_keys d) as [|k rest] eqn:E; [done|].
  assert (Hlast : last (node_keys d) = Some (last_or k rest)) by (rewrite E; apply last_cons_or).
  destruct (reverse (k :: rest)) as [|k0 rest0] eqn:E';
    [apply (f_equal length) in E'; by rewrite length_reverse in E'|].
  assert (Hk0 : last_or k rest = k0).
  { rewrite E in Hlast. rewrite <- head_reverse, E' in Hlast. by injection Hlast. }
  assert (Hk : last_or k0 rest0 = k).
  { pose proof (last_reverse (k :: rest)) as H. rewrite E', last_cons_or in H. by injection H. }
  assert (Hf : utils.renumerate fuel d = Gen (node_item <$> k0 :: rest0) Returned).
  { unfold utils.renumerate. rewrite (range_nodes d k rest E), Hk0.
    unfold netnode.end_. cbn [gen_bind res_bind netnode.node_arg netnode.new0 fst snd].
    unfold netnode_end. rewrite Hlast, Hk0. cbn [netnode.cursor fst snd truthy negb].
    rewrite new1_idx by exact (Forall_inv Hks).
    cbn [gen_bind]. unfold gen_yield. simpl. rewrite <- Hk.
    rewrite (node_walk_complete d netnode.prev (reverse (node_keys d))) with (l1 := []);
      [done|apply prev_step|by rewrite E, E'|
       rewrite reverse_Permutation; apply node_keys_nodup|by rewrite E, E'|simpl in Hlen; lia]. }
  split; [done|]. unfold riter. rewrite Hf. unfold gen_map. simpl.
  by rewrite <- list_fmap_compose.
Qed.

(** C28: on a database with no node, [utils.range] raises
    [NetNodeNotFoundError], and so do [fenumerate] and [renumerate] and
    the module-level [fiter] and [riter] that relay them, when first
    pulled, before they yield anything. *)
Theorem enumerate_empty d fuel :
  nodes d = ∅ ->
  utils.range d = Err NetNodeNotFoundError /\
  utils.fenumerate fuel d = Gen [] (Raised NetNodeNotFoundError) /\
  utils.renumerate fuel d = Gen [] (Raised NetNodeNotFoundError) /\
  fiter fuel d = Gen [] (Raised NetNodeNotFoundError) /\
  riter fuel d = Gen [] (Raised NetNodeNotFoundError).
Proof.
  intros He.
  assert (Hr : utils.range d = Err NetNodeNotFoundError).
  { unfold utils.range, netnode.start, netnode_start, node_keys. simpl.
    by rewrite He, sorted_keys_empty. }
  unfold fiter, riter, utils.fenumerate, utils.renumerate. by rewrite Hr.
Qed.

(** ** The registry at the Python level *)

Lemma new_str_eq d s :
  new d (PStr s) = Ok (PInt (fst (netnode_new_name d s true)), snd (netnode_new_name d s true)).
Proof. unfold new. unfold string.to; cbn [py_len res_map py_len_z res_bind]. rewrite new3_len. change (truthy (PBool true)) with true. destruct (netnode_new_name d s true); reflexivity. Qed.

Lemma get_str_eq d s :
  get d (PStr s) = Ok (PInt (default BADADDR (names d !! s))).
Proof.
  unfold get. unfold string.to; cbn [py_len res_map py_len_z res_bind type_of issubclass_integer_types]. rewrite new3_len. unfold netnode_new_name. destruct (names d !! s); reflexivity.
Qed.

Lemma get_int_eq d z : get d (PInt z) = Ok (PInt (to_nodeidx z)).
Proof. reflexivity. Qed.

Lemma name_get_eq d z : name.get d (PInt z) = Ok (of_text (netnode_name d (to_nodeidx z))).
Proof. reflexivity. Qed.

Lemma new_name_resolves d s :
  names (snd (netnode_new_name d s true)) !! s = Some (fst (netnode_new_name d s true)).
Proof.
  unfold netnode_new_name. destruct (names d !! s) eqn:Hs; [done|]. simpl.
  by rewrite lookup_insert_eq.
Qed.

(** C29: [new(name)] returns a node that [get(name)] then resolves to,
    that carries the name, and that a second [new(name)] returns again
    without changing the database; on a consistent registry the result is
    consistent. *)
Theorem new_get_consistent d s :
  reg_wf d ->
  exists i d', new d (PStr s) = Ok (PInt i, d') /\
    get d' (PStr s) = Ok (PInt i) /\ new d' (PStr s) = Ok (PInt i, d') /\
    netnode_name d' i = Some s /\ reg_wf d' /\
    (idx_ok i -> get d' (PInt i) = Ok (PInt i) /\ name.get d' (PInt i) = Ok (PStr s)).
Proof.
  intros Hwf. set (i := fst (netnode_new_name d s true)). set (d' := snd (netnode_new_name d s true)).
  pose proof (new_name_resolves d s) as Hres. fold i d' in Hres.
  assert (Hwf' : reg_wf d') by apply wf_new, Hwf.
  assert (Hn : netnode_name d' i = Some s) by exact (wf_names d' s i Hwf' Hres).
  exists i, d'. split; [apply new_str_eq|]. split; [by rewrite get_str_eq, Hres|].
  split; [rewrite new_str_eq; unfold netnode_new_name; by rewrite Hres|].
  split; [done|]. split; [done|]. intros Hi.
  rewrite get_int_eq, name_get_eq, to_nodeidx_small by done. by rewrite Hn.
Qed.

(** C30: [get] never raises [NetNodeNotFoundError]: an int is returned as
    a [nodeidx_t] whether or not a node holds data there, and a name that
    no node carries gives [BADADDR]. *)
Theorem get_never_not_found d z s :
  get d (PInt z) = Ok (PInt (to_nodeidx z)) /\
  (names d !! s = None -> get d (PStr s) = Ok (PInt BADADDR)).
Proof. split; [done|]. intros Hs. by rewrite get_str_eq, Hs. Qed.

(** C31: [remove] kills the node: it holds nothing any more (no name, no
    value, empty arrays, hash and blobs), its name no longer resolves,
    every other node is unchanged, and the registry stays consistent. *)
Theorem remove_kills d z s :
  reg_wf d -> netnode_name d (to_nodeidx z) = Some s ->
  exists d', remove d (PInt z) = Ok (PNone, d') /\
    node_of d' (to_nodeidx z) = empty_netnode /\
    get d' (PStr s) = Ok (PInt BADADDR) /\
    (forall j, j <> to_nodeidx z -> node_of d' j = node_of d j) /\ reg_wf d'.
Proof.
  intros Hwf Hs. exists (netnode_kill d (to_nodeidx z)). split; [reflexivity|].
  split; [unfold node_of; simpl; by rewrite lookup_delete_eq|].
  split.
  { rewrite get_str_eq. unfold netnode_kill, netnode_name in *. simpl. rewrite Hs.
    by rewrite lookup_delete_eq. }
  split; [|by apply wf_kill]. intros j Hj. unfold node_of. simpl.
  by rewrite lookup_delete_ne by congruence.
Qed.

(** [name.set] with a free name renames the node to the part of the
    name before its first NUL. *)
Lemma name_set_eq d z s :
  netnode.cstr_prefix s <> EmptyString -> names d !! netnode.cstr_prefix s = None ->
  name.set d (PInt z) (PStr s) =
    Ok (PBool true, set_name d (to_nodeidx z) (Some (netnode.cstr_prefix s))).
Proof.
  intros Hne Hs. unfold name.set, netnode.rename. simpl. unfold netnode_rename.
  rewrite decide_False by done. by rewrite Hs.
Qed.

(** C32: [name.set] with a name no node carries renames the node to it,
    read as IDA reads the [char *] it gets (up to the first NUL, which
    for a name without NUL is the whole name): [name.get] returns the new
    name, [get] resolves it to the node, the node's old name no longer
    resolves, and the registry stays consistent. *)
Theorem name_set_get d z s :
  reg_wf d -> netnode.cstr_prefix s <> EmptyString -> names d !! netnode.cstr_prefix s = None ->
  exists d', name.set d (PInt z) (PStr s) = Ok (PBool true, d') /\
    name.get d' (PInt z) = Ok (PStr (netnode.cstr_prefix s)) /\
    get d' (PStr (netnode.cstr_prefix s)) = Ok (PInt (to_nodeidx z)) /\
    (forall o, netnode_name d (to_nodeidx z) = Some o -> get d' (PStr o) = Ok (PInt BADADDR)) /\
    reg_wf d'.
Proof.
  intros Hwf Hne Hs. pose proof (name_set_eq d z s Hne Hs) as Hr.
  set (i := to_nodeidx z) in *. set (s' := netnode.cstr_prefix s) in *.
  exists (set_name d i (Some s')). split; [done|].
  split; [rewrite name_get_eq; unfold netnode_name; fold i; rewrite node_of_set_name;
          by rewrite decide_True|].
  split; [rewrite get_str_eq; simpl; by rewrite lookup_insert_eq|].
  split; [|apply wf_set_name; congruence].
  intros o Ho. rewrite get_str_eq. simpl.
  assert (Hos : o <> s') by (intros ->; by rewrite (wf_named d i s' Hwf Ho) in Hs).
  rewrite lookup_insert_ne by congruence. unfold drop_name, netnode_name in *. rewrite Ho.
  by rewrite lookup_delete_eq.
Qed.

(** C34: a name with a NUL in it does not survive [name.set]: the binding
    hands IDA the name as a C string and IDA keeps the part before the
    NUL, while [get] passes [len(name)] and looks the whole name up.  After
    [name.set(z, p + "\x00" + r)], [get] of that same string answers
    [BADADDR] and [get(p)] finds the node. *)
Theorem name_set_nul_truncates d z p r :
  reg_wf d -> p <> EmptyString -> netnode.cstr_prefix p = p -> names d !! p = None ->
  names d !! (p +:+ String "000"%char r) = None ->
  exists d', name.set d (PInt z) (PStr (p +:+ String "000"%char r)) = Ok (PBool true, d') /\
    get d' (PStr (p +:+ String "000"%char r)) = Ok (PInt BADADDR) /\
    get d' (PStr p) = Ok (PInt (to_nodeidx z)).
Proof.
  intros Hwf Hne Hp Hs Hf. pose proof (cstr_prefix_app_nul p r Hp) as Hc.
  exists (set_name d (to_nodeidx z) (Some p)).
  split; [rewrite <- Hc at 2; apply name_set_eq; congruence|].
  rewrite !get_str_eq. simpl. rewrite lookup_insert_eq, lookup_insert_ne by (apply not_eq_sym, append_cons_neq).
  split; [|done]. destruct (drop_name d _ !! _) as [j|] eqn:Hj; [|done].
  apply drop_name_lookup in Hj as [Hj _]; congruence.
Qed.

(** C33: [name.set] with a name another node carries (up to its first
    NUL) is refused: it returns [False] and the database is unchanged;
    with the empty name it removes the node's name, and [name.get]
    returns [None]. *)
Theorem name_set_refused_or_cleared d z s j :
  names d !! netnode.cstr_prefix s = Some j -> j <> to_nodeidx z ->
  netnode.cstr_prefix s <> EmptyString ->
  name.set d (PInt z) (PStr s) = Ok (PBool false, d) /\
  exists d', name.set d (PInt z) (PStr EmptyString) = Ok (PBool true, d') /\
    name.get d' (PInt z) = Ok PNone.
Proof.
  intros Hs Hj Hne. split.
  - unfold name.set, netnode.rename. simpl. unfold netnode_rename.
    rewrite decide_False by done. rewrite Hs. by rewrite bool_decide_false by congruence.
  - exists (set_name d (to_nodeidx z) None). split; [reflexivity|]. rewrite name_get_eq.
    unfold netnode_name. by rewrite (node_of_set_name d _ None), decide_True.
Qed.

(** ** Witnesses *)

(** Three nodes created by name: "a" (0), "b" (1) and "c" (2). *)
Definition nodes_db : db := foldl apply_op empty_db [OpNew "a" true; OpNew "b" true; OpNew "c" true].

Lemma fenumerate_complete_witness :
  fiter 2 nodes_db = Gen [PInt 0; PInt 1; PInt 2] Returned.
Proof.
  destruct (fenumerate_complete nodes_db 2) as [_ H];
    [decide_by_eval | vm_compute; discriminate | vm_compute; lia|].
  rewrite H. reflexivity.
Defined.

Lemma renumerate_complete_witness :
  riter 2 nodes_db = Gen [PInt 2; PInt 1; PInt 0] Returned.
Proof.
  destruct (renumerate_complete nodes_db 2) as [_ H];
    [decide_by_eval | vm_compute; discriminate | vm_compute; lia|].
  rewrite H. reflexivity.
Defined.

Lemma enumerate_empty_witness :
  utils.fenumerate 3 empty_db = Gen [] (Raised NetNodeNotFoundError).
Proof. apply (enumerate_empty empty_db 3). reflexivity. Defined.

Lemma new_get_consistent_witness :
  exists i d', new nodes_db (PStr "b") = Ok (PInt i, d') /\ get d' (PStr "b") = Ok (PInt i).
Proof.
  destruct (new_get_consistent nodes_db "b") as (i & d' & Hn & Hg & _); [decide_by_eval|].
  exists i, d'. split; [exact Hn|exact Hg].
Defined.

Lemma get_never_not_found_witness :
  get nodes_db (PStr "zz") = Ok (PInt BADADDR).
Proof. apply (get_never_not_found nodes_db 0 "zz"). reflexivity. Defined.

Lemma remove_kills_witness :
  exists d', remove nodes_db (PInt 1) = Ok (PNone, d') /\ get d' (PStr "b") = Ok (PInt BADADDR).
Proof.
  destruct (remove_kills nodes_db 1 "b") as (d' & Hr & _ & Hg & _); [decide_by_eval|reflexivity|].
  exists d'. split; [exact Hr|exact Hg].
Defined.

Lemma name_set_get_witness :
  exists d', name.set nodes_db (PInt 0) (PStr "z") = Ok (PBool true, d') /\
    name.get d' (PInt 0) = Ok (PStr "z") /\ get d' (PStr "a") = Ok (PInt BADADDR).
Proof.
  destruct (name_set_get nodes_db 0 "z") as (d' & Hs & Hg & _ & Hold & _);
    [decide_by_eval|discriminate|reflexivity|].
  exists d'. split; [exact Hs|]. split; [exact Hg|]. by apply Hold.
Defined.

Lemma name_set_refused_or_cleared_witness :
  name.set nodes_db (PInt 0) (PStr "b") = Ok (PBool false, nodes_db).
Proof. apply (name_set_refused_or_cleared nodes_db 0 "b" 1); [reflexivity|compute; lia|discriminate]. Defined.

Lemma name_set_nul_truncates_witness :
  exists d', name.set nodes_db (PInt 0) (PStr ("z" +:+ String "000"%char "q")) = Ok (PBool true, d') /\
    get d' (PStr ("z" +:+ String "000"%char "q")) = Ok (PInt BADADDR) /\
    get d' (PStr "z") = Ok (PInt 0).
Proof. apply (name_set_nul_truncates nodes_db 0 "z" "q"); [decide_by_eval|discriminate|reflexivity..]. Defined.
