(* ===== verification/Filesystem.v ===== *)
(** * The file-system stub: class [filesystem]

    [filesystem] ([src/base/_netnode.py] lines 522-528) is marked FIXME:
    a file-allocation-table file system over the netnode wrappers, not yet
    written.  What the code has is three class attributes and a
    constructor that calls [idaapi.netnode(name, 0, True)], which finds the
    node named [name] or creates it, and drops the netnode object.  This
    file models the attributes and the construction; [Program.v] lets a
    program construct file systems, so its invariants (the registry and the
    array typing) cover them.  The construction
    goes through [Binding.netnode.new3], which shares the model's
    simplifications of the name argument: [namlen] is not read (the
    module passes [0], the C++ side then measures the name itself) and a
    name is a Rocq string, not a NUL-terminated C string. *)

From S2P Require Import Prelude PyObj Store Binding.
From stdpp Require Import base list gmap strings.
From Stdlib Require Import ZArith.

Module filesystem.

(** The class attributes (lines 524-526). *)
Definition ALLOCATION_TABLE : string := "$ file-allocation-table".
Definition SECTOR_TABLE : string := "$ sector-table".
Definition SECTOR : Z := 1024.

(** [filesystem.__init__(self, name)] (lines 527-528): the node named
    [name], created when there is none; the constructor keeps nothing and
    returns [None]. *)
Definition __init__ (d : db) (name : pyobj) : res (pyobj * db) :=
  p <- netnode.new3 d name (PInt 0) (PBool true) ;;
  Ok (PNone, snd p).

(** [filesystem(name)] (lines 523-528): a new instance, which holds no
    attribute of its own, initialised by [__init__]. *)
Definition filesystem (d : db) (name : pyobj) : res (pyobj * db) :=
  r <- __init__ d name ;;
  Ok (PObject "filesystem", snd r).

End filesystem.

