(* ===== verification/Program.v ===== *)
(** * The module's writers as a step relation

    Every function of [src/base/_netnode.py] that changes the database:
    the module-level [new] and [remove], [name.set], the [set] and
    [remove] of the classes [value], [blob], [alt], [sup] and [hash], and
    the construction of a [filesystem].
    [py_op] names a call, [run_py] makes it (raising as the source does),
    and [py_reachable] is what a program reaches from the empty database
    by a sequence of such calls, the raising ones leaving the database as
    it was.  Each call changes the database by at most one primitive of
    [Registry.op], so the registry's invariant holds of every reachable
    database; a call given its node by an index writes that node's
    record and no other ([program_call_local]). *)

From S2P Require Import Prelude PyObj Format Store Binding Registry Nodes Filesystem Value Alt Sup Hash Blob.
From stdpp Require Import base list gmap strings.
From coqutil Require Import Word.LittleEndianList.
From Stdlib Require Import ZArith.

Inductive py_op :=
| PyNew (name : pyobj)
| PyRemove (nodeidx : pyobj)
| PyNameSet (nodeidx s : pyobj)
| PyValueSet (nodeidx v : pyobj)
| PyValueRemove (nodeidx v : pyobj)
| PyBlobSet (nodeidx tag v start : pyobj)
| PyBlobRemove (nodeidx tag start : pyobj)
| PyAltSet (nodeidx idx v : pyobj)
| PyAltRemove (nodeidx idx : pyobj)
| PySupSet (nodeidx idx v : pyobj)
| PySupRemove (nodeidx idx : pyobj)
| PyHashSet (nodeidx key v : pyobj)
| PyHashRemove (nodeidx key : pyobj)
| PyFilesystem (name : pyobj).

Definition run_py (d : db) (o : py_op) : res (pyobj * db) :=
  match o with
  | PyNew name => Nodes.new d name
  | PyRemove nodeidx => Nodes.remove d nodeidx
  | PyNameSet nodeidx s => Nodes.name.set d nodeidx s
  | PyValueSet nodeidx v => value.set d nodeidx v
  | PyValueRemove nodeidx v => value.remove d nodeidx v
  | PyBlobSet nodeidx tag v start => blob.set d nodeidx tag v start
  | PyBlobRemove nodeidx tag start => blob.remove d nodeidx tag start
  | PyAltSet nodeidx idx v => alt.set d nodeidx idx v
  | PyAltRemove nodeidx idx => alt.remove d nodeidx idx
  | PySupSet nodeidx idx v => sup.set d nodeidx idx v
  | PySupRemove nodeidx idx => sup.remove d nodeidx idx
  | PyHashSet nodeidx key v => hash.set d nodeidx key v
  | PyHashRemove nodeidx key => hash.remove d nodeidx key
  | PyFilesystem name => filesystem.filesystem d name
  end.

(** The node argument of a call, for the calls that take one. *)
Definition py_target (o : py_op) : option pyobj :=
  match o with
  | PyNew _ | PyFilesystem _ => None
  | PyRemove n | PyNameSet n _ | PyValueSet n _ | PyValueRemove n _ | PyBlobSet n _ _ _
  | PyBlobRemove n _ _ | PyAltSet n _ _ | PyAltRemove n _ | PySupSet n _ _ | PySupRemove n _
  | PyHashSet n _ _ | PyHashRemove n _ => Some n
  end.

(** The database after a call: an exception leaves it as it was. *)
Definition apply_py (d : db) (o : py_op) : db :=
  match run_py d o with Ok (_, d') => d' | Err _ => d end.

Inductive py_reachable : db -> Prop :=
| py_reach_empty : py_reachable empty_db
| py_reach_step d o : py_reachable d -> py_reachable (apply_py d o).

(** [d'] is [d] or [d] changed by one primitive. *)
Definition steps_to (d d' : db) : Prop := d' = d \/ exists o, d' = apply_op d o.

(** ** Each call is at most one primitive *)

(** The primitive a binding ran, read off the equation of its result. *)
Ltac prim_op E :=
  match type of E with
  | netnode_new_name _ ?s ?c = _ => exists (OpNew s c)
  | netnode_rename _ ?i ?s = _ => exists (OpRename i s)
  | netnode_set _ ?i ?b = _ => exists (OpSet i b)
  | set_long _ ?i ?z = _ => exists (OpSet i (le_split 8 (to_nodeidx z))); unfold set_long in E
  | delvalue _ ?i = _ => exists (OpDelvalue i)
  | setblob _ ?i ?b ?s ?t = _ => exists (OpSetblob i b s t)
  | delblob _ ?i ?s ?t = _ => exists (OpDelblob i s t)
  | altset _ ?i ?k ?v = _ => exists (OpAltset i k v)
  | altdel _ ?i ?k = _ => exists (OpAltdel i k)
  | supset _ ?i ?k ?b = _ => exists (OpSupset i k b)
  | supdel _ ?i ?k = _ => exists (OpSupdel i k)
  | hashset _ ?i ?k ?b = _ => exists (OpHashset i k b)
  | hashset_buf _ ?i ?k ?b = _ => exists (OpHashset i k b); unfold hashset_buf in E
  | hashset_idx _ ?i ?k ?z = _ => exists (OpHashset i k (le_split 8 (to_nodeidx z))); unfold hashset_idx in E
  | hashdel _ ?i ?k = _ => exists (OpHashdel i k)
  end; cbn [apply_op]; by rewrite E.

(** A binding that returned [(r, d')] ran one primitive, whose database
    [d'] is. *)
Ltac binding_steps :=
  let H := fresh "H" in
  intros H; repeat apply res_bind_ok_inv in H as (? & _ & H);
  lazymatch type of H with
  | (let '(_, _) := ?e in _) = _ =>
      let E := fresh "E" in
      destruct e eqn:E; injection H as _ <-; right; prim_op E
  | Ok (_, netnode_kill _ ?i) = _ => injection H as _ <-; right; by exists (OpKill i)
  end.

Section Bindings.
Context (d d' : db) (r : pyobj).

Lemma new3_steps a b c : netnode.new3 d a b c = Ok (r, d') -> steps_to d d'.
Proof. unfold netnode.new3. binding_steps. Qed.
Lemma kill_steps n : netnode.kill d n = Ok (r, d') -> steps_to d d'.
Proof. unfold netnode.kill. binding_steps. Qed.
Lemma rename_steps n s : netnode.rename d n s = Ok (r, d') -> steps_to d d'.
Proof. unfold netnode.rename. binding_steps. Qed.
Lemma set_steps n v : netnode.set d n v = Ok (r, d') -> steps_to d d'.
Proof. unfold netnode.set. binding_steps. Qed.
Lemma set_long_steps n v : netnode.set_long d n v = Ok (r, d') -> steps_to d d'.
Proof. unfold netnode.set_long. binding_steps. Qed.
Lemma delvalue_steps n : netnode.delvalue d n = Ok (r, d') -> steps_to d d'.
Proof. unfold netnode.delvalue. binding_steps. Qed.
Lemma setblob_steps n v s t : netnode.setblob d n v s t = Ok (r, d') -> steps_to d d'.
Proof. unfold netnode.setblob. binding_steps. Qed.
Lemma delblob_steps n s t : netnode.delblob d n s t = Ok (r, d') -> steps_to d d'.
Proof. unfold netnode.delblob. binding_steps. Qed.
Lemma altset_steps n k v : netnode.altset d n k v = Ok (r, d') -> steps_to d d'.
Proof. unfold netnode.altset. binding_steps. Qed.
Lemma altdel_steps n k : netnode.altdel d n k = Ok (r, d') -> steps_to d d'.
Proof. unfold netnode.altdel. binding_steps. Qed.
Lemma supset_steps n k v : netnode.supset d n k v = Ok (r, d') -> steps_to d d'.
Proof. unfold netnode.supset. binding_steps. Qed.
Lemma supdel_steps n k : netnode.supdel d n k = Ok (r, d') -> steps_to d d'.
Proof. unfold netnode.supdel. binding_steps. Qed.
Lemma hashset_steps n k v : netnode.hashset d n k v = Ok (r, d') -> steps_to d d'.
Proof. unfold netnode.hashset. binding_steps. Qed.
Lemma hashset_buf_steps n k v : netnode.hashset_buf d n k v = Ok (r, d') -> steps_to d d'.
Proof. unfold netnode.hashset_buf. binding_steps. Qed.
Lemma hashset_idx_steps n k v : netnode.hashset_idx d n k v = Ok (r, d') -> steps_to d d'.
Proof. unfold netnode.hashset_idx. binding_steps. Qed.
Lemma hashdel_steps n k : netnode.hashdel d n k = Ok (r, d') -> steps_to d d'.
Proof. unfold netnode.hashdel. binding_steps. Qed.
End Bindings.

Lemma filesystem_init_steps d r d' n : filesystem.__init__ d n = Ok (r, d') -> steps_to d d'.
Proof.
  unfold filesystem.__init__. intros H. apply res_bind_ok_inv in H as ([i d1] & Hw & H).
  injection H as _ ->. by eapply new3_steps.
Qed.

#[local] Hint Resolve new3_steps kill_steps rename_steps set_steps set_long_steps delvalue_steps
  setblob_steps delblob_steps altset_steps altdel_steps supset_steps supdel_steps
  hashset_steps hashset_buf_steps hashset_idx_steps hashdel_steps filesystem_init_steps : netnode.

(** Peel the binds of a call down to the primitive it ran. *)
Ltac inv_binds H :=
  repeat lazymatch type of H with
  | res_bind _ _ = Ok _ => apply res_bind_ok_inv in H as (? & ?Hw & H)
  end.

(** A call of the module changes the database by at most one primitive. *)
Lemma run_py_steps d o r d' : run_py d o = Ok (r, d') -> steps_to d d'.
Proof.
  intros H. destruct o; cbn [run_py] in H;
    unfold Nodes.new, Nodes.remove, Nodes.name.set, value.set, value.remove, blob.set,
      blob.remove, alt.set, alt.remove, sup.set, sup.remove, hash.set, hash.remove,
      filesystem.filesystem in H;
    cbv zeta in H; inv_binds H; repeat (case_match; try discriminate);
    try by eauto with netnode; try by case (raise_fmt_not_ok _ _ _ H).
  (* a call that returns a database it did not get from a binding *)
  all: repeat match goal with p : (_ * db)%type |- _ => destruct p end;
    injection H as _ <-; first [by left | eauto with netnode].
Qed.

Lemma py_reachable_reachable d : py_reachable d -> reachable d.
Proof.
  induction 1 as [|d o _ IH]; [constructor|]. unfold apply_py.
  destruct (run_py d o) as [[r d']|e] eqn:E; [|done].
  destruct (run_py_steps d o r d' E) as [-> | [o' ->]]; [done|by constructor].
Qed.

(** Whatever sequence of calls of the module a program makes from
    the empty database, raising or not, the registry stays consistent:
    each name resolves to a node that carries it, each named node is what
    its name resolves to, and no two nodes carry the same name. *)
Lemma program_reg_wf d :
  py_reachable d ->
  reg_wf d /\ (forall i j s, nname (node_of d i) = Some s -> nname (node_of d j) = Some s -> i = j).
Proof. intros Hr. apply reachable_reg_wf, py_reachable_reachable, Hr. Qed.


(** ** The scenario of the specification *)

(** Create the node "alpha", store 42 at its hash key "k1", rename it,
    and store a str at its value. *)
Definition scenario_ops : list py_op :=
  [PyNew (PStr "alpha"); PyHashSet (PInt 0) (PStr "k1") (PInt 42);
   PyNameSet (PInt 0) (PStr "beta"); PyValueSet (PInt 0) (PStr "hi");
   PyNew (PStr "gamma"); PyRemove (PInt 1); PyFilesystem (PStr "fs")].

Definition scenario_db : db := foldl apply_py empty_db scenario_ops.

(** ** Each call writes only the node it is given *)

Section Frame.
Context (d : db) (i j : Z) (Hne : j <> i).

Lemma kill_frame : node_of (netnode_kill d i) j = node_of d j.
Proof. unfold node_of, netnode_kill. simpl. by rewrite lookup_delete_ne by congruence. Qed.

Lemma rename_frame s : node_of (snd (netnode_rename d i s)) j = node_of d j.
Proof.
  unfold netnode_rename. repeat case_match; cbn [snd]; try done;
    [trans (node_of (upd d i (set_nname None)) j) | trans (node_of (upd d i (set_nname (Some s))) j)];
    (reflexivity || by apply node_of_upd_ne).
Qed.

Lemma supset_frame k b : node_of (snd (supset d i k b)) j = node_of d j.
Proof. unfold supset. case_decide; simpl; [by rewrite node_of_upd_ne | done]. Qed.

Lemma hashset_frame key b : node_of (snd (hashset d i key b)) j = node_of d j.
Proof. unfold hashset. case_decide; simpl; [by rewrite node_of_upd_ne | done]. Qed.
End Frame.

(** Peel a call down to the store primitive it ran: its binds, its
    results, its pattern matches and its tests. *)
Ltac frame_tac :=
  repeat match goal with
  | H : res_bind _ _ = Ok _ |- _ => apply res_bind_ok_inv in H as (? & ? & H)
  | H : Ok _ = Ok _ |- _ => injection H as <- <-
  | H : Err _ = Ok _ |- _ => discriminate H
  | H : context [match ?e with (_, _) => _ end] |- _ => destruct e eqn:?
  | H : context [if ?b then _ else _] |- _ => destruct b eqn:?
  | H : context [match ?e with PNone => _ | _ => _ end] |- _ => destruct e eqn:?
  end.

(** C12: a call given its node by an integer index changes no other node:
    every record but that of [nodeidx] (reduced to a [nodeidx_t]) is the
    same after the call, whatever the call and whether it raises. *)
Theorem program_call_local d o z j :
  py_target o = Some (PInt z) -> j <> to_nodeidx z ->
  node_of (apply_py d o) j = node_of d j.
Proof.
  intros Ht Hj. unfold apply_py. destruct (run_py d o) as [[r d']|e] eqn:H; [|done].
  destruct o; cbn [py_target] in Ht; try discriminate; injection Ht as ->;
    cbn [run_py] in H;
    unfold Nodes.remove, Nodes.name.set, value.set, value.remove, blob.set,
      blob.remove, alt.set, alt.remove, sup.set, sup.remove, hash.set, hash.remove in H;
    cbn [netnode.new1 netnode.idx_arg py_num res_bind] in H; cbv zeta in H;
    unfold netnode.kill, netnode.rename, netnode.set, netnode.set_long, netnode.delvalue,
      netnode.setblob, netnode.delblob, netnode.altset, netnode.altdel, netnode.supset,
      netnode.supdel, netnode.hashset, netnode.hashset_buf, netnode.hashset_idx,
      netnode.hashdel, hashset_buf, hashset_idx in H;
    cbn [netnode.node_arg res_bind] in H; frame_tac.
  all: repeat match goal with
    | E : _ = (_, ?d0) |- node_of ?d0 _ = _ => apply (f_equal snd) in E; cbn [snd] in E; subst d0
    end.
  all: first [ done | by apply kill_frame | by apply rename_frame | by apply supset_frame
             | by apply hashset_frame | simpl; by rewrite node_of_upd_ne ].
Qed.

(** Setting an [alt] entry of node 1 leaves node 0 as it was. *)
Lemma program_call_local_witness :
  node_of (apply_py scenario_db (PyAltSet (PInt 1) (PInt 3) (PInt 4))) 0 = node_of scenario_db 0.
Proof. apply (program_call_local scenario_db _ 1 0); [reflexivity | vm_compute; lia]. Defined.


