(* ===== verification/Typing.v ===== *)
(** * The types of what the arrays hold

    The classes store into the [alt] array and the [sup] array through
    primitives that reduce every index and every [alt] value to a
    [nodeidx_t] and refuse a [sup] entry longer than [MAXSPECSIZE].  So in
    every database a program reaches through the module's calls, each
    array holds what its C type says: [node_ok].  This is the hypothesis
    the enumeration theorems of [Walks.v] and [Sup.v] take ([keys_ok]). *)

From S2P Require Import Prelude PyObj Store Registry Program.
From stdpp Require Import base list gmap strings.
From Stdlib Require Import ZArith.

(** The [alt] array maps [nodeidx_t] to [nodeidx_t], the [sup] array maps
    [nodeidx_t] to at most [MAXSPECSIZE] bytes, the [char] array is keyed
    by [nodeidx_t]. *)
Definition node_ok (n : netnode) : Prop :=
  keys_ok (nalt n) /\ map_Forall (fun _ v => idx_ok v) (nalt n) /\
  keys_ok (nsup n) /\ map_Forall (fun _ b => length b <= MAXSPECSIZE) (nsup n) /\
  keys_ok (nchar n).
Definition db_ok (d : db) : Prop := map_Forall (fun _ n => node_ok n) (nodes d).

#[export] Instance node_ok_dec n : Decision (node_ok n).
Proof. unfold node_ok. apply _. Defined.
#[export] Instance db_ok_dec d : Decision (db_ok d).
Proof. unfold db_ok. apply _. Defined.

(** ** Preservation *)

Lemma node_ok_empty : node_ok empty_netnode.
Proof. unfold node_ok, keys_ok; split_and!; apply map_Forall_empty. Qed.

Lemma db_ok_node_of d i : db_ok d -> node_ok (node_of d i).
Proof.
  intros Hd. unfold node_of. destruct (nodes d !! i) as [n|] eqn:E; simpl;
    [exact (Hd i n E) | apply node_ok_empty].
Qed.

Lemma db_ok_insert d i n nm nf :
  db_ok d -> node_ok n -> db_ok (mk_db (<[i := n]> (nodes d)) nm nf).
Proof. intros Hd Hn. by apply map_Forall_insert_2. Qed.

Lemma db_ok_delete d i nm nf : db_ok d -> db_ok (mk_db (delete i (nodes d)) nm nf).
Proof. intros Hd. by apply map_Forall_delete. Qed.

Lemma db_ok_upd_nodes d i f nm nf :
  db_ok d -> node_ok (f (node_of d i)) -> db_ok (mk_db (nodes (upd d i f)) nm nf).
Proof.
  intros Hd Hf. unfold upd; simpl. case_decide; [by apply db_ok_delete | by apply db_ok_insert].
Qed.

Lemma db_ok_upd d i f : db_ok d -> (forall n, node_ok n -> node_ok (f n)) -> db_ok (upd d i f).
Proof. intros Hd Hf. apply db_ok_upd_nodes; [done|]. by apply Hf, db_ok_node_of. Qed.

(** A change of anything but the [alt], [sup] and [char] arrays keeps a
    node well typed. *)
Lemma node_ok_frame n n' :
  nalt n' = nalt n -> nsup n' = nsup n -> nchar n' = nchar n -> node_ok n -> node_ok n'.
Proof. unfold node_ok. intros -> -> ->. done. Qed.

Lemma node_ok_altset n k v :
  node_ok n -> node_ok (set_nalt (<[to_nodeidx k := to_nodeidx v]> (nalt n)) n).
Proof.
  unfold node_ok, keys_ok. simpl. intros (Hk & Hv & Hs & Hl & Hc).
  split_and!; try apply map_Forall_insert_2; try apply to_nodeidx_range; auto.
Qed.

Lemma node_ok_supset n k b :
  length b <= MAXSPECSIZE -> node_ok n -> node_ok (set_nsup (<[to_nodeidx k := b]> (nsup n)) n).
Proof.
  unfold node_ok, keys_ok. simpl. intros Hb (Hk & Hv & Hs & Hl & Hc).
  split_and!; try apply map_Forall_insert_2; try apply to_nodeidx_range; auto.
Qed.

Lemma node_ok_altdel n k : node_ok n -> node_ok (set_nalt (delete k (nalt n)) n).
Proof.
  unfold node_ok, keys_ok. simpl. intros (Hk & Hv & Hs & Hl & Hc).
  split_and!; try apply map_Forall_delete; auto.
Qed.

Lemma node_ok_supdel n k : node_ok n -> node_ok (set_nsup (delete k (nsup n)) n).
Proof.
  unfold node_ok, keys_ok. simpl. intros (Hk & Hv & Hs & Hl & Hc).
  split_and!; try apply map_Forall_delete; auto.
Qed.

#[local] Hint Resolve node_ok_altset node_ok_supset node_ok_altdel node_ok_supdel : netnode.

Lemma db_ok_apply_op d o : db_ok d -> db_ok (apply_op d o).
Proof.
  intros Hd. destruct o; simpl;
    try (unfold netnode_set, delvalue, altset, altdel, supset, supdel, hashset, hashdel,
           setblob, delblob; simpl; try case_decide; simpl; try done;
         apply db_ok_upd; [done|]; intros n Hn; eauto with netnode;
         apply (node_ok_frame n); done).
  - unfold netnode_new_name. destruct (names d !! s); [done|]. destruct create; [|done].
    apply db_ok_upd_nodes; [done|]. apply (node_ok_frame (node_of d (fresh_idx d))); auto.
    by apply db_ok_node_of.
  - by apply db_ok_delete.
  - unfold netnode_rename. case_decide; [|destruct (names d !! s); [done|]];
      (apply db_ok_upd_nodes; [done|]);
      (apply (node_ok_frame (node_of d i)); [done..|by apply db_ok_node_of]).
Qed.

Lemma reachable_db_ok d : reachable d -> db_ok d.
Proof.
  induction 1 as [|d o _ IH]; [apply map_Forall_empty|by apply db_ok_apply_op].
Qed.

(** In every database a program reaches from the empty one through
    the module's calls, every node's arrays hold what their C types say:
    [alt] indices and values are [nodeidx_t]s, [sup] indices are
    [nodeidx_t]s and its entries hold at most [MAXSPECSIZE] bytes, [char]
    indices are [nodeidx_t]s. *)
Lemma program_arrays_typed d : py_reachable d -> forall i, node_ok (node_of d i).
Proof.
  intros Hr i. apply db_ok_node_of, reachable_db_ok, py_reachable_reachable, Hr.
Qed.
