(* ===== verification/Refine.v ===== *)
(** * The namespace classes refine an abstract sparse map

    The specification describes each namespace as a sparse key-value map:
    [get] reads a slot, [set] stores a value (or refuses it), [remove]
    deletes a slot and says whether there was one.  [sparse_spec] is that
    contract as a record of operations with its law: how a key is reduced
    (to a [nodeidx_t] for the integer-keyed arrays), which values [set]
    accepts, how a value is stored and how [get] reports a slot.  [sp_step]
    is the abstract machine over a [gmap].  A [lens] picks one namespace
    out of a netnode record.  The refinement theorems show, by a simulation
    lifted to any sequence of calls, that the classes [alt], [sup] and
    [hash] of [src/base/_netnode.py] give the results of the abstract map
    of their namespace, and change nothing else of the database. *)

From S2P Require Import Prelude PyObj Store Binding Alt Sup Hash.
From stdpp Require Import base list gmap strings.
From Stdlib Require Import ZArith.

(** ** The abstract contract *)

Record sparse_spec (K V : Type) := {
  sp_key : K -> K;
  sp_accept : K -> V -> bool;
  sp_val : V -> V;
  sp_read : option V -> pyobj;
  sp_key_idem : forall k, sp_key (sp_key k) = sp_key k
}.
Arguments sp_key {K V} s k.
Arguments sp_accept {K V} s k v.
Arguments sp_val {K V} s v.
Arguments sp_read {K V} s o.

(** A call on a namespace: [get(k)], [set(k, v)], [remove(k)]. *)
Inductive sp_op (K V : Type) :=
| SGet (k : K)
| SSet (k : K) (v : V)
| SDel (k : K).
Arguments SGet {K V} k.
Arguments SSet {K V} k v.
Arguments SDel {K V} k.

Section Abstract.
Context {K V : Type} `{Countable K} (S : sparse_spec K V).

Definition sp_step (m : gmap K V) (o : sp_op K V) : pyobj * gmap K V :=
  match o with
  | SGet k => (sp_read S (m !! sp_key S k), m)
  | SSet k v =>
      if sp_accept S k v then (PBool true, <[sp_key S k := sp_val S v]> m) else (PBool false, m)
  | SDel k => (PBool (bool_decide (is_Some (m !! sp_key S k))), delete (sp_key S k) m)
  end.
End Abstract.

(** ** Runs of a sequence of calls *)

Fixpoint crun {C O R} (step : C -> O -> res (R * C)) (c : C) (os : list O) : res (list R * C) :=
  match os with
  | [] => Ok ([], c)
  | o :: os' => p <- step c o ;; q <- crun step (snd p) os' ;; Ok (fst p :: fst q, snd q)
  end.

Fixpoint arun {A O R} (step : A -> O -> R * A) (a : A) (os : list O) : list R * A :=
  match os with
  | [] => ([], a)
  | o :: os' => let p := step a o in let q := arun step (snd p) os' in (fst p :: fst q, snd q)
  end.

(** A one-step simulation gives the simulation of every sequence. *)
Section Simulation.
Context {C A O R : Type} (cstep : C -> O -> res (R * C)) (astep : A -> O -> R * A)
  (rel : C -> A -> Prop).
Hypothesis Hsim : forall c a o, rel c a ->
  exists c', cstep c o = Ok (fst (astep a o), c') /\ rel c' (snd (astep a o)).

Lemma run_simulation os : forall c a, rel c a ->
  exists c', crun cstep c os = Ok (fst (arun astep a os), c') /\ rel c' (snd (arun astep a os)).
Proof.
  induction os as [|o os IH]; intros c a Hr; simpl; [eauto|].
  destruct (Hsim c a o Hr) as (c1 & Hc & Hr1). rewrite Hc. simpl.
  destruct (IH c1 _ Hr1) as (c2 & Hc2 & Hr2). rewrite Hc2. simpl. eauto.
Qed.
End Simulation.

(** ** One namespace of a netnode *)

Record lens (V : Type) := {
  lget : netnode -> V;
  lset : V -> netnode -> netnode;
  lget_set : forall v n, lget (lset v n) = v;
  lset_set : forall v w n, lset v (lset w n) = lset v n;
  lset_get : forall n, lset (lget n) n = n
}.
Arguments lget {V} l n.
Arguments lset {V} l v n.

Section Frame.
Context {V : Type} (L : lens V) (d0 : db) (i : Z).

(** [d] is [d0] with the namespace [L] of node [i] replaced by [m]. *)
Definition ns_rel (d : db) (m : V) : Prop :=
  node_of d i = lset L m (node_of d0 i) /\
  (forall j, j <> i -> node_of d j = node_of d0 j) /\ names d = names d0.

Lemma ns_rel_refl : ns_rel d0 (lget L (node_of d0 i)).
Proof. split_and!; [by rewrite lset_get|done|done]. Qed.

Lemma ns_rel_lget d m : ns_rel d m -> lget L (node_of d i) = m.
Proof. intros (-> & _ & _). apply lget_set. Qed.

(** A write of the namespace through [upd] keeps the relation. *)
Lemma ns_rel_upd d m f :
  ns_rel d m -> ns_rel (upd d i (fun n => lset L (f (lget L n)) n)) (f m).
Proof.
  intros (Hi & Hj & Hn). split_and!.
  - rewrite node_of_upd_eq, Hi, lget_set. apply lset_set.
  - intros j Hne. rewrite node_of_upd_ne by congruence. by apply Hj.
  - done.
Qed.
End Frame.

Definition alt_lens : lens (gmap Z Z).
Proof. refine {| lget := nalt; lset := set_nalt |}; by intros; destruct n. Defined.
Definition sup_lens : lens (gmap Z bytes).
Proof. refine {| lget := nsup; lset := set_nsup |}; by intros; destruct n. Defined.
Definition hash_lens : lens (gmap string bytes).
Proof. refine {| lget := nhash; lset := set_nhash |}; by intros; destruct n. Defined.

(** ** The three namespaces *)

(** The [alt] array: [nodeidx_t] keys and values, an absent slot reads 0. *)
Definition alt_spec : sparse_spec Z Z :=
  {| sp_key := to_nodeidx; sp_accept _ _ := true; sp_val := to_nodeidx;
     sp_read o := PInt (default 0%Z o); sp_key_idem := to_nodeidx_idem |}.
(** The [sup] array: [nodeidx_t] keys, entries of at most [MAXSPECSIZE]
    bytes, an absent slot reads [None]. *)
Definition sup_spec : sparse_spec Z bytes :=
  {| sp_key := to_nodeidx; sp_accept _ b := bool_decide (length b <= MAXSPECSIZE); sp_val b := b;
     sp_read := of_buffer; sp_key_idem := to_nodeidx_idem |}.
(** The hash: str keys of at most [MAXHASHKEY] characters, entries of at
    most [MAXSPECSIZE] bytes, an absent key reads [None]. *)
Definition hash_spec : sparse_spec string bytes :=
  {| sp_key k := k; sp_accept k b := bool_decide (String.length k <= MAXHASHKEY /\ length b <= MAXSPECSIZE);
     sp_val b := b; sp_read := of_buffer;
     sp_key_idem _ := eq_refl |}.

(** The calls of each class on the node [z]. *)
Definition alt_call (z : Z) (d : db) (o : sp_op Z Z) : res (pyobj * db) :=
  match o with
  | SGet k => r <- alt.get d (PInt z) (PInt k) ;; Ok (r, d)
  | SSet k v => alt.set d (PInt z) (PInt k) (PInt v)
  | SDel k => alt.remove d (PInt z) (PInt k)
  end.
Definition sup_call (z : Z) (d : db) (o : sp_op Z bytes) : res (pyobj * db) :=
  match o with
  | SGet k => r <- sup.get d (PInt z) (PInt k) None ;; Ok (r, d)
  | SSet k b => sup.set d (PInt z) (PInt k) (PBytes b)
  | SDel k => sup.remove d (PInt z) (PInt k)
  end.
Definition hash_call (z : Z) (d : db) (o : sp_op string bytes) : res (pyobj * db) :=
  match o with
  | SGet k => r <- hash.get d (PInt z) (PStr k) None ;; Ok (r, d)
  | SSet k b => hash.set d (PInt z) (PStr k) (PBytes b)
  | SDel k => hash.remove d (PInt z) (PStr k)
  end.

(** ** Refinement *)

(** C9: any sequence of [alt.get], [alt.set] and [alt.remove] calls on a
    node gives the results of the abstract sparse map of [nodeidx_t]
    (absent slots read 0) started from the node's [alt] array, and leaves
    the database as it was but for that array, which is the abstract
    map's final state. *)
Theorem alt_refines z d ops :
  exists d', crun (alt_call z) d ops =
    Ok (fst (arun (sp_step alt_spec) (nalt (node_of d (to_nodeidx z))) ops), d') /\
    ns_rel alt_lens d (to_nodeidx z) d' (snd (arun (sp_step alt_spec) (nalt (node_of d (to_nodeidx z))) ops)).
Proof.
  apply (run_simulation _ _ (ns_rel alt_lens d (to_nodeidx z))); [|apply (ns_rel_refl alt_lens)].
  intros d1 m o Hr. pose proof (ns_rel_lget _ _ _ _ _ Hr) as Hm. simpl in Hm.
  destruct o as [k|k v|k]; cbn [alt_call sp_step sp_read sp_key sp_accept sp_val alt_spec fst snd res_bind].
  - exists d1. rewrite alt_get_eq. unfold altval. by rewrite Hm.
  - eexists. split; [reflexivity|]. exact (ns_rel_upd alt_lens d _ d1 m _ Hr).
  - eexists. split; [unfold alt.remove, netnode.altdel, altdel; simpl; by rewrite Hm|].
    exact (ns_rel_upd alt_lens d _ d1 m _ Hr).
Qed.

(** C10: the same for [sup.get] (no type), [sup.set] of bytes and
    [sup.remove]: a sparse map of byte strings that refuses an entry
    longer than [MAXSPECSIZE]. *)
Theorem sup_refines z d ops :
  exists d', crun (sup_call z) d ops =
    Ok (fst (arun (sp_step sup_spec) (nsup (node_of d (to_nodeidx z))) ops), d') /\
    ns_rel sup_lens d (to_nodeidx z) d' (snd (arun (sp_step sup_spec) (nsup (node_of d (to_nodeidx z))) ops)).
Proof.
  apply (run_simulation _ _ (ns_rel sup_lens d (to_nodeidx z))); [|apply (ns_rel_refl sup_lens)].
  intros d1 m o Hr. pose proof (ns_rel_lget _ _ _ _ _ Hr) as Hm. simpl in Hm.
  destruct o as [k|k b|k]; cbn [sup_call sp_step sp_read sp_key sp_accept sp_val sup_spec fst snd res_bind].
  - exists d1. rewrite sup_get_eq. unfold supval. by rewrite Hm.
  - unfold sup.set, netnode.supset, supset. simpl.
    destruct (decide (length b <= MAXSPECSIZE)) as [Hb|Hb].
    + rewrite bool_decide_true by done. eexists. split; [reflexivity|].
      exact (ns_rel_upd sup_lens d _ d1 m _ Hr).
    + rewrite bool_decide_false by done. eauto.
  - eexists. split; [unfold sup.remove, netnode.supdel, supdel, supval; simpl; by rewrite Hm|].
    exact (ns_rel_upd sup_lens d _ d1 m _ Hr).
Qed.

(** C11: the same for [hash.get] (no type), [hash.set] of bytes and
    [hash.remove]: a map from str keys to byte strings that refuses a key
    longer than [MAXHASHKEY] characters or an entry longer than
    [MAXSPECSIZE] bytes. *)
Theorem hash_refines z d ops :
  exists d', crun (hash_call z) d ops =
    Ok (fst (arun (sp_step hash_spec) (nhash (node_of d (to_nodeidx z))) ops), d') /\
    ns_rel hash_lens d (to_nodeidx z) d' (snd (arun (sp_step hash_spec) (nhash (node_of d (to_nodeidx z))) ops)).
Proof.
  apply (run_simulation _ _ (ns_rel hash_lens d (to_nodeidx z))); [|apply (ns_rel_refl hash_lens)].
  intros d1 m o Hr. pose proof (ns_rel_lget _ _ _ _ _ Hr) as Hm. simpl in Hm.
  destruct o as [k|k b|k]; cbn [hash_call sp_step sp_read sp_key sp_accept sp_val hash_spec fst snd res_bind].
  - exists d1. rewrite hash_get_none. unfold hashval. by rewrite Hm.
  - unfold hash.set, netnode.hashset_buf, hashset_buf, hashset. simpl.
    destruct (decide (String.length k <= MAXHASHKEY /\ length b <= MAXSPECSIZE)) as [Hb|Hb].
    + rewrite bool_decide_true by done. eexists. split; [reflexivity|].
      exact (ns_rel_upd hash_lens d _ d1 m _ Hr).
    + rewrite bool_decide_false by done. eauto.
  - eexists. split; [unfold hash.remove, netnode.hashdel, hashdel, hashval; simpl; by rewrite Hm|].
    exact (ns_rel_upd hash_lens d _ d1 m _ Hr).
Qed.

(** The calls run on a database: set 5 at index 2^64 + 3 (index 3), read
    it back, remove it twice. *)
Example alt_calls_run :
  res_map fst (crun (alt_call 0) empty_db [SSet (2 ^ 64 + 3) 5; SGet 3; SDel 3; SDel 3; SGet 3]%Z) =
  Ok [PBool true; PInt 5; PBool true; PBool false; PInt 0].
Proof. reflexivity. Qed.
